(** * Interview-preparation backend: request orchestration, storage adapter
      and language-model adapter, embedded in Rocq

    The development follows the Python sources

      - [backend/app/api/job_descriptions.py]   (upload, listing, questions)
      - [backend/app/api/responses.py]          (submission, listing)
      - [backend/app/services/r2_storage_service.py]
      - [backend/app/services/claude_service.py]
      - [backend/app/models/response.py], [backend/app/models/user.py]

    Python code that raises is embedded in a state-and-exception monad [Py]
    whose state survives a raised exception, so that what a handler has
    already written when it fails stays visible.  The relational store is a
    record of tables; an ORM session stages objects with [db_add] and writes
    them to the tables with [db_commit].  What the hosted services answer
    (object store, PDF reader, language model, speech-to-text) is not decided
    by this code: it is a record [Services] of functions over which every
    theorem quantifies.

    Conventions.  Python [str] is [string], read as a sequence of code
    points below 256 (one character of [ascii] is the code point of its
    number); [lower] and [isspace] are Python's on those code points.  Paths
    are POSIX paths.  Python [int] is [Z].  UUIDs are numbered in the order
    [uuid.uuid4] gives them.  Database statements themselves do not fail
    (the store is reliable; only the services raise); a query without
    [order_by] returns its rows in an order the database chooses
    ([RowOrder]).  The text of a prompt is not built: the language model is
    given the template and the three values the template interpolates.

    Contents: Python strings and paths; exceptions; the data model; the
    monad; the hosted services; the storage service; the language-model
    service; the ORM session; the two handler modules; the vocabulary of
    the statements; concrete scenarios; then the proofs, claim by claim,
    the invariant of the store, the scenarios of section 8 of the
    specification, and further properties of the handlers and of the
    storage and language-model services (X1 to X25). *)

From Stdlib Require Import String Ascii List ZArith NArith Bool Lia Arith.
From Stdlib Require Import DecimalString.
From Stdlib Require Import Strings.Byte.
From Stdlib Require Import Sorted Permutation.
Import ListNotations.
Open Scope list_scope.
Open Scope string_scope.

Set Implicit Arguments.

(* ===================================================================== *)
(** * Python strings *)
(* ===================================================================== *)

Module PyStr.

(** [c.lower()] on one character: the capital letters A to Z (65-90) and,
    above the ASCII range, U+00C0 to U+00DE except the multiplication sign
    U+00D7, each 32 below its small letter. *)
Definition lower_ascii (c : ascii) : ascii :=
  let n := nat_of_ascii c in
  if (((65 <=? n) && (n <=? 90))
      || ((192 <=? n) && (n <=? 222) && negb (n =? 215)))%nat
  then ascii_of_nat (n + 32) else c.

(** [s.lower()] *)
Fixpoint lower (s : string) : string :=
  match s with
  | EmptyString => EmptyString
  | String c s' => String (lower_ascii c) (lower s')
  end.

(** [s.endswith(suffix)] *)
Definition endswith (s suffix : string) : bool :=
  let n := String.length s in
  let k := String.length suffix in
  (k <=? n)%nat && String.eqb (substring (n - k) k s) suffix.

(** [chr(n).isspace()], which is also what [str.strip()] removes: the code
    points of general category Zs or of bidirectional class WS, B or S.
    These are tab to carriage return (U+0009-000D), the four separators
    U+001C-001F, the space, next line U+0085, the no-break space U+00A0,
    U+1680, U+2000-200A, U+2028, U+2029, U+202F, U+205F and U+3000. *)
Definition isspace_code (n : N) : bool :=
  (((9 <=? n) && (n <=? 13)) || ((28 <=? n) && (n <=? 32))
   || (n =? 133) || (n =? 160) || (n =? 5760)
   || ((8192 <=? n) && (n <=? 8202))
   || (n =? 8232) || (n =? 8233) || (n =? 8239) || (n =? 8287)
   || (n =? 12288))%N.

(** [c.isspace()] for a character of a string. *)
Definition isspace (c : ascii) : bool := isspace_code (N_of_ascii c).

Fixpoint lstrip (s : string) : string :=
  match s with
  | EmptyString => EmptyString
  | String c s' => if isspace c then lstrip s' else s
  end.

Fixpoint rstrip (s : string) : string :=
  match s with
  | EmptyString => EmptyString
  | String c s' =>
      match rstrip s' with
      | EmptyString => if isspace c then EmptyString else String c EmptyString
      | r => String c r
      end
  end.

(** [s.strip()] *)
Definition strip (s : string) : string := rstrip (lstrip s).

(** The one-character string of the line feed. *)
Definition newline : string := String "010" EmptyString.

(** [sep.join(parts)] *)
Definition join (sep : string) (parts : list string) : string :=
  String.concat sep parts.

(** Truth value of a string in a condition: [if s:]. *)
Definition truthy (s : string) : bool := negb (String.eqb s "").

(** [s.rfind(c)] for a one-character needle. *)
Fixpoint rfind (c : ascii) (s : string) : option nat :=
  match s with
  | EmptyString => None
  | String a s' =>
      match rfind c s' with
      | Some i => Some (S i)
      | None => if Ascii.eqb a c then Some 0 else None
      end
  end.

(** [needle in s] *)
Fixpoint contains (needle s : string) : bool :=
  String.prefix needle s
  || match s with
     | EmptyString => false
     | String _ s' => contains needle s'
     end.

(** [str(n)] for an integer. *)
Definition of_Z (n : Z) : string := NilZero.string_of_int (Z.to_int n).
Definition of_N (n : N) : string := NilZero.string_of_uint (N.to_uint n).

End PyStr.

(** [pathlib.Path(p).suffix] for a POSIX path.  [Path] splits [p] at the
    slashes and keeps the components that are neither empty nor "."; the
    name is the last component kept, or "" when none is; the suffix of the
    name starts at its last dot, unless that dot is its first or its last
    character (the rule of CPython up to 3.13). *)
Module pathlib.

(** [p.split("/")] *)
Fixpoint split (p : string) : list string :=
  match p with
  | EmptyString => [EmptyString]
  | String c p' =>
      if Ascii.eqb c "/" then EmptyString :: split p'
      else match split p' with
           | x :: xs => String c x :: xs
           | [] => [String c EmptyString]
           end
  end.

(** The components [Path(p)] keeps. *)
Definition parts (p : string) : list string :=
  filter (fun x => negb (String.eqb x "") && negb (String.eqb x "."))
         (split p).

(** [Path(p).name] *)
Definition name (p : string) : string := last (parts p) "".

(** [Path(p).suffix] *)
Definition suffix (p : string) : string :=
  let nm := name p in
  match PyStr.rfind "." nm with
  | Some i =>
      if ((0 <? i) && (i <? String.length nm - 1))%nat
      then substring i (String.length nm - i) nm
      else ""
  | None => ""
  end.

End pathlib.

(* ===================================================================== *)
(** * Exceptions *)
(* ===================================================================== *)

(** The exception classes the handlers tell apart: FastAPI's
    [HTTPException], botocore's [ClientError], and any other [Exception]
    (SDK errors, validation errors, attribute errors), each with the text
    [str(e)] gives. *)
Inductive Exc : Type :=
| HTTPException (status_code : Z) (detail : string)
| ClientError (message : string)
| Exception (message : string).

(** [str(e)] *)
Definition str (e : Exc) : string :=
  match e with
  | HTTPException c d => PyStr.of_Z c ++ ": " ++ d
  | ClientError m => m
  | Exception m => m
  end.

Definition HTTP_201_CREATED : Z := 201.
Definition HTTP_400_BAD_REQUEST : Z := 400.
Definition HTTP_404_NOT_FOUND : Z := 404.
Definition HTTP_500_INTERNAL_SERVER_ERROR : Z := 500.

(** What running a piece of Python gives: a value or a raised exception. *)
Inductive Outcome (A : Type) : Type :=
| Returned (a : A)
| Raised (e : Exc).
Arguments Returned {A} a.
Arguments Raised {A} e.

(* ===================================================================== *)
(** * Data model *)
(* ===================================================================== *)

(** Primary keys are UUIDs drawn by [uuid.uuid4]; they are numbered here. *)
Definition UUID := N.
Bind Scope N_scope with UUID.

Definition bytes := list byte.

(** [app/models/user.py] *)
Record User : Type := {
  id : UUID;
  email : string;
  password_hash : string;
  created_at : Z;
  updated_at : Z
}.

Inductive JobDescriptionStatus : Type :=
| PENDING
| QUESTIONS_GENERATED
| ERROR.

(** Modelled from the spec: the model [JobDescription] of
    [app/models/job_description.py], which is not among the sources.
    Section 3 lists "id, user_id, company_name, job_title, file_path,
    extracted_text, status, error_message" with "status in {pending,
    questions_generated, error}"; [created_at] is the column
    [list_job_descriptions] orders by. *)
Record JobDescription : Type := {
  jd_id : UUID;
  jd_user_id : UUID;
  company_name : string;
  job_title : string;
  file_path : string;
  extracted_text : string;
  status : JobDescriptionStatus;
  error_message : option string;
  jd_created_at : Z
}.

(** Modelled from the spec: the model [Question] of
    [app/models/question.py], which is not among the sources.  Section 3:
    "id, job_description_id, user_id, question_text". *)
Record Question : Type := {
  q_id : UUID;
  q_job_description_id : UUID;
  q_user_id : UUID;
  question_text : string
}.

(** [app/models/response.py] *)
Record Response : Type := {
  r_id : UUID;
  r_question_id : UUID;
  r_user_id : UUID;
  audio_path : string;
  transcript : string;
  r_created_at : Z
}.

(** [claude_service.Scores]: five integer sub-scores. *)
Record Scores : Type := {
  confidence : Z;
  clarity_structure : Z;
  technical_depth : Z;
  communication_skills : Z;
  relevance : Z
}.

(** [claude_service.Feedback] *)
Record Feedback : Type := {
  fb_confidence : string;
  fb_clarity_structure : string;
  fb_technical_depth : string;
  fb_communication_skills : string;
  fb_relevance : string
}.

(** [claude_service.EvaluationResult], and the dictionary with the keys
    ["scores"], ["feedback"], ["overall_comment"] that [evaluate_response]
    builds from it. *)
Record EvaluationResult : Type := {
  scores : Scores;
  feedback : Feedback;
  overall_comment : string
}.

(** Modelled from the spec: the model [ResponseScore] of
    [app/models/response_score.py], which is not among the sources.
    Section 3: "id, response_id, five numeric sub-scores (1-10), structured
    feedback blob"; the columns are those [submit_response] fills. *)
Record ResponseScore : Type := {
  rs_id : UUID;
  rs_response_id : UUID;
  scores_json : EvaluationResult;
  score_confidence : Z;
  score_clarity_structure : Z;
  score_technical_depth : Z;
  score_communication_skills : Z;
  score_relevance : Z
}.

(** The relational store: one list of rows per table, in insertion order. *)
Record Database : Type := {
  job_descriptions : list JobDescription;
  questions : list Question;
  responses : list Response;
  response_scores : list ResponseScore
}.

(** An object of the bucket. *)
Record Blob : Type := {
  Body : bytes;
  ContentType : string
}.

(** Everything that outlives a request: the tables, the bucket (key and
    object, latest put first), the source of fresh UUIDs and the clock. *)
Record World : Type := {
  db : Database;
  bucket : list (string * Blob);
  uuid_counter : N;
  clock : Z
}.

(** An ORM session: objects added and not yet flushed, and persistent
    job descriptions whose attributes were assigned since the last flush. *)
Inductive Entity : Type :=
| JobDescriptionRow (j : JobDescription)
| QuestionRow (q : Question)
| ResponseRow (r : Response)
| ResponseScoreRow (s : ResponseScore).

Record Session : Type := {
  pending : list Entity;
  dirty : list JobDescription
}.

Definition new_session : Session := {| pending := []; dirty := [] |}.

Record State : Type := {
  world : World;
  session : Session
}.

(* ===================================================================== *)
(** * The monad of Python code *)
(* ===================================================================== *)

Definition Py (A : Type) : Type := State -> Outcome A * State.

Definition ret {A} (a : A) : Py A := fun st => (Returned a, st).

Definition bind {A B} (m : Py A) (k : A -> Py B) : Py B :=
  fun st =>
    match m st with
    | (Returned a, st') => k a st'
    | (Raised e, st') => (Raised e, st')
    end.

Definition raise {A} (e : Exc) : Py A := fun st => (Raised e, st).

(** [try: body  except Exception as e: handler e] *)
Definition try_except {A} (body : Py A) (handler : Exc -> Py A) : Py A :=
  fun st =>
    match body st with
    | (Returned a, st') => (Returned a, st')
    | (Raised e, st') => handler e st'
    end.

Declare Scope py_scope.
Delimit Scope py_scope with py.
Notation "x <- m ;; k" := (bind m (fun x => k))
  (at level 61, m at next level, right associativity) : py_scope.
Notation "' p <- m ;; k" := (bind m (fun x => let p := x in k))
  (at level 61, p pattern, m at next level, right associativity) : py_scope.
Notation "m ;; k" := (bind m (fun _ => k))
  (at level 61, right associativity) : py_scope.
Open Scope py_scope.

(** [for x in xs: body x] *)
Fixpoint for_each {A} (xs : list A) (body : A -> Py unit) : Py unit :=
  match xs with
  | [] => ret tt
  | x :: xs' => body x ;; for_each xs' body
  end.

Definition get_world : Py World := fun st => (Returned (world st), st).

Definition put_world (w : World) : Py unit :=
  fun st => (Returned tt, {| world := w; session := session st |}).

(** The state a request starts in. *)
Definition fresh_state (w : World) : State :=
  {| world := w; session := new_session |}.

(** A request runs its handler with a session of its own, which is closed
    when the handler is left: what was added and never committed is lost. *)
Definition request {A} (handler : Py A) (w : World) : Outcome A * World :=
  let '(r, st) := handler (fresh_state w) in
  (r, world st).

(* ===================================================================== *)
(** * Uploaded files *)
(* ===================================================================== *)

(** A binary stream with its read position. *)
Record BinaryIO : Type := {
  data : bytes;
  pos : nat
}.

(** [f.read()]: what lies after the position, which moves to the end. *)
Definition BinaryIO_read (f : BinaryIO) : bytes * BinaryIO :=
  (skipn (pos f) (data f), {| data := data f; pos := length (data f) |}).

(** [f.seek(n)] *)
Definition BinaryIO_seek (f : BinaryIO) (n : nat) : BinaryIO :=
  {| data := data f; pos := n |}.

(** FastAPI's [UploadFile]. *)
Record UploadFile : Type := {
  filename : string;
  file : BinaryIO
}.

(** [upload.file], for the handler whose parameter is itself named [file]. *)
Definition file_of (upload : UploadFile) : BinaryIO := file upload.

(** An upload as the framework hands it over: the stream at its start. *)
Definition mkUpload (name : string) (content : bytes) : UploadFile :=
  {| filename := name; file := {| data := content; pos := 0 |} |}.

(* ===================================================================== *)
(** * The hosted services *)
(* ===================================================================== *)

(** A page of a parsed PDF: what [page.extract_text()] gives. *)
Record Page : Type := {
  extract_text : Outcome string
}.

(** The two prompt templates of [claude_service], with the three values
    each interpolates. *)
Inductive Prompt : Type :=
| QuestionsPrompt (company_name job_title job_description_text : string)
| EvaluationPrompt (job_description_text question_text transcript : string).

(** What the outside world answers.  None of it is computed by the
    repository; a theorem about a handler holds for every [Services]. *)
Record Services : Type := {
  (** [s3_client.put_object(Bucket, Key, Body, ContentType)]: the exception
      it raises, if any. *)
  put_object_raises : string -> string -> bytes -> string -> option Exc;
  (** [s3_client.generate_presigned_url(ClientMethod, Params={Bucket, Key},
      ExpiresIn)] *)
  generate_presigned_url : string -> string -> string -> Z -> Outcome string;
  (** [pypdf.PdfReader(path).pages] for a file with the given content. *)
  PdfReader : bytes -> Outcome (list Page);
  (** The structured output of the language model before validation against
      the requested schema: an exception of the call, no parsed output, or
      the decoded value. *)
  model_questions : Prompt -> Outcome (option (list string));
  model_evaluation : Prompt -> Outcome (option EvaluationResult);
  (** The speech-to-text engine on a stored audio object. *)
  speech_to_text : string -> Outcome string
}.

(** [app.core.config.settings], the part the storage service reads. *)
Record Settings : Type := {
  r2_bucket_name : string;
  r2_public_url : option string
}.

(* ===================================================================== *)
(** * State helpers *)
(* ===================================================================== *)

Definition with_db (w : World) (d : Database) : World :=
  {| db := d; bucket := bucket w; uuid_counter := uuid_counter w; clock := clock w |}.

Definition with_bucket (w : World) (b : list (string * Blob)) : World :=
  {| db := db w; bucket := b; uuid_counter := uuid_counter w; clock := clock w |}.

Definition with_uuid_counter (w : World) (n : N) : World :=
  {| db := db w; bucket := bucket w; uuid_counter := n; clock := clock w |}.

(** [uuid.uuid4()]: a UUID never drawn before. *)
Definition uuid4 : Py UUID :=
  w <- get_world ;;
  put_world (with_uuid_counter w (N.succ (uuid_counter w))) ;;
  ret (uuid_counter w).

(** [datetime.utcnow()] *)
Definition utcnow : Py Z :=
  w <- get_world ;;
  ret (clock w).

(* ===================================================================== *)
(** * r2_storage_service.py *)
(* ===================================================================== *)

Module r2_storage_service.
Section WithServices.

Variable svc : Services.

(** The attributes [__init__] sets on [self]. *)
Record R2StorageService : Type := {
  bucket_name : string;
  public_url : option string
}.

Definition init (settings : Settings) : R2StorageService :=
  {| bucket_name := r2_bucket_name settings;
     public_url := r2_public_url settings |}.

(** [self.s3_client.put_object(...)]: raises what the store raises,
    otherwise the object is in the bucket under the key. *)
Definition s3_put_object (Bucket Key : string) (body : bytes)
    (content_type : string) : Py unit :=
  match put_object_raises svc Bucket Key body content_type with
  | Some e => raise e
  | None =>
      w <- get_world ;;
      put_world (with_bucket w
        ((Key, {| Body := body; ContentType := content_type |}) :: bucket w))
  end.

(** The loop of [extract_pdf_text] over [reader.pages]. *)
Fixpoint collect_text_parts (pages : list Page) (text_parts : list string)
    : Outcome (list string) :=
  match pages with
  | [] => Returned text_parts
  | page :: rest =>
      match extract_text page with
      | Raised e => Raised e
      | Returned text =>
          if PyStr.truthy text
          then collect_text_parts rest (text_parts ++ [text])%list
          else collect_text_parts rest text_parts
      end
  end.

(** [extract_pdf_text(self, pdf_path)], on the content written to the
    temporary file at [pdf_path]. *)
Definition extract_pdf_text (content : bytes) : Py string :=
  try_except
    (match PdfReader svc content with
     | Raised e => raise e
     | Returned pages =>
         match collect_text_parts pages [] with
         | Raised e => raise e
         | Returned text_parts =>
             let full_text := PyStr.strip (PyStr.join PyStr.newline text_parts) in
             ret full_text
         end
     end)
    (fun e => raise (Exception "Failed to extract text from PDF")).

(** [save_pdf(self, file, filename)].  The temporary file only carries
    [content] to the PDF reader and is always unlinked. *)
Definition save_pdf (self : R2StorageService) (file : BinaryIO)
    (filename : string) : Py (string * string) :=
  try_except
    (let file_ext := pathlib.suffix filename in
     u <- uuid4 ;;
     let unique_filename := PyStr.of_N u ++ file_ext in
     let r2_key := "pdfs/" ++ unique_filename in
     let '(content, _) := BinaryIO_read file in
     s3_put_object (bucket_name self) r2_key content "application/pdf" ;;
     extracted_text <- extract_pdf_text content ;;
     ret (r2_key, extracted_text))
    (fun e =>
       match e with
       | ClientError _ => raise (Exception ("Failed to save PDF to R2: " ++ str e))
       | _ => raise e
       end).

(** [save_audio(self, file, filename)] *)
Definition save_audio (self : R2StorageService) (file : BinaryIO)
    (filename : string) : Py string :=
  try_except
    (let file_ext :=
       let s := pathlib.suffix filename in
       if PyStr.truthy s then s else ".webm" in
     u <- uuid4 ;;
     let unique_filename := PyStr.of_N u ++ file_ext in
     let r2_key := "audio/" ++ unique_filename in
     let '(content, _) := BinaryIO_read file in
     let content_type :=
       if String.eqb file_ext ".ogg" then "audio/ogg"
       else if String.eqb file_ext ".wav" then "audio/wav"
       else "audio/webm" in
     s3_put_object (bucket_name self) r2_key content content_type ;;
     ret r2_key)
    (fun e =>
       match e with
       | ClientError _ => raise (Exception ("Failed to save audio to R2: " ++ str e))
       | _ => raise e
       end).

(** [f'{x}'] for an optional string. *)
Definition format_optional (x : option string) : string :=
  match x with
  | Some u => u
  | None => "None"
  end.

(** Truth value of [self.public_url]: set, and not the empty string. *)
Definition public_url_configured (self : R2StorageService) : bool :=
  match public_url self with
  | Some u => PyStr.truthy u
  | None => false
  end.

(** [get_file_url(self, r2_key)] *)
Definition get_file_url (self : R2StorageService) (r2_key : string)
    : Py string :=
  if public_url_configured self then
    ret (format_optional (public_url self) ++ "/" ++ r2_key)
  else
    try_except
      (match generate_presigned_url svc "get_object" (bucket_name self) r2_key 3600 with
       | Raised e => raise e
       | Returned url => ret url
       end)
      (fun e => raise e).

End WithServices.
End r2_storage_service.

(** Modelled from the spec: the global [storage_service] that both handler
    modules import from [app/services/storage_service.py], a file that is not
    among the sources.  Section 4.2 describes the storage adapter as a thin
    adapter over an S3-compatible object store with exactly the operations
    of [R2StorageService], so the instance is taken to be one, built from
    the settings. *)
Definition storage_service (settings : Settings)
    : r2_storage_service.R2StorageService :=
  r2_storage_service.init settings.

(* ===================================================================== *)
(** * claude_service.py *)
(* ===================================================================== *)

Module claude_service.
Section WithServices.

Variable svc : Services.

(** [QuestionsList.questions]: [min_length=5, max_length=5]. *)
Definition QuestionsList_valid (questions : list string) : bool :=
  ((5 <=? length questions) && (length questions <=? 5))%nat.

(** A score field: [ge=1, le=10]. *)
Definition score_valid (x : Z) : bool := ((1 <=? x) && (x <=? 10))%Z.

Definition Scores_valid (s : Scores) : bool :=
  score_valid (confidence s) && score_valid (clarity_structure s)
  && score_valid (technical_depth s) && score_valid (communication_skills s)
  && score_valid (relevance s).

Definition EvaluationResult_valid (r : EvaluationResult) : bool :=
  Scores_valid (scores r).

(** [self.client.beta.messages.parse(..., output_format=QuestionsList)]:
    the call may raise; its [parsed_output] is absent or has passed the
    validation of the schema, which raises otherwise. *)
Definition parse_QuestionsList (prompt : Prompt) : Py (option (list string)) :=
  match model_questions svc prompt with
  | Raised e => raise e
  | Returned None => ret None
  | Returned (Some qs) =>
      if QuestionsList_valid qs then ret (Some qs)
      else raise (Exception "1 validation error for QuestionsList")
  end.

Definition parse_EvaluationResult (prompt : Prompt) : Py (option EvaluationResult) :=
  match model_evaluation svc prompt with
  | Raised e => raise e
  | Returned None => ret None
  | Returned (Some r) =>
      if EvaluationResult_valid r then ret (Some r)
      else raise (Exception "1 validation error for EvaluationResult")
  end.

(** [generate_questions(self, job_description_text, company_name, job_title)] *)
Definition generate_questions (job_description_text company_name job_title : string)
    : Py (list string) :=
  let prompt := QuestionsPrompt company_name job_title job_description_text in
  parsed_output <- parse_QuestionsList prompt ;;
  match parsed_output with
  | None => raise (Exception "Failed to parse questions from Claude response")
  | Some questions => ret questions
  end.

(** [evaluate_response(self, job_description_text, question_text, transcript)] *)
Definition evaluate_response (job_description_text question_text transcript : string)
    : Py EvaluationResult :=
  let prompt := EvaluationPrompt job_description_text question_text transcript in
  parsed_output <- parse_EvaluationResult prompt ;;
  match parsed_output with
  | None => raise (Exception "Failed to parse evaluation from Claude response")
  | Some result =>
      ret {| scores := scores result;
             feedback := feedback result;
             overall_comment := overall_comment result |}
  end.

End WithServices.
End claude_service.

(* ===================================================================== *)
(** * whisper_service *)
(* ===================================================================== *)

Module whisper_service.

(** Modelled from the spec: [whisper_service.transcribe], of
    [app/services/whisper_service.py], which is not among the sources.
    Section 4.3: transcription "converts an audio blob to text
    synchronously; its internal mechanics are opaque (external
    speech-to-text engine) and it either returns a transcript string or
    fails". *)
Definition transcribe (svc : Services) (audio_path : string) : Py string :=
  match speech_to_text svc audio_path with
  | Raised e => raise e
  | Returned text => ret text
  end.

End whisper_service.

(* ===================================================================== *)
(** * The ORM session *)
(* ===================================================================== *)

Definition insert_row (d : Database) (e : Entity) : Database :=
  match e with
  | JobDescriptionRow j =>
      {| job_descriptions := (job_descriptions d ++ [j])%list;
         questions := questions d;
         responses := responses d;
         response_scores := response_scores d |}
  | QuestionRow q =>
      {| job_descriptions := job_descriptions d;
         questions := (questions d ++ [q])%list;
         responses := responses d;
         response_scores := response_scores d |}
  | ResponseRow r =>
      {| job_descriptions := job_descriptions d;
         questions := questions d;
         responses := (responses d ++ [r])%list;
         response_scores := response_scores d |}
  | ResponseScoreRow s =>
      {| job_descriptions := job_descriptions d;
         questions := questions d;
         responses := responses d;
         response_scores := (response_scores d ++ [s])%list |}
  end.

(** [UPDATE job_descriptions SET ... WHERE id = j.id] *)
Definition update_job_description (d : Database) (j : JobDescription) : Database :=
  {| job_descriptions :=
       map (fun row => if N.eqb (jd_id row) (jd_id j) then j else row)
           (job_descriptions d);
     questions := questions d;
     responses := responses d;
     response_scores := response_scores d |}.

(** What a flush writes: the added objects in the order they were added,
    then the assigned attributes. *)
Definition flush (s : Session) (d : Database) : Database :=
  fold_left update_job_description (dirty s)
    (fold_left insert_row (pending s) d).

(** [db.add(obj)] *)
Definition db_add (e : Entity) : Py unit :=
  fun st =>
    (Returned tt,
     {| world := world st;
        session := {| pending := (pending (session st) ++ [e])%list;
                      dirty := dirty (session st) |} |}).

(** [db.commit()] *)
Definition db_commit : Py unit :=
  fun st =>
    (Returned tt,
     {| world := with_db (world st) (flush (session st) (db (world st)));
        session := new_session |}).

(** An assignment to an attribute of a persistent job description: the
    session remembers the object for the next flush. *)
Definition mark_dirty (j : JobDescription) : Py unit :=
  fun st =>
    (Returned tt,
     {| world := world st;
        session := {| pending := pending (session st);
                      dirty := (dirty (session st) ++ [j])%list |} |}).

Definition with_status (j : JobDescription) (s : JobDescriptionStatus) : JobDescription :=
  {| jd_id := jd_id j; jd_user_id := jd_user_id j; company_name := company_name j;
     job_title := job_title j; file_path := file_path j;
     extracted_text := extracted_text j; status := s;
     error_message := error_message j; jd_created_at := jd_created_at j |}.

Definition with_error_message (j : JobDescription) (m : option string) : JobDescription :=
  {| jd_id := jd_id j; jd_user_id := jd_user_id j; company_name := company_name j;
     job_title := job_title j; file_path := file_path j;
     extracted_text := extracted_text j; status := status j;
     error_message := m; jd_created_at := jd_created_at j |}.

(** [job_description.status = s] *)
Definition set_status (j : JobDescription) (s : JobDescriptionStatus) : Py JobDescription :=
  let j' := with_status j s in
  mark_dirty j' ;; ret j'.

(** [job_description.error_message = m] *)
Definition set_error_message (j : JobDescription) (m : string) : Py JobDescription :=
  let j' := with_error_message j (Some m) in
  mark_dirty j' ;; ret j'.

(** [db.refresh(obj)]: the row with the object's primary key is read back. *)
Definition refresh {A} (table : Database -> list A) (key : A -> UUID) (obj : A) : Py A :=
  w <- get_world ;;
  match find (fun row => N.eqb (key row) (key obj)) (table (db w)) with
  | Some row => ret row
  | None => raise (Exception "Could not refresh instance")
  end.

(** [db.query(T)]: the rows of a table. *)
Definition db_query {A} (table : Database -> list A) : Py (list A) :=
  w <- get_world ;;
  ret (table (db w)).

(** The order in which the database returns the rows of a query that has
    no [order_by]: SQL leaves it to the database, which may return the
    selected rows in any arrangement. *)
Record RowOrder (A : Type) : Type := {
  arrange : list A -> list A;
  arrange_perm : forall rows, Permutation (arrange rows) rows
}.

(** [.all()] on a query without [order_by]. *)
Definition all {A} (order : RowOrder A) (rows : list A) : list A :=
  arrange order rows.

(** [.first()] *)
Definition first {A} (rows : list A) : option A := hd_error rows.

(** [.order_by(key.desc())]: a stable insertion sort, largest key first. *)
Fixpoint insert_desc {A} (key : A -> Z) (x : A) (l : list A) : list A :=
  match l with
  | [] => [x]
  | y :: l' => if (key y <=? key x)%Z then x :: l else y :: insert_desc key x l'
  end.

Definition order_by_desc {A} (key : A -> Z) (l : list A) : list A :=
  fold_right (insert_desc key) [] l.

(** [.join(T2, on)]: the inner join of two tables. *)
Definition join {A B} (on : A -> B -> bool) (l1 : list A) (l2 : list B) : list (A * B) :=
  flat_map (fun a => map (fun b => (a, b)) (filter (on a) l2)) l1.

(** The model constructors.  Column defaults ([uuid.uuid4],
    [datetime.utcnow]) are drawn when the object is built; no handler reads
    them before the flush that would draw them. *)
Definition new_JobDescription (user_id : UUID) (company job : string)
    (path text : string) (st : JobDescriptionStatus) : Py JobDescription :=
  u <- uuid4 ;;
  now <- utcnow ;;
  ret {| jd_id := u; jd_user_id := user_id; company_name := company;
         job_title := job; file_path := path; extracted_text := text;
         status := st; error_message := None; jd_created_at := now |}.

Definition new_Question (job_description_id user_id : UUID) (text : string) : Py Question :=
  u <- uuid4 ;;
  ret {| q_id := u; q_job_description_id := job_description_id;
         q_user_id := user_id; question_text := text |}.

Definition new_Response (question_id user_id : UUID) (path text : string) : Py Response :=
  u <- uuid4 ;;
  now <- utcnow ;;
  ret {| r_id := u; r_question_id := question_id; r_user_id := user_id;
         audio_path := path; transcript := text; r_created_at := now |}.

Definition new_ResponseScore (response_id : UUID) (evaluation : EvaluationResult)
    (c cs td comm rel : Z) : Py ResponseScore :=
  u <- uuid4 ;;
  ret {| rs_id := u; rs_response_id := response_id; scores_json := evaluation;
         score_confidence := c; score_clarity_structure := cs;
         score_technical_depth := td; score_communication_skills := comm;
         score_relevance := rel |}.

(* ===================================================================== *)
(** * api/job_descriptions.py *)
(* ===================================================================== *)

Module job_descriptions.
Section WithServices.

Variable svc : Services.
Variable settings : Settings.

(** The inner [try] of [upload_job_description] with its [except]
    clause: question generation for a job description already stored. *)
Definition generate_and_store (job_description : JobDescription)
    (extracted_text company_name job_title : string) (current_user : User)
    : Py JobDescription :=
  try_except
    (questions_list <-
       claude_service.generate_questions svc extracted_text company_name job_title ;;
     (* Save questions to database *)
     for_each questions_list (fun question_text =>
       question <- new_Question (jd_id job_description) (id current_user)
                                question_text ;;
       db_add (QuestionRow question)) ;;
     (* Update status to success *)
     job_description <- set_status job_description QUESTIONS_GENERATED ;;
     db_commit ;;
     refresh job_descriptions jd_id job_description)
    (fun e =>
       (* Update status to error *)
       job_description <- set_status job_description ERROR ;;
       job_description <- set_error_message job_description (str e) ;;
       db_commit ;;
       refresh job_descriptions jd_id job_description).

(** The body of the outer [try] of [upload_job_description]. *)
Definition upload_try (stream : BinaryIO) (name : string)
    (company_name job_title : string) (current_user : User)
    : Py JobDescription :=
  (* Save PDF and extract text *)
  ' (file_path, extracted_text) <-
     r2_storage_service.save_pdf svc (storage_service settings) stream name ;;
  (* Create job description record *)
  job_description <-
     new_JobDescription (id current_user) company_name job_title
                        file_path extracted_text PENDING ;;
  db_add (JobDescriptionRow job_description) ;;
  db_commit ;;
  job_description <- refresh job_descriptions jd_id job_description ;;
  (* Generate questions *)
  job_description <-
    generate_and_store job_description extracted_text company_name job_title
                       current_user ;;
  ret job_description.

(** [upload_job_description(file, company_name, job_title, current_user, db)] *)
Definition upload_job_description (file : UploadFile)
    (company_name job_title : string) (current_user : User)
    : Py JobDescription :=
  (* Validate file type *)
  if negb (PyStr.endswith (PyStr.lower (filename file)) ".pdf") then
    raise (HTTPException HTTP_400_BAD_REQUEST "File must be a PDF")
  else
  (* Validate file size *)
  let '(content, stream) := BinaryIO_read (file_of file) in
  let stream := BinaryIO_seek stream 0 in
  if (10 * 1024 * 1024 <? Z.of_nat (length content))%Z then
    raise (HTTPException HTTP_400_BAD_REQUEST "File size must be less than 10MB")
  else
  try_except
    (upload_try stream (filename file) company_name job_title current_user)
    (fun e =>
       raise (HTTPException HTTP_500_INTERNAL_SERVER_ERROR
                            "Failed to process job description")).

(** [list_job_descriptions(current_user, db)] *)
Definition list_job_descriptions (current_user : User) : Py (list JobDescription) :=
  rows <- db_query job_descriptions ;;
  let job_descriptions :=
    order_by_desc jd_created_at
      (filter (fun j => N.eqb (jd_user_id j) (id current_user)) rows) in
  ret job_descriptions.

(** [get_questions(job_description_id, current_user, db)].  The query for
    the questions has no [order_by]: [order] is the arrangement in which
    the database returns them. *)
Definition get_questions (order : RowOrder Question)
    (job_description_id : UUID) (current_user : User) : Py (list Question) :=
  rows <- db_query job_descriptions ;;
  let job_description :=
    first (filter (fun j => N.eqb (jd_id j) job_description_id
                            && N.eqb (jd_user_id j) (id current_user)) rows) in
  match job_description with
  | None => raise (HTTPException HTTP_404_NOT_FOUND "Job description not found")
  | Some _ =>
      rows <- db_query questions ;;
      let questions :=
        all order
          (filter (fun q => N.eqb (q_job_description_id q) job_description_id)
                  rows) in
      ret questions
  end.

End WithServices.
End job_descriptions.

(* ===================================================================== *)
(** * api/responses.py *)
(* ===================================================================== *)

Module responses.

(** Modelled from the spec: the response schemas of
    [app/schemas/response.py], which is not among the sources.  Section 4.4:
    a submission returns "transcript + structured scores + feedback +
    overall comment", and the list view projects "only the sub-score
    mapping (feedback/overall comment omitted from the list view)". *)
Definition ScoresResponse (s : Scores) : Scores := s.
Definition FeedbackResponse (f : Feedback) : Feedback := f.

(** The dictionary [submit_response] returns. *)
Record ResponseResponse : Type := {
  rr_response_id : UUID;
  rr_transcript : string;
  rr_scores : Scores;
  rr_feedback : Feedback;
  rr_overall_comment : string;
  rr_created_at : Z
}.

(** One dictionary of the list [list_responses] returns. *)
Record ResponseListItem : Type := {
  li_response_id : UUID;
  li_created_at : Z;
  li_scores : Scores
}.

Section WithServices.

Variable svc : Services.
Variable settings : Settings.

(** [job_description.extracted_text], where [job_description] is the
    result of [.first()] and may be [None]. *)
Definition getattr_extracted_text (job_description : option JobDescription)
    : Py string :=
  match job_description with
  | Some j => ret (extracted_text j)
  | None =>
      raise (Exception "'NoneType' object has no attribute 'extracted_text'")
  end.

(** The call [claude_service.evaluate_response(job_description.extracted_text,
    question.question_text, transcript)], arguments first. *)
Definition evaluate_call (job_description : option JobDescription)
    (question : Question) (transcript : string) : Py EvaluationResult :=
  text <- getattr_extracted_text job_description ;;
  claude_service.evaluate_response svc text (question_text question) transcript.

(** The body of the [try] of [submit_response]. *)
Definition submit_try (question : Question)
    (job_description : option JobDescription) (stream : BinaryIO)
    (name : string) (current_user : User) : Py ResponseResponse :=
  (* Save audio file *)
  audio_path <-
    r2_storage_service.save_audio svc (storage_service settings) stream name ;;
  (* Transcribe audio *)
  transcript <- whisper_service.transcribe svc audio_path ;;
  (* Create response record *)
  response <- new_Response (q_id question) (id current_user) audio_path transcript ;;
  db_add (ResponseRow response) ;;
  db_commit ;;
  response <- refresh responses r_id response ;;
  (* Evaluate response *)
  evaluation <- evaluate_call job_description question transcript ;;
  (* Create response score record *)
  let scores := scores evaluation in
  let feedback := feedback evaluation in
  response_score <-
    new_ResponseScore (r_id response) evaluation
      (confidence scores) (clarity_structure scores) (technical_depth scores)
      (communication_skills scores) (relevance scores) ;;
  db_add (ResponseScoreRow response_score) ;;
  db_commit ;;
  response_score <- refresh response_scores rs_id response_score ;;
  (* Return formatted response *)
  ret {| rr_response_id := r_id response;
         rr_transcript := transcript;
         rr_scores := ScoresResponse scores;
         rr_feedback := FeedbackResponse feedback;
         rr_overall_comment := overall_comment evaluation;
         rr_created_at := r_created_at response |}.

(** The two queries that open [submit_response]. *)
Definition find_question (question_id : UUID) (current_user : User)
    (d : Database) : option Question :=
  first (filter (fun q => N.eqb (q_id q) question_id
                          && N.eqb (q_user_id q) (id current_user))
                (questions d)).

Definition find_job_description (question : Question) (d : Database)
    : option JobDescription :=
  first (filter (fun j => N.eqb (jd_id j) (q_job_description_id question))
                (job_descriptions d)).

(** [submit_response(question_id, audio_file, current_user, db)] *)
Definition submit_response (question_id : UUID) (audio_file : UploadFile)
    (current_user : User) : Py ResponseResponse :=
  (* Verify question belongs to user *)
  w <- get_world ;;
  let question := find_question question_id current_user (db w) in
  match question with
  | None => raise (HTTPException HTTP_404_NOT_FOUND "Question not found")
  | Some question =>
  (* Get job description for evaluation context *)
  let job_description := find_job_description question (db w) in
  (* Validate file size *)
  let '(content, stream) := BinaryIO_read (file audio_file) in
  let stream := BinaryIO_seek stream 0 in
  if (50 * 1024 * 1024 <? Z.of_nat (length content))%Z then
    raise (HTTPException HTTP_400_BAD_REQUEST "Audio file size must be less than 50MB")
  else
  try_except
    (submit_try question job_description stream (filename audio_file) current_user)
    (fun e =>
       raise (HTTPException HTTP_500_INTERNAL_SERVER_ERROR
                            ("Failed to process response: " ++ str e)))
  end.

(** The query of [list_responses]: responses joined with their score,
    of one question, newest first. *)
Definition responses_with_scores (question_id : UUID) (d : Database)
    : list (Response * ResponseScore) :=
  order_by_desc (fun p => r_created_at (fst p))
    (filter (fun p => N.eqb (r_question_id (fst p)) question_id)
       (join (fun r s => N.eqb (r_id r) (rs_response_id s))
             (responses d) (response_scores d))).

(** [list_responses(question_id, current_user, db)] *)
Definition list_responses (question_id : UUID) (current_user : User)
    : Py (list ResponseListItem) :=
  w <- get_world ;;
  let question := find_question question_id current_user (db w) in
  match question with
  | None => raise (HTTPException HTTP_404_NOT_FOUND "Question not found")
  | Some _ =>
      let responses := responses_with_scores question_id (db w) in
      let result :=
        map (fun p =>
               let '(response, score) := p in
               {| li_response_id := r_id response;
                  li_created_at := r_created_at response;
                  li_scores := ScoresResponse (scores (scores_json score)) |})
            responses in
      ret result
  end.

End WithServices.
End responses.

(* ===================================================================== *)
(** * Vocabulary of the statements *)
(* ===================================================================== *)

(** A call that returns (raises) whatever the state, and leaves it alone. *)
Definition returns {A} (m : Py A) (a : A) : Prop :=
  forall st, m st = (Returned a, st).

Definition raises {A} (m : Py A) (e : Exc) : Prop :=
  forall st, m st = (Raised e, st).

(** What [await upload.read()] reads, and the stream after [seek(0)]. *)
Definition payload (upload : UploadFile) : bytes :=
  fst (BinaryIO_read (file upload)).

Definition rewound (upload : UploadFile) : BinaryIO :=
  BinaryIO_seek (snd (BinaryIO_read (file upload))) 0.

(** The two validations of an upload of a job description. *)
Definition pdf_name (name : string) : bool :=
  PyStr.endswith (PyStr.lower name) ".pdf".

Definition MiB : Z := 1024 * 1024.

Definition size_of (content : bytes) : Z := Z.of_nat (length content).

(** The status line of the HTTP response: the status code of the route when
    the handler returns, the code of an [HTTPException], 500 otherwise. *)
Definition http_status {A} (success : Z) (o : Outcome A) : Z :=
  match o with
  | Returned _ => success
  | Raised (HTTPException c _) => c
  | Raised _ => HTTP_500_INTERNAL_SERVER_ERROR
  end.

(** Primary keys, and the foreign keys that point at them, were all drawn
    from the UUID source: none is one it has yet to give. *)
Definition ids_below (n : N) (d : Database) : bool :=
  forallb (fun j => N.ltb (jd_id j) n) (job_descriptions d)
  && forallb (fun q => N.ltb (q_id q) n && N.ltb (q_job_description_id q) n)
             (questions d)
  && forallb (fun r => N.ltb (r_id r) n && N.ltb (r_question_id r) n) (responses d)
  && forallb (fun s => N.ltb (rs_id s) n && N.ltb (rs_response_id s) n)
             (response_scores d).

Definition world_ok (w : World) : Prop :=
  ids_below (uuid_counter w) (db w) = true.

(** The Question rows attached to a job description, the ResponseScore rows
    attached to a response. *)
Definition questions_of (j : JobDescription) (d : Database) : list Question :=
  filter (fun q => N.eqb (q_job_description_id q) (jd_id j)) (questions d).

Definition scores_of (r : Response) (d : Database) : list ResponseScore :=
  filter (fun s => N.eqb (rs_response_id s) (r_id r)) (response_scores d).

(** The JobDescription row an upload by [user] creates under the UUID [n]
    at time [now], in a given status. *)
Definition job_row (user : User) (company title path text : string)
    (n : UUID) (now : Z) (s : JobDescriptionStatus) (m : option string)
    : JobDescription :=
  {| jd_id := n; jd_user_id := id user; company_name := company;
     job_title := title; file_path := path; extracted_text := text;
     status := s; error_message := m; jd_created_at := now |}.

(** The Question rows the loop of [upload_job_description] builds: one per
    generated text, with consecutive UUIDs from [n] on. *)
Fixpoint new_questions (job_description_id user_id : UUID) (n : N)
    (texts : list string) : list Question :=
  match texts with
  | [] => []
  | t :: texts' =>
      {| q_id := n; q_job_description_id := job_description_id;
         q_user_id := user_id; question_text := t |}
      :: new_questions job_description_id user_id (N.succ n) texts'
  end.

(** The Response row a submission by [user] to [question] creates under the
    UUID [n] at time [now], and the ResponseScore row of its evaluation. *)
Definition response_row (question : Question) (user : User)
    (path text : string) (n : UUID) (now : Z) : Response :=
  {| r_id := n; r_question_id := q_id question; r_user_id := id user;
     audio_path := path; transcript := text; r_created_at := now |}.

Definition score_row (n response_id : UUID) (evaluation : EvaluationResult)
    : ResponseScore :=
  {| rs_id := n; rs_response_id := response_id; scores_json := evaluation;
     score_confidence := confidence (scores evaluation);
     score_clarity_structure := clarity_structure (scores evaluation);
     score_technical_depth := technical_depth (scores evaluation);
     score_communication_skills := communication_skills (scores evaluation);
     score_relevance := relevance (scores evaluation) |}.

(** The owner recorded on a question is the owner of its job description,
    and the owner recorded on a response is the owner of its question. *)
Definition owner_consistent (d : Database) : Prop :=
  (forall q j, In q (questions d) -> In j (job_descriptions d) ->
               q_job_description_id q = jd_id j -> q_user_id q = jd_user_id j)
  /\ (forall r q, In r (responses d) -> In q (questions d) ->
                  r_question_id r = q_id q -> r_user_id r = q_user_id q).

(** What every store the handlers can reach satisfies: keys are fresh,
    questions have distinct primary keys, and recorded owners agree. *)
Definition invariant (w : World) : Prop :=
  world_ok w
  /\ NoDup (map q_id (questions (db w)))
  /\ owner_consistent (db w).

(** The stores the handlers can produce.  The four tables start empty, and
    the only requests that write to them are the upload of a job
    description and the submission of a response, by any user, with any
    answers of the services and however the request ends. *)
Inductive reachable : World -> Prop :=
| reachable_start w :
    db w = {| job_descriptions := []; questions := []; responses := [];
              response_scores := [] |} ->
    reachable w
| reachable_upload svc settings upload company title user w :
    reachable w ->
    reachable (snd (request (job_descriptions.upload_job_description
                               svc settings upload company title user) w))
| reachable_submit svc settings question_id audio user w :
    reachable w ->
    reachable (snd (request (responses.submit_response
                               svc settings question_id audio user) w)).

(** Consistency of owners, as a check that computes. *)
Definition owner_consistentb (d : Database) : bool :=
  forallb (fun q =>
     forallb (fun j => negb (N.eqb (q_job_description_id q) (jd_id j))
                       || N.eqb (q_user_id q) (jd_user_id j))
             (job_descriptions d))
    (questions d)
  && forallb (fun r =>
       forallb (fun q => negb (N.eqb (r_question_id r) (q_id q))
                         || N.eqb (r_user_id r) (q_user_id q))
               (questions d))
      (responses d).

(** The list item [list_responses] builds from a joined pair. *)
Definition list_item (p : Response * ResponseScore) : responses.ResponseListItem :=
  {| responses.li_response_id := r_id (fst p);
     responses.li_created_at := r_created_at (fst p);
     responses.li_scores := responses.ScoresResponse (scores (scores_json (snd p))) |}.

(** A detail message exposes an exception when it contains [str(e)]. *)
Definition exposes (detail : string) (e : Exc) : bool :=
  PyStr.contains (str e) detail.

(** Plain concatenation of the page texts, as opposed to [PyStr.join]. *)
Definition concatenation (parts : list string) : string :=
  String.concat "" parts.

(* ===================================================================== *)
(** * Concrete scenarios *)
(* ===================================================================== *)

Module Scenario.

Definition empty_db : Database :=
  {| job_descriptions := []; questions := []; responses := [];
     response_scores := [] |}.

Definition world0 : World :=
  {| db := empty_db; bucket := []; uuid_counter := 1%N; clock := 1000%Z |}.

Definition alice : User :=
  {| id := 100%N; email := "alice@example.org"; password_hash := "x";
     created_at := 0%Z; updated_at := 0%Z |}.

Definition bob : User :=
  {| id := 200%N; email := "bob@example.org"; password_hash := "y";
     created_at := 0%Z; updated_at := 0%Z |}.

Definition settings0 : Settings :=
  {| r2_bucket_name := "interviews"; r2_public_url := None |}.

Definition settings_public : Settings :=
  {| r2_bucket_name := "interviews";
     r2_public_url := Some "https://cdn.example.org" |}.

Definition page (text : string) : Page := {| extract_text := Returned text |}.

Definition five_questions : list string :=
  ["Tell me about a deadline."; "Tell me about a conflict.";
   "Tell me about a failure."; "Tell me about a launch.";
   "Tell me about a mentor."].

Definition evaluation7 : EvaluationResult :=
  {| scores := {| confidence := 7; clarity_structure := 6; technical_depth := 5;
                  communication_skills := 8; relevance := 7 |};
     feedback := {| fb_confidence := "Steady."; fb_clarity_structure := "Use STAR.";
                    fb_technical_depth := "Add detail.";
                    fb_communication_skills := "Clear."; fb_relevance := "On topic." |};
     overall_comment := "Good start." |}.

(** Every service answers. *)
Definition services_up : Services :=
  {| put_object_raises := fun _ _ _ _ => None;
     generate_presigned_url := fun _ bucket key expires =>
       Returned ("https://r2.example.org/" ++ bucket ++ "/" ++ key
                 ++ "?X-Amz-Expires=" ++ PyStr.of_Z expires);
     PdfReader := fun _ => Returned [page "Build things."; page ""; page "Ship them."];
     model_questions := fun _ => Returned (Some five_questions);
     model_evaluation := fun _ => Returned (Some evaluation7);
     speech_to_text := fun _ => Returned "I led a team of four." |}.

(** The language model is overloaded. *)
Definition services_model_down : Services :=
  {| put_object_raises := put_object_raises services_up;
     generate_presigned_url := generate_presigned_url services_up;
     PdfReader := PdfReader services_up;
     model_questions := fun _ => Raised (Exception "Overloaded");
     model_evaluation := fun _ => Raised (Exception "Overloaded");
     speech_to_text := speech_to_text services_up |}.

(** The recording is silent: the engine hears nothing. *)
Definition services_silence : Services :=
  {| put_object_raises := put_object_raises services_up;
     generate_presigned_url := generate_presigned_url services_up;
     PdfReader := PdfReader services_up;
     model_questions := model_questions services_up;
     model_evaluation := model_evaluation services_up;
     speech_to_text := fun _ => Returned "" |}.

(** The speech-to-text engine fails. *)
Definition services_deaf : Services :=
  {| put_object_raises := put_object_raises services_up;
     generate_presigned_url := generate_presigned_url services_up;
     PdfReader := PdfReader services_up;
     model_questions := model_questions services_up;
     model_evaluation := model_evaluation services_up;
     speech_to_text := fun _ => Raised (Exception "Unsupported audio format") |}.

(** The object store refuses the connection. *)
Definition services_store_down : Services :=
  {| put_object_raises := fun _ _ _ _ => Some (Exception "Connection refused");
     generate_presigned_url := generate_presigned_url services_up;
     PdfReader := PdfReader services_up;
     model_questions := model_questions services_up;
     model_evaluation := model_evaluation services_up;
     speech_to_text := speech_to_text services_up |}.

(** The PDF is damaged. *)
Definition services_bad_pdf : Services :=
  {| put_object_raises := put_object_raises services_up;
     generate_presigned_url := generate_presigned_url services_up;
     PdfReader := fun _ => Raised (Exception "EOF marker not found");
     model_questions := model_questions services_up;
     model_evaluation := model_evaluation services_up;
     speech_to_text := speech_to_text services_up |}.

(** A two-page PDF whose pages read "a" and "b". *)
Definition services_two_pages : Services :=
  {| put_object_raises := put_object_raises services_up;
     generate_presigned_url := generate_presigned_url services_up;
     PdfReader := fun _ => Returned [page "a"; page "b"];
     model_questions := model_questions services_up;
     model_evaluation := model_evaluation services_up;
     speech_to_text := speech_to_text services_up |}.

Definition jd_pdf : UploadFile := mkUpload "jd.pdf" [x25; x50; x44; x46].
Definition notes_docx : UploadFile := mkUpload "notes.docx" [x50; x4b].
Definition answer_webm : UploadFile := mkUpload "answer.webm" [x1a; x45].

(** The world after Alice has uploaded [jd_pdf] with every service up:
    job description 2 with the questions 3 to 7. *)
Definition world1 : World :=
  Eval vm_compute in
    snd (request (job_descriptions.upload_job_description services_up settings0
                    jd_pdf "Acme" "Engineer" alice) world0).

(** The world after Alice has then answered question 3 while the language
    model was down: response 9 is stored, and has no score. *)
Definition world2 : World :=
  Eval vm_compute in
    snd (request (responses.submit_response services_model_down settings0 3
                    answer_webm alice) world1).

(** Two arrangements a database may choose for a query without
    [order_by]: the order of insertion, and its reverse. *)
Definition insertion_order : RowOrder Question :=
  {| arrange := fun rows => rows;
     arrange_perm := fun rows => Permutation_refl rows |}.

Definition reverse_order : RowOrder Question :=
  {| arrange := fun rows => rev rows;
     arrange_perm := fun rows => Permutation_sym (Permutation_rev rows) |}.

End Scenario.


(* ===================================================================== *)
(** * r2_storage_service.py: fetching and deleting *)
(* ===================================================================== *)

(** What the object store answers to the two remaining calls of the S3
    client: the exception each raises, if any, for a bucket and a key. *)
Record ObjectStore : Type := {
  get_object_raises : string -> string -> option Exc;
  delete_object_raises : string -> string -> option Exc
}.

Module R2StorageService.
Section WithStore.

Variable store : ObjectStore.

(** The [ClientError] of S3 for a key the bucket does not hold. *)
Definition NoSuchKey : Exc :=
  ClientError
    "An error occurred (NoSuchKey) when calling the GetObject operation: The specified key does not exist.".

(** [self.s3_client.get_object(Bucket, Key)['Body'].read()]: the object put
    last under the key; S3 answers a missing key with [NoSuchKey]. *)
Definition s3_get_object (Bucket Key : string) : Py bytes :=
  match get_object_raises store Bucket Key with
  | Some e => raise e
  | None =>
      w <- get_world ;;
      match find (fun kv => String.eqb (fst kv) Key) (bucket w) with
      | Some kv => ret (Body (snd kv))
      | None => raise NoSuchKey
      end
  end.

(** [self.s3_client.delete_object(Bucket, Key)]: the key holds nothing
    afterwards; S3 deletes a missing key without complaint. *)
Definition s3_delete_object (Bucket Key : string) : Py unit :=
  match delete_object_raises store Bucket Key with
  | Some e => raise e
  | None =>
      w <- get_world ;;
      put_world (with_bucket w
        (filter (fun kv => negb (String.eqb (fst kv) Key)) (bucket w)))
  end.

(** [delete_file(self, r2_key)]: a [ClientError] is logged and dropped. *)
Definition delete_file (self : r2_storage_service.R2StorageService)
    (r2_key : string) : Py unit :=
  try_except
    (s3_delete_object (r2_storage_service.bucket_name self) r2_key)
    (fun e =>
       match e with
       | ClientError _ => ret tt
       | _ => raise e
       end).

(** [download_file(self, r2_key)] *)
Definition download_file (self : r2_storage_service.R2StorageService)
    (r2_key : string) : Py bytes :=
  try_except
    (content <- s3_get_object (r2_storage_service.bucket_name self) r2_key ;;
     ret content)
    (fun e =>
       match e with
       | ClientError _ =>
           raise (Exception ("Failed to download file from R2: " ++ str e))
       | _ => raise e
       end).

End WithStore.
End R2StorageService.

(* ===================================================================== *)
(** * More vocabulary *)
(* ===================================================================== *)

(** The first and the last character of a string, if any. *)
Definition first_char (s : string) : option ascii :=
  match s with
  | EmptyString => None
  | String c _ => Some c
  end.

Fixpoint last_char (s : string) : option ascii :=
  match s with
  | EmptyString => None
  | String c EmptyString => Some c
  | String _ s' => last_char s'
  end.

(** A string is trimmed when it neither starts nor ends with white space. *)
Definition trimmed (s : string) : Prop :=
  (forall c, first_char s = Some c -> PyStr.isspace c = false)
  /\ (forall c, last_char s = Some c -> PyStr.isspace c = false).

(** The five sub-scores of an evaluation. *)
Definition sub_scores (s : Scores) : list Z :=
  [confidence s; clarity_structure s; technical_depth s;
   communication_skills s; relevance s].

(** The five score columns of a ResponseScore row. *)
Definition score_columns (s : ResponseScore) : list Z :=
  [score_confidence s; score_clarity_structure s; score_technical_depth s;
   score_communication_skills s; score_relevance s].

(** Newest first: every element is at least as recent as those after it. *)
Definition newest_first {A} (created : A -> Z) (l : list A) : Prop :=
  StronglySorted (fun a b => (created b <= created a)%Z) l.

(** The state once a UUID has been drawn, and once the object store has
    then taken an object under a key. *)
Definition after_uuid (st : State) : State :=
  {| world := with_uuid_counter (world st) (N.succ (uuid_counter (world st)));
     session := session st |}.

Definition after_put (st : State) (key : string) (blob : Blob) : State :=
  {| world :=
       {| db := db (world st);
          bucket := (key, blob) :: bucket (world st);
          uuid_counter := N.succ (uuid_counter (world st));
          clock := clock (world st) |};
     session := session st |}.

(** The key [save_pdf] builds for a file name in a state, and the key
    [save_audio] builds. *)
Definition pdf_key (st : State) (name : string) : string :=
  "pdfs/" ++ PyStr.of_N (uuid_counter (world st)) ++ pathlib.suffix name.

Definition audio_ext (name : string) : string :=
  if PyStr.truthy (pathlib.suffix name) then pathlib.suffix name else ".webm".

Definition audio_key (st : State) (name : string) : string :=
  "audio/" ++ PyStr.of_N (uuid_counter (world st)) ++ audio_ext name.

(** The Content-Type [save_audio] sends for a file name. *)
Definition audio_content_type (name : string) : string :=
  if String.eqb (audio_ext name) ".ogg" then "audio/ogg"
  else if String.eqb (audio_ext name) ".wav" then "audio/wav"
  else "audio/webm".

Module Scenario2.

(** An object store that answers every call. *)
Definition store_up : ObjectStore :=
  {| get_object_raises := fun _ _ => None;
     delete_object_raises := fun _ _ => None |}.

(** An object store that denies access. *)
Definition store_denied : ObjectStore :=
  {| get_object_raises := fun _ _ => Some (ClientError "AccessDenied");
     delete_object_raises := fun _ _ => Some (ClientError "AccessDenied") |}.

(** A PDF whose two pages hold no text (a scan). *)
Definition services_scan : Services :=
  {| put_object_raises := put_object_raises Scenario.services_up;
     generate_presigned_url := generate_presigned_url Scenario.services_up;
     PdfReader := fun _ => Returned [Scenario.page ""; Scenario.page ""];
     model_questions := model_questions Scenario.services_up;
     model_evaluation := model_evaluation Scenario.services_up;
     speech_to_text := speech_to_text Scenario.services_up |}.

(** A PDF of three pages: the first begins with a space and ends with a
    no-break space (U+00A0), the second has no text, the third ends with
    the next-line character (U+0085). *)
Definition no_break_space : string := String "160" EmptyString.
Definition next_line : string := String "133" EmptyString.

Definition services_padded : Services :=
  {| put_object_raises := put_object_raises Scenario.services_up;
     generate_presigned_url := generate_presigned_url Scenario.services_up;
     PdfReader := fun _ =>
       Returned [Scenario.page (" Engineer" ++ no_break_space);
                 Scenario.page "";
                 Scenario.page ("Acme" ++ next_line)];
     model_questions := model_questions Scenario.services_up;
     model_evaluation := model_evaluation Scenario.services_up;
     speech_to_text := speech_to_text Scenario.services_up |}.

(** The object store rejects the credentials. *)
Definition services_store_denied : Services :=
  {| put_object_raises := fun _ _ _ _ => Some (ClientError "AccessDenied");
     generate_presigned_url := generate_presigned_url Scenario.services_up;
     PdfReader := PdfReader Scenario.services_up;
     model_questions := model_questions Scenario.services_up;
     model_evaluation := model_evaluation Scenario.services_up;
     speech_to_text := speech_to_text Scenario.services_up |}.

(** The world after Alice has answered question 3 with every service up:
    response 9 with its score 10. *)
Definition world3 : World :=
  Eval vm_compute in
    snd (request (responses.submit_response Scenario.services_up
                    Scenario.settings0 3 Scenario.answer_webm Scenario.alice)
                 Scenario.world1).

End Scenario2.

Unset Implicit Arguments.
(* ===================================================================== *)
(** * Running monadic code *)
(* ===================================================================== *)

Section Running.

Variables A B : Type.

Lemma bind_returned (m : Py A) (k : A -> Py B) st a st' :
  m st = (Returned a, st') -> bind m k st = k a st'.
Proof. intros H. unfold bind. now rewrite H. Qed.

Lemma bind_raised (m : Py A) (k : A -> Py B) st e st' :
  m st = (Raised e, st') -> bind m k st = (Raised e, st').
Proof. intros H. unfold bind. now rewrite H. Qed.

Lemma try_returned (m : Py A) (h : Exc -> Py A) st a st' :
  m st = (Returned a, st') -> try_except m h st = (Returned a, st').
Proof. intros H. unfold try_except. now rewrite H. Qed.

Lemma try_raised (m : Py A) (h : Exc -> Py A) st e st' :
  m st = (Raised e, st') -> try_except m h st = h e st'.
Proof. intros H. unfold try_except. now rewrite H. Qed.

End Running.


(* ===================================================================== *)
(** * Lists of rows *)
(* ===================================================================== *)

Section Rows.

Variable A : Type.
Variable f : A -> bool.

Lemma find_app_skip (l1 l2 : list A) :
  Forall (fun x => f x = false) l1 -> find f (l1 ++ l2)%list = find f l2.
Proof.
  induction 1 as [|x l1 Hx _ IH]; cbn; [reflexivity|].
  now rewrite Hx.
Qed.

Lemma filter_nothing (l : list A) :
  Forall (fun x => f x = false) l -> filter f l = [].
Proof.
  induction 1 as [|x l Hx _ IH]; cbn; [reflexivity|].
  now rewrite Hx.
Qed.

Lemma filter_everything (l : list A) :
  Forall (fun x => f x = true) l -> filter f l = l.
Proof.
  induction 1 as [|x l Hx _ IH]; cbn; [reflexivity|].
  rewrite Hx. now f_equal.
Qed.

Lemma replace_nothing (l : list A) (y : A) :
  Forall (fun x => f x = false) l ->
  map (fun x => if f x then y else x) l = l.
Proof.
  induction 1 as [|x l Hx _ IH]; cbn; [reflexivity|].
  rewrite Hx. now f_equal.
Qed.

End Rows.

Lemma forallb_Forall A (p : A -> bool) (l : list A) :
  forallb p l = true -> Forall (fun x => p x = true) l.
Proof.
  intros H. apply Forall_forall. now apply forallb_forall.
Qed.

(** What [world_ok] says table by table. *)
Lemma ids_below_spec n d :
  ids_below n d = true ->
  Forall (fun j => (jd_id j < n)%N) (job_descriptions d)
  /\ Forall (fun q => (q_id q < n)%N /\ (q_job_description_id q < n)%N) (questions d)
  /\ Forall (fun r => (r_id r < n)%N /\ (r_question_id r < n)%N) (responses d)
  /\ Forall (fun s => (rs_id s < n)%N /\ (rs_response_id s < n)%N) (response_scores d).
Proof.
  unfold ids_below. intros H.
  repeat (apply andb_prop in H; destruct H as [H ?]).
  repeat split;
    match goal with
    | Hb : forallb _ ?l = true |- Forall _ ?l =>
        apply forallb_Forall in Hb; revert Hb; apply Forall_impl; intros x Hx
    end;
    repeat (apply andb_prop in Hx; destruct Hx as [Hx ?]);
    repeat split; now apply N.ltb_lt.
Qed.

(* ===================================================================== *)
(** * The storage adapter *)
(* ===================================================================== *)

Section Storage.

Variable svc : Services.

(** Text extraction does not touch the state. *)
Lemma extract_pdf_text_cases content :
  (exists text, returns (r2_storage_service.extract_pdf_text svc content) text)
  \/ raises (r2_storage_service.extract_pdf_text svc content)
            (Exception "Failed to extract text from PDF").
Proof.
  unfold r2_storage_service.extract_pdf_text, returns, raises, try_except.
  destruct (PdfReader svc content) as [pages|e].
  - destruct (r2_storage_service.collect_text_parts pages []) as [parts|e].
    + left. eexists. intros st. reflexivity.
    + right. intros st. reflexivity.
  - right. intros st. reflexivity.
Qed.

(** Whatever [save_pdf] does, it leaves the session and the tables alone,
    draws one UUID and does not touch the clock. *)
Lemma save_pdf_frame self stream name st o st' :
  r2_storage_service.save_pdf svc self stream name st = (o, st') ->
  session st' = session st
  /\ db (world st') = db (world st)
  /\ uuid_counter (world st') = N.succ (uuid_counter (world st))
  /\ clock (world st') = clock (world st).
Proof.
  unfold r2_storage_service.save_pdf, try_except, bind, uuid4, get_world,
    put_world, ret, raise, r2_storage_service.s3_put_object.
  cbn.
  destruct (put_object_raises svc _ _ _ _) as [e|].
  - destruct e; intros H; inversion H; subst; cbn; auto.
  - cbn.
    destruct (extract_pdf_text_cases (skipn (pos stream) (data stream)))
      as [[text Ht] | Ht]; rewrite Ht; cbn;
      intros H; inversion H; subst; cbn; auto.
Qed.

Lemma save_audio_frame self stream name st o st' :
  r2_storage_service.save_audio svc self stream name st = (o, st') ->
  session st' = session st
  /\ db (world st') = db (world st)
  /\ uuid_counter (world st') = N.succ (uuid_counter (world st))
  /\ clock (world st') = clock (world st).
Proof.
  unfold r2_storage_service.save_audio, try_except, bind, uuid4, get_world,
    put_world, ret, raise, r2_storage_service.s3_put_object.
  cbn.
  destruct (put_object_raises svc _ _ _ _) as [e|].
  - destruct e; intros H; inversion H; subst; cbn; auto.
  - cbn. intros H; inversion H; subst; cbn; auto.
Qed.

(** What [save_audio] returns is the key under which the bucket now holds
    the content of the stream. *)
Lemma save_audio_stores self stream name st path st' :
  r2_storage_service.save_audio svc self stream name st = (Returned path, st') ->
  exists content_type,
    bucket (world st')
    = (path, {| Body := fst (BinaryIO_read stream); ContentType := content_type |})
      :: bucket (world st).
Proof.
  unfold r2_storage_service.save_audio, try_except, bind, uuid4, get_world,
    put_world, ret, raise, r2_storage_service.s3_put_object.
  cbn.
  destruct (put_object_raises svc _ _ _ _) as [e|].
  - destruct e; discriminate.
  - cbn. intros H; inversion H; subst; cbn. eexists. reflexivity.
Qed.

End Storage.

(* ===================================================================== *)
(** * The language-model and transcription adapters *)
(* ===================================================================== *)

Section Adapters.

Variable svc : Services.

(** [generate_questions] returns five questions or raises, and leaves the
    state alone. *)
Lemma generate_questions_cases text company title :
  (exists qs, returns (claude_service.generate_questions svc text company title) qs
              /\ length qs = 5)
  \/ (exists e, raises (claude_service.generate_questions svc text company title) e).
Proof.
  unfold claude_service.generate_questions, claude_service.parse_QuestionsList,
    returns, raises, bind.
  destruct (model_questions svc _) as [[qs|]|e].
  - destruct (claude_service.QuestionsList_valid qs) eqn:Hv.
    + left. exists qs. split; [intros st; reflexivity|].
      unfold claude_service.QuestionsList_valid in Hv.
      apply andb_prop in Hv. destruct Hv as [H1 H2].
      apply Nat.leb_le in H1, H2. lia.
    + right. eexists. intros st. reflexivity.
  - right. eexists. intros st. reflexivity.
  - right. eexists. intros st. reflexivity.
Qed.

Lemma returns_not_raises A (m : Py A) a e : returns m a -> raises m e -> False.
Proof.
  intros Hr He.
  specialize (Hr (fresh_state Scenario.world0)).
  specialize (He (fresh_state Scenario.world0)).
  congruence.
Qed.

Lemma returns_unique A (m : Py A) a b : returns m a -> returns m b -> a = b.
Proof.
  intros Ha Hb.
  specialize (Ha (fresh_state Scenario.world0)).
  specialize (Hb (fresh_state Scenario.world0)).
  congruence.
Qed.

Lemma generate_questions_five text company title qs :
  returns (claude_service.generate_questions svc text company title) qs ->
  length qs = 5.
Proof.
  intros H.
  destruct (generate_questions_cases text company title) as [[qs' [H' L]]|[e He]].
  - now rewrite (returns_unique _ _ _ _ H H').
  - destruct (returns_not_raises _ _ _ _ H He).
Qed.

Lemma evaluate_response_cases text question transcript :
  (exists ev, returns (claude_service.evaluate_response svc text question transcript) ev)
  \/ (exists e, raises (claude_service.evaluate_response svc text question transcript) e).
Proof.
  unfold claude_service.evaluate_response, claude_service.parse_EvaluationResult,
    returns, raises, bind.
  destruct (model_evaluation svc _) as [[r|]|e].
  - destruct (claude_service.EvaluationResult_valid r).
    + left. eexists. intros st. reflexivity.
    + right. eexists. intros st. reflexivity.
  - right. eexists. intros st. reflexivity.
  - right. eexists. intros st. reflexivity.
Qed.

Lemma evaluate_call_cases jd question transcript :
  (exists ev, returns (responses.evaluate_call svc jd question transcript) ev)
  \/ (exists e, raises (responses.evaluate_call svc jd question transcript) e).
Proof.
  unfold responses.evaluate_call, responses.getattr_extracted_text.
  destruct jd as [j|].
  - destruct (evaluate_response_cases (extracted_text j) (question_text question)
                transcript) as [[ev H]|[e H]].
    + left. exists ev. intros st. unfold bind, ret. apply H.
    + right. exists e. intros st. unfold bind, ret. apply H.
  - right. eexists. intros st. reflexivity.
Qed.

Lemma transcribe_cases audio_path :
  (exists text, returns (whisper_service.transcribe svc audio_path) text)
  \/ (exists e, raises (whisper_service.transcribe svc audio_path) e).
Proof.
  unfold whisper_service.transcribe, returns, raises.
  destruct (speech_to_text svc audio_path) as [text|e].
  - left. eexists. intros st. reflexivity.
  - right. eexists. intros st. reflexivity.
Qed.

End Adapters.

(* ===================================================================== *)
(** * The session *)
(* ===================================================================== *)

Lemma flush_questions (qs : list Question) (d : Database) :
  fold_left insert_row (map QuestionRow qs) d
  = {| job_descriptions := job_descriptions d;
       questions := (questions d ++ qs)%list;
       responses := responses d;
       response_scores := response_scores d |}.
Proof.
  revert d. induction qs as [|q qs IH]; intros d; cbn.
  - rewrite app_nil_r. now destruct d.
  - rewrite IH. cbn. now rewrite <- app_assoc.
Qed.

(** The loop that stages one Question per generated text. *)
Lemma for_each_question jid uid (qs : list string) (st : State) :
  for_each qs (fun question_text =>
     question <- new_Question jid uid question_text ;;
     db_add (QuestionRow question)) st
  = (Returned tt,
     {| world := with_uuid_counter (world st)
                   (uuid_counter (world st) + N.of_nat (length qs));
        session :=
          {| pending := (pending (session st)
                         ++ map QuestionRow
                              (new_questions jid uid (uuid_counter (world st)) qs))%list;
             dirty := dirty (session st) |} |}).
Proof.
  revert st. induction qs as [|t qs IH]; intros [w s]; cbn.
  - unfold ret. rewrite app_nil_r, N.add_0_r. now destruct w, s.
  - unfold bind at 1. unfold new_Question, bind, uuid4, get_world, put_world, ret, db_add.
    cbn. rewrite IH. cbn. f_equal. f_equal.
    + unfold with_uuid_counter. cbn. f_equal. lia.
    + f_equal. now rewrite <- app_assoc.
Qed.

(* ===================================================================== *)
(** * Uploading a job description *)
(* ===================================================================== *)

Section GenerateAndStore.

Variable svc : Services.
Variable j : JobDescription.
Variables text company title : string.
Variable user : User.
Variable jds : list JobDescription.
Variable qrows : list Question.
Variable rrows : list Response.
Variable srows : list ResponseScore.
Variable b : list (string * Blob).
Variable c : N.
Variable k : Z.

Hypothesis Hfresh : Forall (fun row => N.eqb (jd_id row) (jd_id j) = false) jds.

Let before : State :=
  {| world := {| db := {| job_descriptions := (jds ++ [j])%list;
                          questions := qrows;
                          responses := rrows;
                          response_scores := srows |};
                 bucket := b; uuid_counter := c; clock := k |};
     session := new_session |}.

Lemma update_last_row (i : UUID) (j0 j' : JobDescription) :
  i = jd_id j -> jd_id j0 = jd_id j ->
  map (fun row => if N.eqb (jd_id row) i then j' else row) (jds ++ [j0])%list
  = (jds ++ [j'])%list.
Proof.
  intros -> E. rewrite map_app. cbn. rewrite E, N.eqb_refl.
  f_equal.
  apply (replace_nothing _ (fun row => N.eqb (jd_id row) (jd_id j))). exact Hfresh.
Qed.

Lemma find_last_row (i : UUID) (j' : JobDescription) :
  i = jd_id j -> jd_id j' = jd_id j ->
  find (fun row => N.eqb (jd_id row) i) (jds ++ [j'])%list = Some j'.
Proof.
  intros -> E. rewrite find_app_skip.
  - cbn. now rewrite E, N.eqb_refl.
  - exact Hfresh.
Qed.

Lemma generate_and_store_generated qs :
  returns (claude_service.generate_questions svc text company title) qs ->
  job_descriptions.generate_and_store svc j text company title user before
  = (Returned (with_status j QUESTIONS_GENERATED),
     {| world :=
          {| db := {| job_descriptions :=
                        (jds ++ [with_status j QUESTIONS_GENERATED])%list;
                      questions :=
                        (qrows ++ new_questions (jd_id j) (id user) c qs)%list;
                      responses := rrows;
                      response_scores := srows |};
             bucket := b;
             uuid_counter := c + N.of_nat (length qs);
             clock := k |};
        session := new_session |}).
Proof.
  intros Hgen.
  unfold job_descriptions.generate_and_store.
  erewrite try_returned; [reflexivity|].
  erewrite bind_returned by apply Hgen.
  erewrite bind_returned by apply for_each_question.
  unfold bind, set_status, mark_dirty, db_commit, refresh, get_world, ret,
    flush, with_db, with_uuid_counter, before.
  cbn.
  rewrite flush_questions. cbn.
  unfold update_job_description. cbn.
  erewrite update_last_row by reflexivity.
  erewrite find_last_row by reflexivity.
  reflexivity.
Qed.

Lemma generate_and_store_failed e :
  raises (claude_service.generate_questions svc text company title) e ->
  job_descriptions.generate_and_store svc j text company title user before
  = (Returned (with_error_message (with_status j ERROR) (Some (str e))),
     {| world :=
          {| db := {| job_descriptions :=
                        (jds ++ [with_error_message (with_status j ERROR)
                                                    (Some (str e))])%list;
                      questions := qrows;
                      responses := rrows;
                      response_scores := srows |};
             bucket := b;
             uuid_counter := c;
             clock := k |};
        session := new_session |}).
Proof.
  intros Hgen.
  unfold job_descriptions.generate_and_store.
  erewrite try_raised by (erewrite bind_raised by apply Hgen; reflexivity).
  unfold bind, set_status, set_error_message, mark_dirty, db_commit, refresh,
    get_world, ret, flush, with_db, before.
  cbn.
  unfold update_job_description. cbn.
  erewrite update_last_row by reflexivity.
  erewrite update_last_row by reflexivity.
  erewrite find_last_row by reflexivity.
  reflexivity.
Qed.

End GenerateAndStore.

Section Upload.

Variable svc : Services.
Variable settings : Settings.
Variable upload : UploadFile.
Variables company title : string.
Variable user : User.
Variable w : World.
Variables path text : string.
Variable st1 : State.

Hypothesis Hok : world_ok w.
Hypothesis Hsave :
  r2_storage_service.save_pdf svc (storage_service settings)
    (rewound upload) (filename upload) (fresh_state w)
  = (Returned (path, text), st1).

Let n : UUID := N.succ (uuid_counter w).

Lemma stored_ids_differ :
  Forall (fun row => N.eqb (jd_id row) n = false) (job_descriptions (db w)).
Proof.
  destruct (ids_below_spec _ _ Hok) as (Hj & _).
  revert Hj. apply Forall_impl. intros row Hrow.
  apply N.eqb_neq. subst n. lia.
Qed.

Lemma upload_try_generated qs :
  returns (claude_service.generate_questions svc text company title) qs ->
  job_descriptions.upload_try svc settings (rewound upload) (filename upload)
    company title user (fresh_state w)
  = (Returned (job_row user company title path text n (clock w)
                       QUESTIONS_GENERATED None),
     {| world :=
          {| db :=
               {| job_descriptions :=
                    (job_descriptions (db w)
                     ++ [job_row user company title path text n (clock w)
                                 QUESTIONS_GENERATED None])%list;
                  questions :=
                    (questions (db w)
                     ++ new_questions n (id user) (N.succ n) qs)%list;
                  responses := responses (db w);
                  response_scores := response_scores (db w) |};
             bucket := bucket (world st1);
             uuid_counter := N.succ n + N.of_nat (length qs);
             clock := clock w |};
        session := new_session |}).
Proof.
  intros Hgen.
  unfold job_descriptions.upload_try.
  erewrite bind_returned by exact Hsave.
  destruct (save_pdf_frame _ _ _ _ _ _ _ Hsave) as (Hs & Hd & Hc & Hk).
  destruct st1 as [w1 s1]. cbn in Hs, Hd, Hc, Hk. subst s1.
  destruct w1 as [d1 b1 c1 k1]. cbn in Hd, Hc, Hk. subst d1 c1 k1.
  cbn [world bucket].
  unfold bind, new_JobDescription, uuid4, utcnow, get_world, put_world, ret,
    db_add, db_commit, refresh, flush, with_db, with_uuid_counter.
  cbn.
  rewrite find_app_skip by exact stored_ids_differ.
  cbn. rewrite N.eqb_refl. unfold ret. cbv beta iota.
  erewrite generate_and_store_generated; [reflexivity | exact stored_ids_differ | exact Hgen].
Qed.

Lemma upload_try_failed e :
  raises (claude_service.generate_questions svc text company title) e ->
  job_descriptions.upload_try svc settings (rewound upload) (filename upload)
    company title user (fresh_state w)
  = (Returned (job_row user company title path text n (clock w)
                       ERROR (Some (str e))),
     {| world :=
          {| db :=
               {| job_descriptions :=
                    (job_descriptions (db w)
                     ++ [job_row user company title path text n (clock w)
                                 ERROR (Some (str e))])%list;
                  questions := questions (db w);
                  responses := responses (db w);
                  response_scores := response_scores (db w) |};
             bucket := bucket (world st1);
             uuid_counter := N.succ n;
             clock := clock w |};
        session := new_session |}).
Proof.
  intros Hgen.
  unfold job_descriptions.upload_try.
  erewrite bind_returned by exact Hsave.
  destruct (save_pdf_frame _ _ _ _ _ _ _ Hsave) as (Hs & Hd & Hc & Hk).
  destruct st1 as [w1 s1]. cbn in Hs, Hd, Hc, Hk. subst s1.
  destruct w1 as [d1 b1 c1 k1]. cbn in Hd, Hc, Hk. subst d1 c1 k1.
  cbn [world bucket].
  unfold bind, new_JobDescription, uuid4, utcnow, get_world, put_world, ret,
    db_add, db_commit, refresh, flush, with_db, with_uuid_counter.
  cbn.
  rewrite find_app_skip by exact stored_ids_differ.
  cbn. rewrite N.eqb_refl. unfold ret. cbv beta iota.
  erewrite generate_and_store_failed; [reflexivity | exact stored_ids_differ | exact Hgen].
Qed.

Hypothesis Hname : pdf_name (filename upload) = true.
Hypothesis Hsize : (size_of (payload upload) <= 10 * MiB)%Z.

(** Past its two validations, the handler is its [try] statement. *)
Lemma upload_accepted st :
  job_descriptions.upload_job_description svc settings upload company title user st
  = try_except
      (job_descriptions.upload_try svc settings (rewound upload) (filename upload)
         company title user)
      (fun e => raise (HTTPException HTTP_500_INTERNAL_SERVER_ERROR
                                     "Failed to process job description")) st.
Proof.
  unfold job_descriptions.upload_job_description.
  fold (pdf_name (filename upload)). rewrite Hname. cbn [negb].
  unfold rewound, payload, size_of, MiB, file_of in Hsize |- *.
  destruct (BinaryIO_read (file upload)) as [content stream].
  cbn [fst snd] in Hsize |- *.
  change (10 * 1024 * 1024)%Z with (10 * (1024 * 1024))%Z.
  apply Z.ltb_ge in Hsize. rewrite Hsize. reflexivity.
Qed.

End Upload.

Lemma upload_raise_is_500 svc settings upload company title user w e st' :
  pdf_name (filename upload) = true ->
  (size_of (payload upload) <= 10 * MiB)%Z ->
  job_descriptions.upload_try svc settings (rewound upload) (filename upload)
    company title user (fresh_state w)
  = (Raised e, st') ->
  request (job_descriptions.upload_job_description
             svc settings upload company title user) w
  = (Raised (HTTPException HTTP_500_INTERNAL_SERVER_ERROR
                           "Failed to process job description"),
     world st').
Proof.
  intros Hname Hsize Hrun.
  unfold request.
  rewrite (upload_accepted _ _ _ _ _ _ Hname Hsize).
  erewrite try_raised by exact Hrun.
  reflexivity.
Qed.
Lemma upload_rejected_name svc settings upload company title user st :
  pdf_name (filename upload) = false ->
  job_descriptions.upload_job_description svc settings upload company title user st
  = (Raised (HTTPException HTTP_400_BAD_REQUEST "File must be a PDF"), st).
Proof.
  intros Hname. unfold job_descriptions.upload_job_description.
  fold (pdf_name (filename upload)). now rewrite Hname.
Qed.

Lemma upload_rejected_size svc settings upload company title user st :
  pdf_name (filename upload) = true ->
  (10 * MiB < size_of (payload upload))%Z ->
  job_descriptions.upload_job_description svc settings upload company title user st
  = (Raised (HTTPException HTTP_400_BAD_REQUEST "File size must be less than 10MB"),
     st).
Proof.
  intros Hname Hsize. unfold job_descriptions.upload_job_description.
  fold (pdf_name (filename upload)). rewrite Hname. cbn [negb].
  unfold payload, size_of, MiB, file_of in Hsize |- *.
  destruct (BinaryIO_read (file upload)) as [content stream].
  cbn [fst] in Hsize.
  change (10 * 1024 * 1024)%Z with (10 * (1024 * 1024))%Z.
  apply Z.ltb_lt in Hsize. now rewrite Hsize.
Qed.

(* ===================================================================== *)
(** * Claim C1 *)
(* ===================================================================== *)

(** C1.  An upload whose file name does not end in ".pdf" once lowered, or
    whose payload is larger than 10 MiB, is answered with status 400, and the
    world is left exactly as it was: the bucket holds no new object, the
    tables no new row, and no UUID was drawn. *)
Theorem upload_rejects_invalid_file :
  forall svc settings upload company title user w,
    pdf_name (filename upload) = false
    \/ (10 * MiB < size_of (payload upload))%Z ->
    exists detail,
      request (job_descriptions.upload_job_description
                 svc settings upload company title user) w
      = (Raised (HTTPException HTTP_400_BAD_REQUEST detail), w).
Proof.
  intros svc settings upload company title user w H.
  unfold request.
  destruct (pdf_name (filename upload)) eqn:Hname.
  - destruct H as [H|H]; [discriminate|].
    eexists. now rewrite upload_rejected_size.
  - eexists. now rewrite upload_rejected_name.
Qed.

Lemma upload_rejects_invalid_file_witness :
  exists detail,
    request (job_descriptions.upload_job_description
               Scenario.services_up Scenario.settings0 Scenario.notes_docx
               "Acme" "Engineer" Scenario.alice) Scenario.world0
    = (Raised (HTTPException HTTP_400_BAD_REQUEST detail), Scenario.world0).
Proof.
  apply upload_rejects_invalid_file. left. reflexivity.
Defined.

(** The scenario of the specification: twelve MiB under the name "jd.pdf". *)
Example upload_of_12_MiB_rejected :
  forall svc settings user w,
    request (job_descriptions.upload_job_description svc settings
               (mkUpload "jd.pdf" (repeat x00 (Z.to_nat (12 * MiB))))
               "Acme" "Engineer" user) w
    = (Raised (HTTPException HTTP_400_BAD_REQUEST
                             "File size must be less than 10MB"), w).
Proof.
  intros. unfold request.
  rewrite upload_rejected_size; [reflexivity|reflexivity|].
  unfold payload, size_of, mkUpload, BinaryIO_read.
  cbn [file data pos fst skipn].
  rewrite repeat_length, Z2Nat.id; unfold MiB; lia.
Qed.

Lemma new_questions_length jid uid m texts :
  length (new_questions jid uid m texts) = length texts.
Proof.
  revert m. induction texts as [|t texts IH]; intros m; cbn; [reflexivity|].
  now rewrite IH.
Qed.

Lemma new_questions_attached jid uid m texts :
  Forall (fun q => N.eqb (q_job_description_id q) jid = true)
         (new_questions jid uid m texts).
Proof.
  revert m. induction texts as [|t texts IH]; intros m; cbn; constructor.
  - cbn. apply N.eqb_refl.
  - apply IH.
Qed.

Lemma new_questions_owner jid uid m texts :
  Forall (fun q => q_user_id q = uid /\ q_job_description_id q = jid)
         (new_questions jid uid m texts).
Proof.
  revert m. induction texts as [|t texts IH]; intros m; cbn; constructor.
  - cbn. auto.
  - apply IH.
Qed.

(** No stored question hangs under a UUID that has yet to be drawn. *)
Lemma no_question_under_fresh_id w n :
  world_ok w -> (uuid_counter w <= n)%N ->
  filter (fun q => N.eqb (q_job_description_id q) n) (questions (db w)) = [].
Proof.
  intros Hok Hn. apply filter_nothing.
  destruct (ids_below_spec _ _ Hok) as (_ & Hq & _).
  revert Hq. apply Forall_impl. intros q [_ Hq].
  apply N.eqb_neq. lia.
Qed.

(* ===================================================================== *)
(** * Claims C2 and C3 *)
(* ===================================================================== *)

(** C2.  On an accepted upload whose PDF has been stored: when question
    generation returns, the handler returns the created JobDescription, its
    status is QUESTIONS_GENERATED and exactly 5 Question rows are attached
    to it; when question generation raises, the handler returns the created
    JobDescription with status ERROR and [error_message] set to the text of
    the exception, and no Question row is attached to it. *)
Theorem generation_decides_questions_and_status :
  forall svc settings upload company title user w path text st1,
    world_ok w ->
    pdf_name (filename upload) = true ->
    (size_of (payload upload) <= 10 * MiB)%Z ->
    r2_storage_service.save_pdf svc (storage_service settings)
      (rewound upload) (filename upload) (fresh_state w)
    = (Returned (path, text), st1) ->
    (forall qs,
       returns (claude_service.generate_questions svc text company title) qs ->
       exists j w',
         request (job_descriptions.upload_job_description
                    svc settings upload company title user) w
         = (Returned j, w')
         /\ job_descriptions (db w') = (job_descriptions (db w) ++ [j])%list
         /\ status j = QUESTIONS_GENERATED
         /\ length (questions_of j (db w')) = 5)
    /\
    (forall e,
       raises (claude_service.generate_questions svc text company title) e ->
       exists j w',
         request (job_descriptions.upload_job_description
                    svc settings upload company title user) w
         = (Returned j, w')
         /\ job_descriptions (db w') = (job_descriptions (db w) ++ [j])%list
         /\ status j = ERROR
         /\ error_message j = Some (str e)
         /\ questions_of j (db w') = []).
Proof.
  intros svc settings upload company title user w path text st1
         Hok Hname Hsize Hsave.
  split.
  - intros qs Hgen.
    do 2 eexists. split.
    + unfold request.
      rewrite (upload_accepted _ _ _ _ _ _ Hname Hsize).
      erewrite try_returned by (eapply upload_try_generated; eassumption).
      reflexivity.
    + cbn. repeat split.
      unfold questions_of. cbn.
      rewrite filter_app, (no_question_under_fresh_id _ _ Hok) by lia.
      rewrite filter_everything by apply new_questions_attached.
      cbn. rewrite new_questions_length.
      eapply generate_questions_five. eassumption.
  - intros e Hgen.
    do 2 eexists. split.
    + unfold request.
      rewrite (upload_accepted _ _ _ _ _ _ Hname Hsize).
      erewrite try_returned by (eapply upload_try_failed; eassumption).
      reflexivity.
    + cbn. repeat split.
      unfold questions_of. cbn.
      apply (no_question_under_fresh_id _ _ Hok). lia.
Qed.

Lemma generation_decides_questions_and_status_witness :
  (exists j w',
     request (job_descriptions.upload_job_description
                Scenario.services_up Scenario.settings0 Scenario.jd_pdf
                "Acme" "Engineer" Scenario.alice) Scenario.world0
     = (Returned j, w')
     /\ job_descriptions (db w')
        = (job_descriptions (db Scenario.world0) ++ [j])%list
     /\ status j = QUESTIONS_GENERATED
     /\ length (questions_of j (db w')) = 5)
  /\
  (exists j w',
     request (job_descriptions.upload_job_description
                Scenario.services_model_down Scenario.settings0 Scenario.jd_pdf
                "Acme" "Engineer" Scenario.alice) Scenario.world0
     = (Returned j, w')
     /\ job_descriptions (db w')
        = (job_descriptions (db Scenario.world0) ++ [j])%list
     /\ status j = ERROR
     /\ error_message j = Some (str (Exception "Overloaded"))
     /\ questions_of j (db w') = []).
Proof.
  split.
  - eapply (generation_decides_questions_and_status
              Scenario.services_up Scenario.settings0 Scenario.jd_pdf
              "Acme" "Engineer" Scenario.alice Scenario.world0).
    + reflexivity.
    + reflexivity.
    + vm_compute. discriminate.
    + reflexivity.
    + intros st. reflexivity.
  - eapply (generation_decides_questions_and_status
              Scenario.services_model_down Scenario.settings0 Scenario.jd_pdf
              "Acme" "Engineer" Scenario.alice Scenario.world0).
    + reflexivity.
    + reflexivity.
    + vm_compute. discriminate.
    + reflexivity.
    + intros st. reflexivity.
Defined.

(** C3.  On an accepted upload whose PDF has been stored and whose
    JobDescription row has been created, an exception of question generation
    does not fail the request: the handler answers 201 with the
    JobDescription, whose status is ERROR and whose [error_message] is the
    text of the exception, and that row is the one in the table. *)
Theorem generation_failure_is_reported_in_status :
  forall svc settings upload company title user w path text st1 e,
    world_ok w ->
    pdf_name (filename upload) = true ->
    (size_of (payload upload) <= 10 * MiB)%Z ->
    r2_storage_service.save_pdf svc (storage_service settings)
      (rewound upload) (filename upload) (fresh_state w)
    = (Returned (path, text), st1) ->
    raises (claude_service.generate_questions svc text company title) e ->
    exists j w',
      request (job_descriptions.upload_job_description
                 svc settings upload company title user) w
      = (Returned j, w')
      /\ http_status HTTP_201_CREATED
           (fst (request (job_descriptions.upload_job_description
                            svc settings upload company title user) w))
         = 201%Z
      /\ status j = ERROR
      /\ error_message j = Some (str e)
      /\ jd_user_id j = id user
      /\ In j (job_descriptions (db w'))
      /\ ~ In j (job_descriptions (db w)).
Proof.
  intros svc settings upload company title user w path text st1 e
         Hok Hname Hsize Hsave Hgen.
  assert (Hrun := upload_try_failed _ _ _ company title user _ _ _ _ Hok Hsave _ Hgen).
  do 2 eexists. split; [|split].
  - unfold request.
    rewrite (upload_accepted _ _ _ _ _ _ Hname Hsize).
    erewrite try_returned by exact Hrun.
    reflexivity.
  - unfold request.
    rewrite (upload_accepted _ _ _ _ _ _ Hname Hsize).
    erewrite try_returned by exact Hrun.
    reflexivity.
  - cbn. repeat split.
    + apply in_or_app. right. now left.
    + intros Hin.
      destruct (ids_below_spec _ _ Hok) as (Hj & _).
      rewrite Forall_forall in Hj. specialize (Hj _ Hin). cbn in Hj. lia.
Qed.

Lemma generation_failure_is_reported_in_status_witness :
  exists j w',
    request (job_descriptions.upload_job_description
               Scenario.services_model_down Scenario.settings0 Scenario.jd_pdf
               "Acme" "Engineer" Scenario.alice) Scenario.world0
    = (Returned j, w')
    /\ http_status HTTP_201_CREATED
         (fst (request (job_descriptions.upload_job_description
                          Scenario.services_model_down Scenario.settings0
                          Scenario.jd_pdf "Acme" "Engineer" Scenario.alice)
                       Scenario.world0))
       = 201%Z
    /\ status j = ERROR
    /\ error_message j = Some (str (Exception "Overloaded"))
    /\ jd_user_id j = id Scenario.alice
    /\ In j (job_descriptions (db w'))
    /\ ~ In j (job_descriptions (db Scenario.world0)).
Proof.
  eapply (generation_failure_is_reported_in_status
            Scenario.services_model_down Scenario.settings0 Scenario.jd_pdf
            "Acme" "Engineer" Scenario.alice Scenario.world0).
  - reflexivity.
  - reflexivity.
  - vm_compute. discriminate.
  - reflexivity.
  - intros st. reflexivity.
Defined.

(* ===================================================================== *)
(** * Submitting a response *)
(* ===================================================================== *)

Section Submit.

Variable svc : Services.
Variable settings : Settings.
Variable question_id : UUID.
Variable audio : UploadFile.
Variable user : User.
Variable w : World.
Variable q : Question.
Variable path : string.
Variable st1 : State.

Hypothesis Hok : world_ok w.
Hypothesis Hsave :
  r2_storage_service.save_audio svc (storage_service settings)
    (rewound audio) (filename audio) (fresh_state w)
  = (Returned path, st1).

Let n : UUID := N.succ (uuid_counter w).
Let jd : option JobDescription := responses.find_job_description q (db w).

Lemma stored_responses_differ :
  Forall (fun row => N.eqb (r_id row) n = false) (responses (db w)).
Proof.
  destruct (ids_below_spec _ _ Hok) as (_ & _ & Hr & _).
  revert Hr. apply Forall_impl. intros row [Hrow _].
  apply N.eqb_neq. subst n. lia.
Qed.

Lemma stored_scores_differ :
  Forall (fun row => N.eqb (rs_id row) (N.succ n) = false) (response_scores (db w)).
Proof.
  destruct (ids_below_spec _ _ Hok) as (_ & _ & _ & Hs).
  revert Hs. apply Forall_impl. intros row [Hrow _].
  apply N.eqb_neq. subst n. lia.
Qed.

Lemma submit_try_transcription_failed e :
  raises (whisper_service.transcribe svc path) e ->
  responses.submit_try svc settings q jd (rewound audio) (filename audio) user
    (fresh_state w)
  = (Raised e, st1).
Proof.
  intros Ht. unfold responses.submit_try.
  erewrite bind_returned by exact Hsave.
  erewrite bind_raised by apply Ht.
  reflexivity.
Qed.

Lemma submit_try_evaluation_failed t e :
  returns (whisper_service.transcribe svc path) t ->
  raises (responses.evaluate_call svc jd q t) e ->
  responses.submit_try svc settings q jd (rewound audio) (filename audio) user
    (fresh_state w)
  = (Raised e,
     {| world :=
          {| db :=
               {| job_descriptions := job_descriptions (db w);
                  questions := questions (db w);
                  responses :=
                    (responses (db w)
                     ++ [response_row q user path t n (clock w)])%list;
                  response_scores := response_scores (db w) |};
             bucket := bucket (world st1);
             uuid_counter := N.succ n;
             clock := clock w |};
        session := new_session |}).
Proof.
  intros Ht He. unfold responses.submit_try.
  erewrite bind_returned by exact Hsave.
  erewrite bind_returned by apply Ht.
  destruct (save_audio_frame _ _ _ _ _ _ _ Hsave) as (Hs & Hd & Hc & Hk).
  destruct st1 as [w1 s1]. cbn in Hs, Hd, Hc, Hk. subst s1.
  destruct w1 as [d1 b1 c1 k1]. cbn in Hd, Hc, Hk. subst d1 c1 k1.
  cbn [world bucket].
  unfold bind at 1 2 3 4 5.
  unfold new_Response, bind at 1 2 3, uuid4, utcnow, get_world, put_world, ret,
    db_add, db_commit, refresh, flush, with_db, with_uuid_counter.
  cbn.
  rewrite find_app_skip by exact stored_responses_differ.
  cbn. rewrite N.eqb_refl. unfold ret. cbv beta iota.
  rewrite He. reflexivity.
Qed.

Lemma submit_try_scored t ev :
  returns (whisper_service.transcribe svc path) t ->
  returns (responses.evaluate_call svc jd q t) ev ->
  responses.submit_try svc settings q jd (rewound audio) (filename audio) user
    (fresh_state w)
  = (Returned
       {| responses.rr_response_id := n;
          responses.rr_transcript := t;
          responses.rr_scores := scores ev;
          responses.rr_feedback := feedback ev;
          responses.rr_overall_comment := overall_comment ev;
          responses.rr_created_at := clock w |},
     {| world :=
          {| db :=
               {| job_descriptions := job_descriptions (db w);
                  questions := questions (db w);
                  responses :=
                    (responses (db w)
                     ++ [response_row q user path t n (clock w)])%list;
                  response_scores :=
                    (response_scores (db w) ++ [score_row (N.succ n) n ev])%list |};
             bucket := bucket (world st1);
             uuid_counter := N.succ (N.succ n);
             clock := clock w |};
        session := new_session |}).
Proof.
  intros Ht He. unfold responses.submit_try.
  erewrite bind_returned by exact Hsave.
  erewrite bind_returned by apply Ht.
  destruct (save_audio_frame _ _ _ _ _ _ _ Hsave) as (Hs & Hd & Hc & Hk).
  destruct st1 as [w1 s1]. cbn in Hs, Hd, Hc, Hk. subst s1.
  destruct w1 as [d1 b1 c1 k1]. cbn in Hd, Hc, Hk. subst d1 c1 k1.
  cbn [world bucket].
  unfold bind at 1 2 3 4 5.
  unfold new_Response, bind at 1 2 3, uuid4, utcnow, get_world, put_world, ret,
    db_add, db_commit, refresh, flush, with_db, with_uuid_counter.
  cbn.
  rewrite find_app_skip by exact stored_responses_differ.
  cbn. rewrite N.eqb_refl. unfold ret. cbv beta iota.
  rewrite He.
  unfold bind, new_ResponseScore, uuid4, get_world, put_world, ret,
    db_add, db_commit, refresh, flush, with_db, with_uuid_counter.
  cbn.
  rewrite find_app_skip by exact stored_scores_differ.
  cbn. rewrite N.eqb_refl. reflexivity.
Qed.

Hypothesis Hq : responses.find_question question_id user (db w) = Some q.
Hypothesis Hsize : (size_of (payload audio) <= 50 * MiB)%Z.

(** Past the ownership check and the size validation, the handler is its
    [try] statement. *)
Lemma submit_accepted :
  responses.submit_response svc settings question_id audio user (fresh_state w)
  = try_except
      (responses.submit_try svc settings q jd (rewound audio) (filename audio) user)
      (fun e => raise (HTTPException HTTP_500_INTERNAL_SERVER_ERROR
                                     ("Failed to process response: " ++ str e)))
      (fresh_state w).
Proof.
  unfold responses.submit_response, bind, get_world.
  cbn [fresh_state world]. rewrite Hq.
  unfold rewound, payload, size_of, MiB in Hsize |- *.
  destruct (BinaryIO_read (file audio)) as [content stream].
  cbn [fst snd] in Hsize |- *.
  change (50 * 1024 * 1024)%Z with (50 * (1024 * 1024))%Z.
  apply Z.ltb_ge in Hsize. rewrite Hsize. reflexivity.
Qed.

End Submit.

Lemma submit_raise_is_500 svc settings question_id audio user w q e st' :
  responses.find_question question_id user (db w) = Some q ->
  (size_of (payload audio) <= 50 * MiB)%Z ->
  responses.submit_try svc settings q
    (responses.find_job_description q (db w))
    (rewound audio) (filename audio) user (fresh_state w)
  = (Raised e, st') ->
  request (responses.submit_response svc settings question_id audio user) w
  = (Raised (HTTPException HTTP_500_INTERNAL_SERVER_ERROR
                           ("Failed to process response: " ++ str e)),
     world st').
Proof.
  intros Hq Hsize Hrun.
  unfold request.
  erewrite submit_accepted by eassumption.
  erewrite try_raised by exact Hrun.
  reflexivity.
Qed.
Lemma submit_rejected_size svc settings question_id audio user w q :
  responses.find_question question_id user (db w) = Some q ->
  (50 * MiB < size_of (payload audio))%Z ->
  responses.submit_response svc settings question_id audio user (fresh_state w)
  = (Raised (HTTPException HTTP_400_BAD_REQUEST
                           "Audio file size must be less than 50MB"),
     fresh_state w).
Proof.
  intros Hq Hsize.
  unfold responses.submit_response, bind, get_world.
  cbn [fresh_state world]. rewrite Hq.
  unfold payload, size_of, MiB in Hsize |- *.
  destruct (BinaryIO_read (file audio)) as [content stream].
  cbn [fst] in Hsize.
  change (50 * 1024 * 1024)%Z with (50 * (1024 * 1024))%Z.
  apply Z.ltb_lt in Hsize. now rewrite Hsize.
Qed.

Lemma submit_not_found svc settings question_id audio user w :
  responses.find_question question_id user (db w) = None ->
  responses.submit_response svc settings question_id audio user (fresh_state w)
  = (Raised (HTTPException HTTP_404_NOT_FOUND "Question not found"),
     fresh_state w).
Proof.
  intros Hq.
  unfold responses.submit_response, bind, get_world.
  cbn [fresh_state world]. now rewrite Hq.
Qed.


Lemma prefix_refl s : String.prefix s s = true.
Proof.
  induction s as [|c s IH]; cbn; [reflexivity|].
  destruct (ascii_dec c c) as [_|N]; [exact IH | now destruct N].
Qed.

Lemma contains_suffix p s : PyStr.contains s (p ++ s) = true.
Proof.
  induction p as [|c p IH]; cbn.
  - destruct s; cbn; [reflexivity|].
    rewrite <- (prefix_refl (String a s)) at 1. cbn.
    destruct (ascii_dec a a) as [_|N]; [|now destruct N].
    now rewrite (prefix_refl s).
  - rewrite IH. apply orb_true_r.
Qed.

(* ===================================================================== *)
(** * Claims C4, C5 and C6 *)
(* ===================================================================== *)

(** C4, as the code has it.  On an accepted submission whose audio has been
    stored: when transcription returns a text, the request leaves one new
    Response row, whose transcript is that text (a string, which may be
    empty); when transcription raises, the request is answered 500 and the
    table of responses is as it was. *)
Theorem transcription_decides_response_row :
  forall svc settings question_id audio user w q path st1,
    world_ok w ->
    responses.find_question question_id user (db w) = Some q ->
    (size_of (payload audio) <= 50 * MiB)%Z ->
    r2_storage_service.save_audio svc (storage_service settings)
      (rewound audio) (filename audio) (fresh_state w)
    = (Returned path, st1) ->
    (forall t,
       returns (whisper_service.transcribe svc path) t ->
       exists r,
         responses
           (db (snd (request (responses.submit_response
                                svc settings question_id audio user) w)))
         = (responses (db w) ++ [r])%list
         /\ transcript r = t
         /\ r_question_id r = q_id q
         /\ r_user_id r = id user
         /\ audio_path r = path)
    /\
    (forall e,
       raises (whisper_service.transcribe svc path) e ->
       exists w',
         request (responses.submit_response svc settings question_id audio user) w
         = (Raised (HTTPException HTTP_500_INTERNAL_SERVER_ERROR
                                  ("Failed to process response: " ++ str e)), w')
         /\ responses (db w') = responses (db w)).
Proof.
  intros svc settings question_id audio user w q path st1 Hok Hq Hsize Hsave.
  split.
  - intros t Ht.
    exists (response_row q user path t (N.succ (uuid_counter w)) (clock w)).
    split; [|cbn; auto].
    unfold request.
    erewrite submit_accepted by eassumption.
    destruct (evaluate_call_cases svc (responses.find_job_description q (db w)) q t)
      as [[ev He]|[e He]].
    + erewrite try_returned by (eapply submit_try_scored; eassumption).
      reflexivity.
    + erewrite try_raised by (eapply submit_try_evaluation_failed; eassumption).
      reflexivity.
  - intros e Ht.
    eexists. split.
    + unfold request.
      erewrite submit_accepted by eassumption.
      erewrite try_raised by (eapply submit_try_transcription_failed; eassumption).
      reflexivity.
    + destruct (save_audio_frame _ _ _ _ _ _ _ Hsave) as (_ & Hd & _).
      cbn. rewrite Hd. reflexivity.
Qed.

Lemma transcription_decides_response_row_witness :
  (exists r,
     responses
       (db (snd (request (responses.submit_response
                            Scenario.services_up Scenario.settings0 3
                            Scenario.answer_webm Scenario.alice) Scenario.world1)))
     = (responses (db Scenario.world1) ++ [r])%list
     /\ transcript r = "I led a team of four.")
  /\
  (exists w',
     request (responses.submit_response
                Scenario.services_deaf Scenario.settings0 3
                Scenario.answer_webm Scenario.alice) Scenario.world1
     = (Raised (HTTPException HTTP_500_INTERNAL_SERVER_ERROR
                  ("Failed to process response: "
                   ++ str (Exception "Unsupported audio format"))), w')
     /\ responses (db w') = responses (db Scenario.world1)).
Proof.
  split.
  - edestruct (transcription_decides_response_row
                 Scenario.services_up Scenario.settings0 3 Scenario.answer_webm
                 Scenario.alice Scenario.world1) as [Hreturns _].
    + reflexivity.
    + reflexivity.
    + vm_compute. discriminate.
    + reflexivity.
    + destruct (Hreturns "I led a team of four.") as [r Hr].
      * intros st. reflexivity.
      * exists r. split; apply Hr.
  - edestruct (transcription_decides_response_row
                 Scenario.services_deaf Scenario.settings0 3 Scenario.answer_webm
                 Scenario.alice Scenario.world1) as [_ Hraises].
    + reflexivity.
    + reflexivity.
    + vm_compute. discriminate.
    + reflexivity.
    + apply Hraises. intros st. reflexivity.
Defined.

(** C4, as it is worded, fails: a silent recording is transcribed to the
    empty string, the submission succeeds, and the only Response row has an
    empty transcript. *)
Lemma silent_recording_is_stored_with_empty_transcript :
  returns (whisper_service.transcribe Scenario.services_silence "audio/8.webm") ""
  /\ exists body w',
       request (responses.submit_response
                  Scenario.services_silence Scenario.settings0 3
                  Scenario.answer_webm Scenario.alice) Scenario.world1
       = (Returned body, w')
       /\ responses (db Scenario.world1) = []
       /\ responses (db w') <> []
       /\ forall r, In r (responses (db w')) -> transcript r = "".
Proof.
  split; [intros st; reflexivity|].
  do 2 eexists. split; [vm_compute; reflexivity|].
  split; [reflexivity|]. split; [discriminate|].
  intros r [<-|[]]. reflexivity.
Qed.

(** C5.  On an accepted submission whose audio has been stored and
    transcribed, an exception of the evaluation aborts the request with 500
    after the Response row has been committed: the row stays, no
    ResponseScore row is written for it, and nothing is undone (the audio
    the row points at stays in the bucket, the table of scores is as it
    was). *)
Theorem evaluation_failure_leaves_unscored_response :
  forall svc settings question_id audio user w q path st1 t e,
    world_ok w ->
    responses.find_question question_id user (db w) = Some q ->
    (size_of (payload audio) <= 50 * MiB)%Z ->
    r2_storage_service.save_audio svc (storage_service settings)
      (rewound audio) (filename audio) (fresh_state w)
    = (Returned path, st1) ->
    returns (whisper_service.transcribe svc path) t ->
    raises (responses.evaluate_call svc
              (responses.find_job_description q (db w)) q t) e ->
    exists r w',
      request (responses.submit_response svc settings question_id audio user) w
      = (Raised (HTTPException HTTP_500_INTERNAL_SERVER_ERROR
                               ("Failed to process response: " ++ str e)), w')
      /\ responses (db w') = (responses (db w) ++ [r])%list
      /\ transcript r = t
      /\ r_question_id r = q_id q
      /\ response_scores (db w') = response_scores (db w)
      /\ scores_of r (db w') = []
      /\ audio_path r = path
      /\ exists blob, In (path, blob) (bucket w').
Proof.
  intros svc settings question_id audio user w q path st1 t e
         Hok Hq Hsize Hsave Ht He.
  do 2 eexists. split.
  - unfold request.
    erewrite submit_accepted by eassumption.
    erewrite try_raised by (eapply submit_try_evaluation_failed; eassumption).
    reflexivity.
  - cbn. repeat split.
    + unfold scores_of. cbn.
      apply filter_nothing.
      destruct (ids_below_spec _ _ Hok) as (_ & _ & _ & Hs).
      revert Hs. apply Forall_impl. intros s [_ Hs].
      apply N.eqb_neq. lia.
    + destruct (save_audio_stores _ _ _ _ _ _ _ Hsave) as (ct & Hb).
      rewrite Hb. eexists. left. reflexivity.
Qed.

Lemma evaluation_failure_leaves_unscored_response_witness :
  exists r w',
    request (responses.submit_response
               Scenario.services_model_down Scenario.settings0 3
               Scenario.answer_webm Scenario.alice) Scenario.world1
    = (Raised (HTTPException HTTP_500_INTERNAL_SERVER_ERROR
                 ("Failed to process response: " ++ str (Exception "Overloaded"))),
       w')
    /\ responses (db w') = (responses (db Scenario.world1) ++ [r])%list
    /\ scores_of r (db w') = [].
Proof.
  edestruct (evaluation_failure_leaves_unscored_response
               Scenario.services_model_down Scenario.settings0 3
               Scenario.answer_webm Scenario.alice Scenario.world1)
    as (r & w' & H1 & H2 & _ & _ & _ & H3 & _).
  - reflexivity.
  - reflexivity.
  - vm_compute. discriminate.
  - reflexivity.
  - intros st. reflexivity.
  - intros st. reflexivity.
  - exists r, w'. auto.
Defined.

(** C6, as the code has it.  An exception that leaves the [try] block of a
    handler is answered with status 500.  The submission handler puts the
    text of the exception into the detail, after "Failed to process
    response: "; the upload handler answers the fixed detail "Failed to
    process job description" whatever the exception was. *)
Theorem exceptions_become_500 :
  (forall svc settings upload company title user w e st',
      pdf_name (filename upload) = true ->
      (size_of (payload upload) <= 10 * MiB)%Z ->
      job_descriptions.upload_try svc settings (rewound upload) (filename upload)
        company title user (fresh_state w)
      = (Raised e, st') ->
      request (job_descriptions.upload_job_description
                 svc settings upload company title user) w
      = (Raised (HTTPException HTTP_500_INTERNAL_SERVER_ERROR
                               "Failed to process job description"),
         world st'))
  /\
  (forall svc settings question_id audio user w q e st',
      responses.find_question question_id user (db w) = Some q ->
      (size_of (payload audio) <= 50 * MiB)%Z ->
      responses.submit_try svc settings q
        (responses.find_job_description q (db w))
        (rewound audio) (filename audio) user (fresh_state w)
      = (Raised e, st') ->
      request (responses.submit_response svc settings question_id audio user) w
      = (Raised (HTTPException HTTP_500_INTERNAL_SERVER_ERROR
                               ("Failed to process response: " ++ str e)),
         world st')
      /\ exposes ("Failed to process response: " ++ str e) e = true).
Proof.
  split.
  - intros svc settings upload company title user w e st' Hname Hsize Hrun.
    now apply upload_raise_is_500 with (e := e).
  - intros svc settings question_id audio user w q e st' Hq Hsize Hrun.
    split.
    + eapply submit_raise_is_500; eassumption.
    + apply contains_suffix.
Qed.

Lemma exceptions_become_500_witness :
  (exists w',
     request (job_descriptions.upload_job_description
                Scenario.services_store_down Scenario.settings0 Scenario.jd_pdf
                "Acme" "Engineer" Scenario.alice) Scenario.world0
     = (Raised (HTTPException HTTP_500_INTERNAL_SERVER_ERROR
                              "Failed to process job description"), w'))
  /\
  (exists w',
     request (responses.submit_response
                Scenario.services_deaf Scenario.settings0 3
                Scenario.answer_webm Scenario.alice) Scenario.world1
     = (Raised (HTTPException HTTP_500_INTERNAL_SERVER_ERROR
                  ("Failed to process response: "
                   ++ str (Exception "Unsupported audio format"))), w')).
Proof.
  split.
  - eexists.
    eapply (proj1 exceptions_become_500
              Scenario.services_store_down Scenario.settings0 Scenario.jd_pdf
              "Acme" "Engineer" Scenario.alice Scenario.world0
              (Exception "Connection refused")).
    + reflexivity.
    + vm_compute. discriminate.
    + reflexivity.
  - eexists.
    eapply (proj2 exceptions_become_500
              Scenario.services_deaf Scenario.settings0 3%N Scenario.answer_webm
              Scenario.alice Scenario.world1 _
              (Exception "Unsupported audio format")).
    + reflexivity.
    + vm_compute. discriminate.
    + reflexivity.
Defined.

(** C6, as it is worded, fails in the upload handler: the object store
    raises "Connection refused", [save_pdf] passes the exception on, and the
    detail of the 500 answer does not contain that text. *)
Lemma upload_failure_detail_hides_the_cause :
  (exists st',
     r2_storage_service.save_pdf Scenario.services_store_down
       (storage_service Scenario.settings0) (rewound Scenario.jd_pdf)
       (filename Scenario.jd_pdf) (fresh_state Scenario.world0)
     = (Raised (Exception "Connection refused"), st'))
  /\ fst (request (job_descriptions.upload_job_description
                     Scenario.services_store_down Scenario.settings0
                     Scenario.jd_pdf "Acme" "Engineer" Scenario.alice)
                  Scenario.world0)
     = Raised (HTTPException HTTP_500_INTERNAL_SERVER_ERROR
                             "Failed to process job description")
  /\ exposes "Failed to process job description"
             (Exception "Connection refused") = false.
Proof.
  split; [eexists; reflexivity|].
  split; reflexivity.
Qed.

(* ===================================================================== *)
(** * Claims C8 and C9: the storage adapter *)
(* ===================================================================== *)

Lemma collect_text_parts_spec pages : forall texts acc,
  map extract_text pages = map Returned texts ->
  r2_storage_service.collect_text_parts pages acc
  = Returned (acc ++ filter PyStr.truthy texts)%list.
Proof.
  induction pages as [|page pages IH]; intros texts acc H.
  - destruct texts; [|discriminate]. cbn. now rewrite app_nil_r.
  - destruct texts as [|text texts]; [discriminate|].
    cbn in H. injection H as Hp Hrest.
    cbn. rewrite Hp.
    destruct (PyStr.truthy text).
    + rewrite (IH texts _ Hrest). now rewrite <- app_assoc.
    + apply IH. exact Hrest.
Qed.

Lemma extract_failure_fails_save svc self stream name st e :
  raises (r2_storage_service.extract_pdf_text svc (fst (BinaryIO_read stream))) e ->
  exists e' st',
    r2_storage_service.save_pdf svc self stream name st = (Raised e', st')
    /\ db (world st') = db (world st)
    /\ session st' = session st.
Proof.
  intros He.
  destruct (r2_storage_service.save_pdf svc self stream name st) as [o st'] eqn:Hrun.
  destruct (save_pdf_frame _ _ _ _ _ _ _ Hrun) as (Hs & Hd & _).
  destruct o as [[key text]|e'].
  - exfalso. revert Hrun.
    unfold r2_storage_service.save_pdf, try_except, bind, uuid4, get_world,
      put_world, ret, raise, r2_storage_service.s3_put_object.
    cbn.
    destruct (put_object_raises svc _ _ _ _) as [e0|].
    + destruct e0; discriminate.
    + cbn. cbn in He. rewrite He. destruct e; discriminate.
  - exists e', st'. auto.
Qed.

(** C8, as the code has it.  Text extraction returns the texts of the pages
    that have any, in page order, joined by a line feed, and trimmed of
    what [str.strip()] removes at either end ([PyStr.isspace]: the
    no-break space and the next-line character as well as the ASCII white
    space); a page with no text adds nothing and raises nothing.  When extraction raises,
    [save_pdf] raises as well and returns nothing, and the upload handler
    answers 500 without having created a row. *)
Theorem extraction_joins_page_texts :
  forall svc content,
    (forall pages texts,
       PdfReader svc content = Returned pages ->
       map extract_text pages = map Returned texts ->
       returns (r2_storage_service.extract_pdf_text svc content)
               (PyStr.strip
                  (PyStr.join PyStr.newline (filter PyStr.truthy texts))))
    /\
    (forall e,
       raises (r2_storage_service.extract_pdf_text svc content) e ->
       (forall self stream name st,
          fst (BinaryIO_read stream) = content ->
          exists e' st',
            r2_storage_service.save_pdf svc self stream name st = (Raised e', st')
            /\ db (world st') = db (world st))
       /\
       (forall settings upload company title user w,
          data (file upload) = content ->
          pdf_name (filename upload) = true ->
          (size_of (payload upload) <= 10 * MiB)%Z ->
          exists w',
            request (job_descriptions.upload_job_description
                       svc settings upload company title user) w
            = (Raised (HTTPException HTTP_500_INTERNAL_SERVER_ERROR
                                     "Failed to process job description"), w')
            /\ db w' = db w)).
Proof.
  intros svc content. split.
  - intros pages texts Hp Ht st.
    unfold r2_storage_service.extract_pdf_text, try_except.
    rewrite Hp, (collect_text_parts_spec _ _ [] Ht). reflexivity.
  - intros e He. split.
    + intros self stream name st Hc. subst content.
      destruct (extract_failure_fails_save svc self stream name st e He)
        as (e' & st' & H1 & H2 & _).
      exists e', st'. auto.
    + intros settings upload company title user w Hc Hname Hsize.
      assert (Hread : fst (BinaryIO_read (rewound upload)) = content)
        by (rewrite <- Hc; reflexivity).
      rewrite <- Hread in He.
      destruct (extract_failure_fails_save svc (storage_service settings)
                  (rewound upload) (filename upload) (fresh_state w) e He)
        as (e' & st' & H1 & H2 & _).
      exists (world st'). split; [|exact H2].
      apply upload_raise_is_500 with (e := e'); try assumption.
      unfold job_descriptions.upload_try.
      erewrite bind_raised by exact H1. reflexivity.
Qed.

Lemma extraction_joins_page_texts_witness :
  returns (r2_storage_service.extract_pdf_text Scenario.services_up
             (data (file Scenario.jd_pdf)))
          (PyStr.strip
             (PyStr.join PyStr.newline
                (filter PyStr.truthy ["Build things."; ""; "Ship them."])))
  /\
  returns (r2_storage_service.extract_pdf_text Scenario2.services_padded
             (data (file Scenario.jd_pdf)))
          ("Engineer" ++ Scenario2.no_break_space ++ PyStr.newline ++ "Acme")
  /\
  (exists w',
     request (job_descriptions.upload_job_description
                Scenario.services_bad_pdf Scenario.settings0 Scenario.jd_pdf
                "Acme" "Engineer" Scenario.alice) Scenario.world0
     = (Raised (HTTPException HTTP_500_INTERNAL_SERVER_ERROR
                              "Failed to process job description"), w')
     /\ db w' = db Scenario.world0).
Proof.
  split; [|split].
  - apply (proj1 (extraction_joins_page_texts Scenario.services_up
                    (data (file Scenario.jd_pdf)))
             [Scenario.page "Build things."; Scenario.page "";
              Scenario.page "Ship them."]).
    + reflexivity.
    + reflexivity.
  - apply (proj1 (extraction_joins_page_texts Scenario2.services_padded
                    (data (file Scenario.jd_pdf)))
             [Scenario.page (" Engineer" ++ Scenario2.no_break_space);
              Scenario.page "";
              Scenario.page ("Acme" ++ Scenario2.next_line)]
             [" Engineer" ++ Scenario2.no_break_space; "";
              "Acme" ++ Scenario2.next_line]).
    + reflexivity.
    + reflexivity.
  - apply (proj2 (proj2 (extraction_joins_page_texts Scenario.services_bad_pdf
                           (data (file Scenario.jd_pdf)))
                        (Exception "Failed to extract text from PDF")
                        (fun st => eq_refl))).
    + reflexivity.
    + reflexivity.
    + vm_compute. discriminate.
Defined.

(** C8, as it is worded, fails: for a PDF of two pages that read "a" and
    "b", extraction returns "a", a line feed, "b", which is not the
    concatenation "ab" of the page texts. *)
Lemma page_texts_are_not_concatenated :
  PdfReader Scenario.services_two_pages (data (file Scenario.jd_pdf))
  = Returned [Scenario.page "a"; Scenario.page "b"]
  /\ returns (r2_storage_service.extract_pdf_text Scenario.services_two_pages
                (data (file Scenario.jd_pdf)))
             ("a" ++ PyStr.newline ++ "b")
  /\ PyStr.strip (concatenation ["a"; "b"]) = "ab"
  /\ "a" ++ PyStr.newline ++ "b" <> PyStr.strip (concatenation ["a"; "b"]).
Proof.
  split; [reflexivity|].
  split; [intros st; reflexivity|].
  split; [reflexivity|].
  discriminate.
Qed.

(** C9.  When a public base URL is configured, the URL of a key is the base,
    a slash and the key.  Otherwise it is what the object store signs for a
    GET of that key in the bucket with an expiry of 3600 seconds, one hour;
    an error of the signing is passed on. *)
Theorem url_is_public_or_signed_for_an_hour :
  forall svc self r2_key st,
    (forall base,
       r2_storage_service.public_url self = Some base ->
       base <> "" ->
       r2_storage_service.get_file_url svc self r2_key st
       = (Returned (base ++ "/" ++ r2_key), st))
    /\
    (r2_storage_service.public_url self = None
     \/ r2_storage_service.public_url self = Some "" ->
     r2_storage_service.get_file_url svc self r2_key st
     = (match generate_presigned_url svc "get_object"
                (r2_storage_service.bucket_name self) r2_key (60 * 60) with
        | Returned url => Returned url
        | Raised e => Raised e
        end, st)).
Proof.
  intros svc self r2_key st. split.
  - intros base Hbase Hne.
    unfold r2_storage_service.get_file_url,
      r2_storage_service.public_url_configured.
    rewrite Hbase. unfold PyStr.truthy.
    destruct (String.eqb_spec base ""); [contradiction|].
    reflexivity.
  - intros H.
    unfold r2_storage_service.get_file_url,
      r2_storage_service.public_url_configured.
    change (60 * 60)%Z with 3600%Z.
    destruct H as [H|H]; rewrite H; cbn;
      unfold try_except;
      destruct (generate_presigned_url svc _ _ _ _); reflexivity.
Qed.

Lemma url_is_public_or_signed_for_an_hour_witness :
  r2_storage_service.get_file_url Scenario.services_up
    (storage_service Scenario.settings_public) "pdfs/1.pdf"
    (fresh_state Scenario.world0)
  = (Returned "https://cdn.example.org/pdfs/1.pdf", fresh_state Scenario.world0)
  /\
  r2_storage_service.get_file_url Scenario.services_up
    (storage_service Scenario.settings0) "pdfs/1.pdf"
    (fresh_state Scenario.world0)
  = (Returned "https://r2.example.org/interviews/pdfs/1.pdf?X-Amz-Expires=3600",
     fresh_state Scenario.world0).
Proof.
  split.
  - apply (proj1 (url_is_public_or_signed_for_an_hour Scenario.services_up
                    (storage_service Scenario.settings_public) "pdfs/1.pdf"
                    (fresh_state Scenario.world0))
             "https://cdn.example.org").
    + reflexivity.
    + discriminate.
  - apply (proj2 (url_is_public_or_signed_for_an_hour Scenario.services_up
                    (storage_service Scenario.settings0) "pdfs/1.pdf"
                    (fresh_state Scenario.world0))).
    left. reflexivity.
Defined.

(* ===================================================================== *)
(** * Claims C7 and C10: the listings *)
(* ===================================================================== *)

Section Queries.

Variables A B : Type.

Lemma insert_desc_In (key : A -> Z) (x y : A) (l : list A) :
  In x (insert_desc key y l) <-> x = y \/ In x l.
Proof.
  induction l as [|z l IH]; cbn.
  - intuition auto.
  - destruct (key z <=? key y)%Z; cbn; [intuition auto|].
    rewrite IH. intuition auto.
Qed.

Lemma order_by_desc_In (key : A -> Z) (x : A) (l : list A) :
  In x (order_by_desc key l) <-> In x l.
Proof.
  induction l as [|y l IH]; cbn; [reflexivity|].
  rewrite insert_desc_In, IH. intuition auto.
Qed.

Lemma join_In (on : A -> B -> bool) (l1 : list A) (l2 : list B) a b :
  In (a, b) (join on l1 l2) <-> In a l1 /\ In b l2 /\ on a b = true.
Proof.
  unfold join. rewrite in_flat_map. split.
  - intros (a' & Ha & Hab).
    apply in_map_iff in Hab. destruct Hab as (b' & E & Hb).
    injection E as -> ->.
    apply filter_In in Hb. tauto.
  - intros (Ha & Hb & Hon).
    exists a. split; [exact Ha|].
    apply in_map_iff. exists b. split; [reflexivity|].
    apply filter_In. tauto.
Qed.

Lemma first_In (l : list A) (x : A) : first l = Some x -> In x l.
Proof. destruct l; cbn; [discriminate|]. intros [= ->]. now left. Qed.

End Queries.

(** The rows [list_responses] reads are exactly the pairs of a response of
    the question and a score that points at it. *)
Lemma responses_with_scores_In question_id d r s :
  In (r, s) (responses.responses_with_scores question_id d)
  <-> In r (responses d) /\ In s (response_scores d)
      /\ rs_response_id s = r_id r /\ r_question_id r = question_id.
Proof.
  unfold responses.responses_with_scores.
  rewrite order_by_desc_In, filter_In, join_In. cbn.
  rewrite !N.eqb_eq. intuition auto.
Qed.

Lemma find_question_spec question_id user d q :
  responses.find_question question_id user d = Some q ->
  In q (questions d) /\ q_id q = question_id /\ q_user_id q = id user.
Proof.
  unfold responses.find_question. intros H.
  apply first_In in H. apply filter_In in H. destruct H as [Hin H].
  apply andb_prop in H. rewrite !N.eqb_eq in H. tauto.
Qed.

(** C7.  In every store that satisfies the invariant, which is every store
    the handlers can produce ([reachable_invariant] below), the three
    listings return only rows of the requesting user, and change nothing.
    [list_job_descriptions] selects by the owner.  [get_questions] and
    [list_responses] check the owner of the parent row and then select by
    foreign key; the rows they return carry the owner of the parent, because
    a question is recorded with the owner of its job description and a
    response with the owner of its question.  This holds in whatever order
    the database returns the questions. *)
Theorem listings_return_own_rows :
  forall user w,
    invariant w ->
    (exists rows,
       request (job_descriptions.list_job_descriptions user) w = (Returned rows, w)
       /\ forall j, In j rows ->
                    In j (job_descriptions (db w)) /\ jd_user_id j = id user)
    /\
    (forall order job_description_id rows w',
       request (job_descriptions.get_questions order job_description_id user) w
       = (Returned rows, w') ->
       w' = w
       /\ forall q, In q rows -> In q (questions (db w)) /\ q_user_id q = id user)
    /\
    (forall question_id items w',
       request (responses.list_responses question_id user) w
       = (Returned items, w') ->
       w' = w
       /\ items = map list_item (responses.responses_with_scores question_id (db w))
       /\ (forall r s,
             In (r, s) (responses.responses_with_scores question_id (db w)) ->
             In r (responses (db w)) /\ r_user_id r = id user)
       /\ (forall item, In item items ->
             exists r, In r (responses (db w))
                       /\ r_id r = responses.li_response_id item
                       /\ r_user_id r = id user)).
Proof.
  intros user w (_ & _ & Hjobs & Hresp). split; [|split].
  - eexists. split; [reflexivity|].
    intros j Hj. apply order_by_desc_In in Hj. apply filter_In in Hj.
    rewrite N.eqb_eq in Hj. exact Hj.
  - intros order jid rows w'.
    unfold request, job_descriptions.get_questions, bind, db_query, get_world, ret.
    cbn.
    destruct (first _) as [j|] eqn:Hj; [|discriminate].
    intros [= <- <-]. split; [reflexivity|]. intros q Hq.
    apply first_In in Hj. apply filter_In in Hj. destruct Hj as [Hjin Hj].
    apply andb_prop in Hj. rewrite !N.eqb_eq in Hj. destruct Hj as [Hid Hown].
    apply (Permutation_in _ (arrange_perm order _)) in Hq.
    apply filter_In in Hq. rewrite N.eqb_eq in Hq. destruct Hq as [Hqin Hq].
    split; [exact Hqin|].
    rewrite <- Hown. apply Hjobs; congruence.
  - intros qid items w'.
    unfold request, responses.list_responses, bind, get_world, ret.
    cbn.
    destruct (responses.find_question qid user (db w)) as [q|] eqn:Hq;
      [|discriminate].
    intros [= <- <-].
    apply find_question_spec in Hq. destruct Hq as (Hqin & Hqid & Hown).
    assert (Hpairs : forall r s,
              In (r, s) (responses.responses_with_scores qid (db w)) ->
              In r (responses (db w)) /\ r_user_id r = id user).
    { intros r s Hrs.
      apply responses_with_scores_In in Hrs. destruct Hrs as (Hr & _ & _ & Hrq).
      split; [exact Hr|].
      rewrite <- Hown. apply Hresp; congruence. }
    split; [reflexivity|].
    split; [apply map_ext; intros [r s]; reflexivity|].
    split; [exact Hpairs|].
    intros item Hitem. apply in_map_iff in Hitem.
    destruct Hitem as ([r s] & <- & Hrs).
    exists r. destruct (Hpairs r s Hrs) as [Hr Hu]. auto.
Qed.

Lemma owner_consistentb_sound d :
  owner_consistentb d = true -> owner_consistent d.
Proof.
  unfold owner_consistentb, owner_consistent. intros H.
  apply andb_prop in H. destruct H as [H1 H2].
  rewrite forallb_forall in H1, H2. split.
  - intros q j Hq Hj E.
    specialize (H1 q Hq). rewrite forallb_forall in H1. specialize (H1 j Hj).
    apply orb_prop in H1. destruct H1 as [H1|H1].
    + rewrite E, N.eqb_refl in H1. discriminate.
    + now apply N.eqb_eq.
  - intros r q Hr Hq E.
    specialize (H2 r Hr). rewrite forallb_forall in H2. specialize (H2 q Hq).
    apply orb_prop in H2. destruct H2 as [H2|H2].
    + rewrite E, N.eqb_refl in H2. discriminate.
    + now apply N.eqb_eq.
Qed.

(** The store after Alice's upload and her scored answer satisfies the
    invariant. *)
Lemma invariant_world3 : invariant Scenario2.world3.
Proof.
  unfold invariant, world_ok. split; [reflexivity|]. split.
  - cbn. repeat constructor; cbn; intuition discriminate.
  - apply owner_consistentb_sound. reflexivity.
Qed.

Lemma listings_return_own_rows_witness :
  (exists rows,
     request (job_descriptions.list_job_descriptions Scenario.alice)
             Scenario2.world3
     = (Returned rows, Scenario2.world3)
     /\ length rows = 1%nat
     /\ Forall (fun j => jd_user_id j = id Scenario.alice) rows)
  /\
  (exists rows,
     request (job_descriptions.get_questions Scenario.reverse_order 2
                Scenario.alice) Scenario2.world3
     = (Returned rows, Scenario2.world3)
     /\ length rows = 5%nat
     /\ Forall (fun q => q_user_id q = id Scenario.alice) rows)
  /\
  (exists items,
     request (responses.list_responses 3 Scenario.alice) Scenario2.world3
     = (Returned items, Scenario2.world3)
     /\ length items = 1%nat
     /\ Forall (fun item =>
                  exists r, In r (responses (db Scenario2.world3))
                            /\ r_id r = responses.li_response_id item
                            /\ r_user_id r = id Scenario.alice) items).
Proof.
  destruct (listings_return_own_rows Scenario.alice Scenario2.world3
              invariant_world3)
    as ((rows & Hrun & Hrows) & Hq & Hr).
  split; [|split].
  - exists rows. split; [exact Hrun|]. split.
    + injection Hrun as <-. reflexivity.
    + apply Forall_forall. intros j Hj. now apply Hrows.
  - eexists. split; [reflexivity|]. split; [reflexivity|].
    apply Forall_forall. intros q Hin.
    exact (proj2 (proj2 (Hq Scenario.reverse_order 2%N _ Scenario2.world3 eq_refl)
                   q Hin)).
  - eexists. split; [reflexivity|]. split; [reflexivity|].
    apply Forall_forall. intros item Hin.
    exact (proj2 (proj2 (proj2 (Hr 3%N _ Scenario2.world3 eq_refl))) item Hin).
Defined.

Lemma list_responses_run question_id user w q :
  responses.find_question question_id user (db w) = Some q ->
  request (responses.list_responses question_id user) w
  = (Returned (map list_item (responses.responses_with_scores question_id (db w))),
     w).
Proof.
  intros Hq.
  unfold request, responses.list_responses, bind, get_world, ret.
  cbn. rewrite Hq. f_equal. f_equal.
  apply map_ext. intros [r s]. reflexivity.
Qed.

Lemma unscored_not_joined question_id d r :
  scores_of r d = [] ->
  ~ In (r_id r)
       (map responses.li_response_id
          (map list_item (responses.responses_with_scores question_id d))).
Proof.
  intros Hnone Hin.
  rewrite map_map in Hin. apply in_map_iff in Hin.
  destruct Hin as ([r' s] & Hid & Hin). cbn in Hid.
  apply responses_with_scores_In in Hin. destruct Hin as (_ & Hs & Hrs & _).
  assert (Hs' : In s (scores_of r d)).
  { unfold scores_of. apply filter_In. split; [exact Hs|].
    apply N.eqb_eq. congruence. }
  rewrite Hnone in Hs'. destruct Hs'.
Qed.

(** C10.  [list_responses] reads the inner join of the responses with the
    response scores on [Response.id == ResponseScore.response_id]: the pairs
    it formats are exactly a response of the question together with a score
    that points at it, so a response without a score is in no item of the
    list, and the listing returns all the same. *)
Theorem unscored_responses_are_omitted :
  forall question_id user w q,
    responses.find_question question_id user (db w) = Some q ->
    exists items,
      request (responses.list_responses question_id user) w = (Returned items, w)
      /\ items = map list_item (responses.responses_with_scores question_id (db w))
      /\ (forall r s,
            In (r, s) (responses.responses_with_scores question_id (db w))
            <-> In r (responses (db w)) /\ In s (response_scores (db w))
                /\ rs_response_id s = r_id r /\ r_question_id r = question_id)
      /\ (forall r,
            In r (responses (db w)) ->
            scores_of r (db w) = [] ->
            ~ In (r_id r) (map responses.li_response_id items)).
Proof.
  intros question_id user w q Hq.
  exists (map list_item (responses.responses_with_scores question_id (db w))).
  split; [|split; [reflexivity|split]].
  - now apply list_responses_run with (q := q).
  - intros r s. apply responses_with_scores_In.
  - intros r _ Hnone. now apply unscored_not_joined.
Qed.

Lemma unscored_responses_are_omitted_witness :
  exists items r,
    request (responses.list_responses 3 Scenario.alice) Scenario.world2
    = (Returned items, Scenario.world2)
    /\ In r (responses (db Scenario.world2))
    /\ r_question_id r = 3%N
    /\ ~ In (r_id r) (map responses.li_response_id items).
Proof.
  destruct (unscored_responses_are_omitted 3%N Scenario.alice Scenario.world2
              {| q_id := 3; q_job_description_id := 2; q_user_id := 100;
                 question_text := "Tell me about a deadline." |} eq_refl)
    as (items & Hrun & _ & _ & Hnone).
  exists items. eexists.
  split; [exact Hrun|].
  split; [left; reflexivity|].
  split; [reflexivity|].
  apply Hnone; [left; reflexivity | reflexivity].
Defined.

(* ===================================================================== *)
(** * The invariant of the store *)
(* ===================================================================== *)

Lemma ids_below_intro n d :
  Forall (fun j => (jd_id j < n)%N) (job_descriptions d) ->
  Forall (fun q => (q_id q < n)%N /\ (q_job_description_id q < n)%N) (questions d) ->
  Forall (fun r => (r_id r < n)%N /\ (r_question_id r < n)%N) (responses d) ->
  Forall (fun s => (rs_id s < n)%N /\ (rs_response_id s < n)%N) (response_scores d) ->
  ids_below n d = true.
Proof.
  intros Hj Hq Hr Hs. unfold ids_below.
  repeat (apply andb_true_intro; split);
    apply forallb_forall; intros x Hx;
    match goal with
    | H : Forall _ ?l, Hin : In _ ?l |- _ =>
        rewrite Forall_forall in H; specialize (H _ Hin)
    end;
    repeat (apply andb_true_intro; split); apply N.ltb_lt; tauto.
Qed.

Lemma ids_below_mono n m d :
  (n <= m)%N -> ids_below n d = true -> ids_below m d = true.
Proof.
  intros Hnm H.
  destruct (ids_below_spec _ _ H) as (Hj & Hq & Hr & Hs).
  apply ids_below_intro.
  - revert Hj. apply Forall_impl. intros; lia.
  - revert Hq. apply Forall_impl. intros; lia.
  - revert Hr. apply Forall_impl. intros; lia.
  - revert Hs. apply Forall_impl. intros; lia.
Qed.

Lemma new_questions_ids jid uid texts : forall m,
  Forall (fun q => (m <= q_id q < m + N.of_nat (length texts))%N)
         (new_questions jid uid m texts).
Proof.
  induction texts as [|t texts IH]; intros m; cbn [new_questions]; constructor.
  - cbn [q_id length]. lia.
  - specialize (IH (N.succ m)). revert IH. apply Forall_impl.
    intros q Hq. cbn [length]. lia.
Qed.

Lemma new_questions_NoDup jid uid texts : forall m,
  NoDup (map q_id (new_questions jid uid m texts)).
Proof.
  induction texts as [|t texts IH]; intros m; cbn; constructor.
  - intros Hin. apply in_map_iff in Hin. destruct Hin as (q & E & Hq).
    pose proof (new_questions_ids jid uid texts (N.succ m)) as H.
    rewrite Forall_forall in H. specialize (H _ Hq). lia.
  - apply IH.
Qed.

Lemma invariant_db_unchanged w w' :
  invariant w -> db w' = db w -> (uuid_counter w <= uuid_counter w')%N ->
  invariant w'.
Proof.
  unfold invariant, world_ok. intros (Hok & Hu & Hc) Hd Hn.
  rewrite Hd. repeat split; try assumption; try apply Hc.
  now apply ids_below_mono with (n := uuid_counter w).
Qed.

Lemma invariant_empty : invariant Scenario.world0.
Proof.
  unfold invariant, world_ok. split; [reflexivity|]. split; [constructor|].
  apply owner_consistentb_sound. reflexivity.
Qed.

Section UploadKeepsInvariant.

Variable w : World.
Variable user : User.
Variables company title path text : string.
Variable b : list (string * Blob).
Variable st : JobDescriptionStatus.
Variable m : option string.
Variable texts : list string.

Hypothesis Hinv : invariant w.

Let n : UUID := N.succ (uuid_counter w).

(** The world an upload leaves once its job description is stored, with
    the questions [texts] generated (none, when generation failed). *)
Lemma invariant_after_upload :
  invariant
    {| db :=
         {| job_descriptions :=
              (job_descriptions (db w)
               ++ [job_row user company title path text n (clock w) st m])%list;
            questions :=
              (questions (db w) ++ new_questions n (id user) (N.succ n) texts)%list;
            responses := responses (db w);
            response_scores := response_scores (db w) |};
       bucket := b;
       uuid_counter := N.succ n + N.of_nat (length texts);
       clock := clock w |}.
Proof.
  destruct Hinv as (Hok & Huniq & Hq & Hr).
  destruct (ids_below_spec _ _ Hok) as (Hj & Hqs & Hrs & Hss).
  pose proof (new_questions_ids n (id user) texts (N.succ n)) as Hnew.
  pose proof (new_questions_owner n (id user) (N.succ n) texts) as Hown.
  rewrite Forall_forall in Hj, Hqs, Hrs, Hss, Hnew, Hown.
  unfold invariant, world_ok. cbn [db uuid_counter questions job_descriptions
                                     responses response_scores].
  split; [|split; [|split]].
  - apply ids_below_intro; cbn [job_descriptions questions responses response_scores];
      apply Forall_forall; intros x Hx.
    + apply in_app_or in Hx. destruct Hx as [Hx|[<-|[]]].
      * specialize (Hj _ Hx). subst n. lia.
      * cbn. subst n. lia.
    + apply in_app_or in Hx. destruct Hx as [Hx|Hx].
      * specialize (Hqs _ Hx). subst n. lia.
      * specialize (Hnew _ Hx). destruct (Hown _ Hx) as [_ ->]. subst n. lia.
    + specialize (Hrs _ Hx). subst n. lia.
    + specialize (Hss _ Hx). subst n. lia.
  - rewrite map_app. apply NoDup_app; [exact Huniq | apply new_questions_NoDup |].
    intros i Hi1 Hi2.
    apply in_map_iff in Hi1. destruct Hi1 as (q1 & <- & Hq1).
    apply in_map_iff in Hi2. destruct Hi2 as (q2 & E & Hq2).
    specialize (Hqs _ Hq1). specialize (Hnew _ Hq2). subst n. lia.
  - intros q j Hqin Hjin E.
    apply in_app_or in Hqin. apply in_app_or in Hjin.
    destruct Hqin as [Hqin|Hqin], Hjin as [Hjin|[<-|[]]].
    + now apply Hq.
    + specialize (Hqs _ Hqin). cbn in E. subst n. lia.
    + destruct (Hown _ Hqin) as [_ Hjid]. specialize (Hj _ Hjin). subst n. lia.
    + destruct (Hown _ Hqin) as [Huid _]. cbn. exact Huid.
  - intros r q Hrin Hqin E.
    apply in_app_or in Hqin. destruct Hqin as [Hqin|Hqin].
    + now apply Hr.
    + specialize (Hrs _ Hrin). specialize (Hnew _ Hqin). subst n. lia.
Qed.

End UploadKeepsInvariant.

Lemma NoDup_map_eq A (f : A -> N) (l : list A) x y :
  NoDup (map f l) -> In x l -> In y l -> f x = f y -> x = y.
Proof.
  induction l as [|z l IH]; cbn; [tauto|].
  intros Hnd Hx Hy E. inversion Hnd as [|? ? Hnotin Hnd']; subst.
  destruct Hx as [->|Hx], Hy as [->|Hy].
  - reflexivity.
  - exfalso. apply Hnotin. rewrite E. now apply in_map.
  - exfalso. apply Hnotin. rewrite <- E. now apply in_map.
  - now apply IH.
Qed.

Section SubmitKeepsInvariant.

Variable w : World.
Variable user : User.
Variable q : Question.
Variables path t : string.
Variable b : list (string * Blob).
Variable new_scores : list ResponseScore.
Variable c : N.

Hypothesis Hinv : invariant w.
Hypothesis Hq : In q (questions (db w)).
Hypothesis Hown : q_user_id q = id user.

Let n : UUID := N.succ (uuid_counter w).

Hypothesis Hc : (N.succ n <= c)%N.
Hypothesis Hnew :
  Forall (fun s => (rs_id s < c)%N /\ (rs_response_id s < c)%N) new_scores.

(** The world a submission leaves once its response is stored, with or
    without a score. *)
Lemma invariant_after_submit :
  invariant
    {| db :=
         {| job_descriptions := job_descriptions (db w);
            questions := questions (db w);
            responses :=
              (responses (db w) ++ [response_row q user path t n (clock w)])%list;
            response_scores := (response_scores (db w) ++ new_scores)%list |};
       bucket := b;
       uuid_counter := c;
       clock := clock w |}.
Proof.
  destruct Hinv as (Hok & Huniq & Hcq & Hcr).
  destruct (ids_below_spec _ _ Hok) as (Hj & Hqs & Hrs & Hss).
  rewrite Forall_forall in Hj, Hqs, Hrs, Hss, Hnew.
  unfold invariant, world_ok. cbn [db uuid_counter questions job_descriptions
                                     responses response_scores].
  split; [|split; [|split]].
  - apply ids_below_intro; cbn [job_descriptions questions responses response_scores];
      apply Forall_forall; intros x Hx.
    + specialize (Hj _ Hx). subst n. lia.
    + specialize (Hqs _ Hx). subst n. lia.
    + apply in_app_or in Hx. destruct Hx as [Hx|[<-|[]]].
      * specialize (Hrs _ Hx). subst n. lia.
      * cbn. specialize (Hqs _ Hq). subst n. lia.
    + apply in_app_or in Hx. destruct Hx as [Hx|Hx].
      * specialize (Hss _ Hx). subst n. lia.
      * now apply Hnew.
  - exact Huniq.
  - exact Hcq.
  - intros r q' Hrin Hqin E.
    apply in_app_or in Hrin. destruct Hrin as [Hrin|[<-|[]]].
    + now apply Hcr.
    + cbn in E |- *.
      rewrite (NoDup_map_eq _ q_id _ q' q Huniq Hqin Hq); [now symmetry|].
      now symmetry.
Qed.

End SubmitKeepsInvariant.

(** One upload, however it ends, keeps the invariant. *)
Lemma upload_invariant_step svc settings upload company title user w :
  invariant w ->
  invariant (snd (request (job_descriptions.upload_job_description
                             svc settings upload company title user) w)).
Proof.
  intros Hinv.
  destruct (pdf_name (filename upload)) eqn:Hname.
  2: { unfold request. now rewrite upload_rejected_name. }
  destruct (Z_le_gt_dec (size_of (payload upload)) (10 * MiB)) as [Hsize|Hsize].
  2: { unfold request. rewrite upload_rejected_size; [exact Hinv|exact Hname|lia]. }
  destruct (r2_storage_service.save_pdf svc (storage_service settings)
              (rewound upload) (filename upload) (fresh_state w))
    as [[[path text]|e] st1] eqn:Hsave.
  - assert (Hok : world_ok w) by apply Hinv.
    destruct (generate_questions_cases svc text company title)
      as [(qs & Hgen & _)|(e & Hgen)].
    + unfold request.
      rewrite (upload_accepted _ _ _ _ _ _ Hname Hsize).
      erewrite try_returned by (eapply upload_try_generated; eassumption).
      cbn [snd world]. now apply invariant_after_upload.
    + unfold request.
      rewrite (upload_accepted _ _ _ _ _ _ Hname Hsize).
      erewrite try_returned by (eapply upload_try_failed; eassumption).
      cbn [snd world].
      pose proof (invariant_after_upload w user company title path text
                    (bucket (world st1)) ERROR (Some (str e)) [] Hinv) as H.
      cbn [new_questions length N.of_nat] in H.
      rewrite app_nil_r, N.add_0_r in H. exact H.
  - erewrite upload_raise_is_500;
      [| exact Hname | exact Hsize
       | unfold job_descriptions.upload_try; erewrite bind_raised by exact Hsave;
         reflexivity].
    cbn [snd].
    destruct (save_pdf_frame _ _ _ _ _ _ _ Hsave) as (_ & Hd & Hc & _).
    apply invariant_db_unchanged with (w := w); [exact Hinv | exact Hd |].
    rewrite Hc. cbn. lia.
Qed.

(** One submission, however it ends, keeps the invariant. *)
Lemma submit_invariant_step svc settings question_id audio user w :
  invariant w ->
  invariant (snd (request (responses.submit_response
                             svc settings question_id audio user) w)).
Proof.
  intros Hinv.
  destruct (responses.find_question question_id user (db w)) as [q|] eqn:Hq.
  2: { unfold request. now rewrite submit_not_found. }
  destruct (Z_le_gt_dec (size_of (payload audio)) (50 * MiB)) as [Hsize|Hsize].
  2: { unfold request. erewrite submit_rejected_size; [exact Hinv|exact Hq|lia]. }
  destruct (find_question_spec _ _ _ _ Hq) as (Hqin & _ & Hown).
  assert (Hok : world_ok w) by apply Hinv.
  destruct (r2_storage_service.save_audio svc (storage_service settings)
              (rewound audio) (filename audio) (fresh_state w))
    as [[path|e] st1] eqn:Hsave.
  - destruct (transcribe_cases svc path) as [(t & Ht)|(e & Ht)].
    + destruct (evaluate_call_cases svc (responses.find_job_description q (db w)) q t)
        as [(ev & He)|(e & He)].
      * unfold request.
        erewrite submit_accepted by eassumption.
        erewrite try_returned by (eapply submit_try_scored; eassumption).
        cbn [snd world].
        apply invariant_after_submit; try assumption; [lia|].
        constructor; [|constructor]. cbn. lia.
      * unfold request.
        erewrite submit_accepted by eassumption.
        erewrite try_raised by (eapply submit_try_evaluation_failed; eassumption).
        cbn [snd world raise].
        pose proof (invariant_after_submit w user q path t (bucket (world st1))
                      [] (N.succ (N.succ (uuid_counter w))) Hinv Hqin Hown
                      (N.le_refl _) (Forall_nil _)) as H.
        rewrite app_nil_r in H. exact H.
    + erewrite submit_raise_is_500;
        [| exact Hq | exact Hsize
         | eapply submit_try_transcription_failed; eassumption].
      cbn [snd].
      destruct (save_audio_frame _ _ _ _ _ _ _ Hsave) as (_ & Hd & Hc & _).
      apply invariant_db_unchanged with (w := w); [exact Hinv | exact Hd |].
      rewrite Hc. cbn. lia.
  - erewrite submit_raise_is_500;
      [| exact Hq | exact Hsize
       | unfold responses.submit_try; erewrite bind_raised by exact Hsave;
         reflexivity].
    cbn [snd].
    destruct (save_audio_frame _ _ _ _ _ _ _ Hsave) as (_ & Hd & Hc & _).
    apply invariant_db_unchanged with (w := w); [exact Hinv | exact Hd |].
    rewrite Hc. cbn. lia.
Qed.

(** X23.  Every request to upload a job description keeps the invariant
    of the store (fresh keys, distinct question ids, consistent owners),
    whatever the services answer and however the request ends. *)
Theorem upload_keeps_invariant :
  forall svc settings upload company title user w,
    invariant w ->
    invariant (snd (request (job_descriptions.upload_job_description
                               svc settings upload company title user) w)).
Proof.
  intros svc settings upload company title user w.
  apply upload_invariant_step.
Qed.

(** X24.  Every request to submit a response keeps the invariant of the
    store, whatever the services answer and however the request ends. *)
Theorem submit_keeps_invariant :
  forall svc settings question_id audio user w,
    invariant w ->
    invariant (snd (request (responses.submit_response
                               svc settings question_id audio user) w)).
Proof.
  intros svc settings question_id audio user w.
  apply submit_invariant_step.
Qed.

(** Every store the handlers can produce satisfies the invariant: it holds
    of empty tables, and uploads and submissions keep it.  So the
    hypothesis of the theorem on the listings holds of every store a
    listing is ever asked about. *)
Lemma reachable_invariant w : reachable w -> invariant w.
Proof.
  induction 1 as [w Hd | svc settings upload company title user w _ IH
                       | svc settings question_id audio user w _ IH].
  - unfold invariant, world_ok. rewrite Hd. split; [reflexivity|].
    split; [constructor|]. apply owner_consistentb_sound. reflexivity.
  - now apply upload_invariant_step.
  - now apply submit_invariant_step.
Qed.

Example world3_is_reachable : reachable Scenario2.world3.
Proof.
  apply (reachable_submit Scenario.services_up Scenario.settings0 3%N
           Scenario.answer_webm Scenario.alice
           (w := snd (request (job_descriptions.upload_job_description
                                 Scenario.services_up Scenario.settings0
                                 Scenario.jd_pdf "Acme" "Engineer"
                                 Scenario.alice) Scenario.world0))).
  apply reachable_upload. apply reachable_start. reflexivity.
Qed.

(* ===================================================================== *)
(** * From an evaluation failure to the listing *)
(* ===================================================================== *)

(** X25.  The response that an evaluation failure leaves behind is stored,
    and the listing of its question, asked for by its owner, does not show
    it. *)
Theorem orphaned_response_is_never_listed :
  forall svc settings question_id audio user w q path st1 t e o w',
    world_ok w ->
    responses.find_question question_id user (db w) = Some q ->
    (size_of (payload audio) <= 50 * MiB)%Z ->
    r2_storage_service.save_audio svc (storage_service settings)
      (rewound audio) (filename audio) (fresh_state w)
    = (Returned path, st1) ->
    returns (whisper_service.transcribe svc path) t ->
    raises (responses.evaluate_call svc
              (responses.find_job_description q (db w)) q t) e ->
    request (responses.submit_response svc settings question_id audio user) w
    = (o, w') ->
    exists r items,
      In r (responses (db w'))
      /\ r_question_id r = question_id
      /\ request (responses.list_responses question_id user) w' = (Returned items, w')
      /\ ~ In (r_id r) (map responses.li_response_id items).
Proof.
  intros svc settings question_id audio user w q path st1 t e o w'
         Hok Hq Hsize Hsave Ht He Hrun.
  unfold request in Hrun.
  erewrite submit_accepted in Hrun by eassumption.
  erewrite try_raised in Hrun by (eapply submit_try_evaluation_failed; eassumption).
  injection Hrun as _ <-.
  destruct (find_question_spec _ _ _ _ Hq) as (_ & Hid & _).
  exists (response_row q user path t (N.succ (uuid_counter w)) (clock w)).
  eexists. split; [|split; [|split]].
  - cbn. apply in_or_app. right. now left.
  - exact Hid.
  - apply list_responses_run with (q := q). exact Hq.
  - apply unscored_not_joined.
    unfold scores_of. cbn. apply filter_nothing.
    destruct (ids_below_spec _ _ Hok) as (_ & _ & _ & Hs).
    revert Hs. apply Forall_impl. intros s [_ Hs].
    apply N.eqb_neq. lia.
Qed.

(* ===================================================================== *)
(** * The scenarios of section 8 *)
(* ===================================================================== *)

(** A valid PDF with extractable text, company "Acme", title "Engineer":
    201, status QUESTIONS_GENERATED, five questions persisted. *)
Example scenario_valid_upload :
  exists j w',
    request (job_descriptions.upload_job_description
               Scenario.services_up Scenario.settings0 Scenario.jd_pdf
               "Acme" "Engineer" Scenario.alice) Scenario.world0
    = (Returned j, w')
    /\ status j = QUESTIONS_GENERATED
    /\ length (questions (db w')) = 5
    /\ invariant w'.
Proof.
  do 2 eexists. split; [vm_compute; reflexivity|].
  split; [reflexivity|]. split; [reflexivity|].
  split; [reflexivity|]. split.
  - repeat constructor; cbn; intuition discriminate.
  - apply owner_consistentb_sound. reflexivity.
Qed.

(** An audio file of 60 MiB: 400, and no row is created. *)
Example scenario_60_MiB_audio :
  request (responses.submit_response Scenario.services_up Scenario.settings0 3
             (mkUpload "answer.webm" (repeat x00 (Z.to_nat (60 * MiB))))
             Scenario.alice) Scenario.world1
  = (Raised (HTTPException HTTP_400_BAD_REQUEST
                           "Audio file size must be less than 50MB"),
     Scenario.world1).
Proof.
  unfold request. erewrite submit_rejected_size; [reflexivity|reflexivity|].
  unfold payload, size_of, mkUpload, BinaryIO_read.
  cbn [file data pos fst skipn].
  rewrite repeat_length, Z2Nat.id; unfold MiB; lia.
Qed.

(** Valid audio for a question owned by a different user: 404. *)
Example scenario_foreign_question :
  request (responses.submit_response Scenario.services_up Scenario.settings0 3
             Scenario.answer_webm Scenario.bob) Scenario.world1
  = (Raised (HTTPException HTTP_404_NOT_FOUND "Question not found"),
     Scenario.world1).
Proof. reflexivity. Qed.

(** The transcription service throws: 500, no Response row persisted. *)
Example scenario_transcription_throws :
  exists w',
    request (responses.submit_response Scenario.services_deaf Scenario.settings0 3
               Scenario.answer_webm Scenario.alice) Scenario.world1
    = (Raised (HTTPException HTTP_500_INTERNAL_SERVER_ERROR
                 "Failed to process response: Unsupported audio format"), w')
    /\ responses (db w') = [].
Proof. eexists. split; reflexivity. Qed.

(* ===================================================================== *)
(** * Further properties: what the handlers answer *)
(* ===================================================================== *)

Lemma first_filter_none A (f : A -> bool) (l : list A) :
  (forall x, In x l -> f x = false) -> first (filter f l) = None.
Proof.
  intros H. rewrite filter_nothing; [reflexivity|].
  apply Forall_forall. exact H.
Qed.

Lemma first_filter_some A (f : A -> bool) (l : list A) x :
  In x l -> f x = true -> exists y, first (filter f l) = Some y.
Proof.
  intros Hin Hf.
  destruct (filter f l) as [|y l'] eqn:E.
  - assert (Hx : In x (filter f l)) by (apply filter_In; auto).
    rewrite E in Hx. destruct Hx.
  - exists y. reflexivity.
Qed.

Lemma find_question_none question_id user d :
  (forall q, In q (questions d) -> q_id q = question_id -> q_user_id q <> id user) ->
  responses.find_question question_id user d = None.
Proof.
  intros H. unfold responses.find_question. apply first_filter_none.
  intros q Hq. apply andb_false_iff.
  destruct (N.eqb_spec (q_id q) question_id) as [E|E]; [right|now left].
  apply N.eqb_neq. now apply H.
Qed.

(** X1.  What [upload_job_description] answers is decided in this order: a
    file name that does not end in ".pdf" gives 400 "File must be a PDF",
    whatever the size; then a payload above 10 MiB gives 400 "File size must
    be less than 10MB" (a payload of exactly 10 MiB passes); past both, the
    handler returns a JobDescription or answers 500 "Failed to process job
    description": no other exception leaves it. *)
Theorem upload_answers :
  forall svc settings upload company title user w,
    (pdf_name (filename upload) = false ->
     fst (request (job_descriptions.upload_job_description
                     svc settings upload company title user) w)
     = Raised (HTTPException HTTP_400_BAD_REQUEST "File must be a PDF"))
    /\
    (pdf_name (filename upload) = true ->
     (10 * MiB < size_of (payload upload))%Z ->
     fst (request (job_descriptions.upload_job_description
                     svc settings upload company title user) w)
     = Raised (HTTPException HTTP_400_BAD_REQUEST
                             "File size must be less than 10MB"))
    /\
    (pdf_name (filename upload) = true ->
     (size_of (payload upload) <= 10 * MiB)%Z ->
     (exists j,
        fst (request (job_descriptions.upload_job_description
                        svc settings upload company title user) w)
        = Returned j)
     \/ fst (request (job_descriptions.upload_job_description
                        svc settings upload company title user) w)
        = Raised (HTTPException HTTP_500_INTERNAL_SERVER_ERROR
                                "Failed to process job description")).
Proof.
  intros svc settings upload company title user w. split; [|split].
  - intros Hname. unfold request. now rewrite upload_rejected_name.
  - intros Hname Hsize. unfold request. now rewrite upload_rejected_size.
  - intros Hname Hsize. unfold request.
    rewrite (upload_accepted _ _ _ _ _ _ Hname Hsize).
    unfold try_except.
    destruct (job_descriptions.upload_try svc settings (rewound upload)
                (filename upload) company title user (fresh_state w))
      as [[j|e] st].
    + left. exists j. reflexivity.
    + right. reflexivity.
Qed.

Lemma upload_answers_witness :
  fst (request (job_descriptions.upload_job_description
                  Scenario.services_up Scenario.settings0 Scenario.notes_docx
                  "Acme" "Engineer" Scenario.alice) Scenario.world0)
  = Raised (HTTPException HTTP_400_BAD_REQUEST "File must be a PDF")
  /\
  ((exists j,
      fst (request (job_descriptions.upload_job_description
                      Scenario.services_store_down Scenario.settings0
                      Scenario.jd_pdf "Acme" "Engineer" Scenario.alice)
                   Scenario.world0)
      = Returned j)
   \/ fst (request (job_descriptions.upload_job_description
                      Scenario.services_store_down Scenario.settings0
                      Scenario.jd_pdf "Acme" "Engineer" Scenario.alice)
                   Scenario.world0)
      = Raised (HTTPException HTTP_500_INTERNAL_SERVER_ERROR
                              "Failed to process job description")).
Proof.
  split.
  - apply (proj1 (upload_answers Scenario.services_up Scenario.settings0
                    Scenario.notes_docx "Acme" "Engineer" Scenario.alice
                    Scenario.world0)).
    reflexivity.
  - apply (proj2 (proj2 (upload_answers Scenario.services_store_down
                           Scenario.settings0 Scenario.jd_pdf "Acme" "Engineer"
                           Scenario.alice Scenario.world0))).
    + reflexivity.
    + vm_compute. discriminate.
Defined.

(** X2.  What [submit_response] answers is decided in this order: a question
    id under which the caller owns no question (none exists, or it is
    someone else's) gives 404 "Question not found", whatever the size of the
    audio; then an audio above 50 MiB gives 400; both leave the world as it
    was.  Past both, the handler returns the evaluation or answers 500 with
    a detail that starts "Failed to process response: ": no other exception
    leaves it. *)
Theorem submit_answers :
  forall svc settings question_id audio user w,
    ((forall q, In q (questions (db w)) -> q_id q = question_id ->
                q_user_id q <> id user) ->
     request (responses.submit_response svc settings question_id audio user) w
     = (Raised (HTTPException HTTP_404_NOT_FOUND "Question not found"), w))
    /\
    (forall q,
       responses.find_question question_id user (db w) = Some q ->
       (50 * MiB < size_of (payload audio))%Z ->
       request (responses.submit_response svc settings question_id audio user) w
       = (Raised (HTTPException HTTP_400_BAD_REQUEST
                                "Audio file size must be less than 50MB"), w))
    /\
    (forall q,
       responses.find_question question_id user (db w) = Some q ->
       (size_of (payload audio) <= 50 * MiB)%Z ->
       (exists body,
          fst (request (responses.submit_response
                          svc settings question_id audio user) w)
          = Returned body)
       \/ (exists e,
             fst (request (responses.submit_response
                             svc settings question_id audio user) w)
             = Raised (HTTPException HTTP_500_INTERNAL_SERVER_ERROR
                         ("Failed to process response: " ++ str e)))).
Proof.
  intros svc settings question_id audio user w. split; [|split].
  - intros Hnone. unfold request.
    rewrite submit_not_found; [reflexivity|].
    now apply find_question_none.
  - intros q Hq Hsize. unfold request.
    now erewrite submit_rejected_size by eassumption.
  - intros q Hq Hsize. unfold request.
    erewrite submit_accepted by eassumption.
    unfold try_except.
    destruct (responses.submit_try svc settings q
                (responses.find_job_description q (db w)) (rewound audio)
                (filename audio) user (fresh_state w))
      as [[body|e] st].
    + left. exists body. reflexivity.
    + right. exists e. reflexivity.
Qed.

Lemma submit_answers_witness :
  request (responses.submit_response Scenario.services_up Scenario.settings0 3
             Scenario.answer_webm Scenario.bob) Scenario.world1
  = (Raised (HTTPException HTTP_404_NOT_FOUND "Question not found"),
     Scenario.world1)
  /\
  ((exists body,
      fst (request (responses.submit_response Scenario.services_deaf
                      Scenario.settings0 3 Scenario.answer_webm Scenario.alice)
                   Scenario.world1)
      = Returned body)
   \/ (exists e,
         fst (request (responses.submit_response Scenario.services_deaf
                         Scenario.settings0 3 Scenario.answer_webm
                         Scenario.alice) Scenario.world1)
         = Raised (HTTPException HTTP_500_INTERNAL_SERVER_ERROR
                     ("Failed to process response: " ++ str e)))).
Proof.
  split.
  - apply (proj1 (submit_answers Scenario.services_up Scenario.settings0 3%N
                    Scenario.answer_webm Scenario.bob Scenario.world1)).
    intros q Hq _.
    cbn in Hq.
    repeat (destruct Hq as [<-|Hq]; [discriminate|]).
    destruct Hq.
  - eapply (proj2 (proj2 (submit_answers Scenario.services_deaf
                            Scenario.settings0 3%N Scenario.answer_webm
                            Scenario.alice Scenario.world1))).
    + reflexivity.
    + vm_compute. discriminate.
Defined.

(* ===================================================================== *)
(** * Further properties: the storage adapter *)
(* ===================================================================== *)

Section StorageOutcomes.

Variable svc : Services.
Variable self : r2_storage_service.R2StorageService.
Variable stream : BinaryIO.
Variable name : string.
Variable st : State.

Let content : bytes := fst (BinaryIO_read stream).
Let pdf_blob : Blob := {| Body := content; ContentType := "application/pdf" |}.

(** The four ways [save_pdf] ends. *)
Lemma save_pdf_outcome :
  (exists e,
     put_object_raises svc (r2_storage_service.bucket_name self) (pdf_key st name)
       content "application/pdf" = Some e
     /\ r2_storage_service.save_pdf svc self stream name st
        = (Raised (match e with
                   | ClientError m => Exception ("Failed to save PDF to R2: " ++ m)
                   | _ => e
                   end), after_uuid st))
  \/ (put_object_raises svc (r2_storage_service.bucket_name self) (pdf_key st name)
        content "application/pdf" = None
      /\ ((exists text,
             returns (r2_storage_service.extract_pdf_text svc content) text
             /\ r2_storage_service.save_pdf svc self stream name st
                = (Returned (pdf_key st name, text),
                   after_put st (pdf_key st name) pdf_blob))
          \/ (raises (r2_storage_service.extract_pdf_text svc content)
                     (Exception "Failed to extract text from PDF")
              /\ r2_storage_service.save_pdf svc self stream name st
                 = (Raised (Exception "Failed to extract text from PDF"),
                    after_put st (pdf_key st name) pdf_blob)))).
Proof.
  unfold r2_storage_service.save_pdf, try_except, bind, uuid4, get_world,
    put_world, ret, raise, r2_storage_service.s3_put_object, pdf_key.
  cbn. fold content.
  destruct (put_object_raises svc _ _ _ _) as [e|] eqn:Hput.
  - left. exists e. split; [reflexivity|]. destruct e; reflexivity.
  - right. split; [reflexivity|]. cbn.
    destruct (extract_pdf_text_cases svc content) as [[text Ht] | Ht].
    + left. exists text. split; [exact Ht|]. rewrite Ht. reflexivity.
    + right. split; [exact Ht|]. rewrite Ht. reflexivity.
Qed.

End StorageOutcomes.

Section AudioOutcomes.

Variable svc : Services.
Variable self : r2_storage_service.R2StorageService.
Variable stream : BinaryIO.
Variable name : string.
Variable st : State.

Let content : bytes := fst (BinaryIO_read stream).
Let content_type : string := audio_content_type name.

(** The two ways [save_audio] ends. *)
Lemma save_audio_outcome :
  (exists e,
     put_object_raises svc (r2_storage_service.bucket_name self) (audio_key st name)
       content content_type = Some e
     /\ r2_storage_service.save_audio svc self stream name st
        = (Raised (match e with
                   | ClientError m => Exception ("Failed to save audio to R2: " ++ m)
                   | _ => e
                   end), after_uuid st))
  \/ (put_object_raises svc (r2_storage_service.bucket_name self) (audio_key st name)
        content content_type = None
      /\ r2_storage_service.save_audio svc self stream name st
         = (Returned (audio_key st name),
            after_put st (audio_key st name)
              {| Body := content; ContentType := content_type |})).
Proof.
  unfold r2_storage_service.save_audio, try_except, bind, uuid4, get_world,
    put_world, ret, raise, r2_storage_service.s3_put_object, audio_key.
  cbn. fold content. fold (audio_ext name). fold (audio_content_type name).
  fold content_type.
  destruct (put_object_raises svc _ _ _ _) as [e|] eqn:Hput.
  - left. exists e. split; [reflexivity|]. destruct e; reflexivity.
  - right. split; reflexivity.
Qed.

End AudioOutcomes.

(** X3.  When [put_object] raises for the object that [save_pdf] or
    [save_audio] sends (its key, its content and its Content-Type), the
    function stores nothing and raises: a [ClientError] with message [m]
    becomes a plain exception "Failed to save PDF to R2: m" (for audio,
    "Failed to save audio to R2: m"); any other exception is passed on as it
    is. *)
Theorem refused_put_is_wrapped_or_passed_on :
  forall svc self stream name st e,
    ((put_object_raises svc (r2_storage_service.bucket_name self)
        (pdf_key st name) (fst (BinaryIO_read stream)) "application/pdf" = Some e) ->
     exists e',
       r2_storage_service.save_pdf svc self stream name st
       = (Raised e', after_uuid st)
       /\ (forall m, e = ClientError m ->
                     e' = Exception ("Failed to save PDF to R2: " ++ m))
       /\ ((forall m, e <> ClientError m) -> e' = e))
    /\
    ((put_object_raises svc (r2_storage_service.bucket_name self)
        (audio_key st name) (fst (BinaryIO_read stream))
        (audio_content_type name) = Some e) ->
     exists e',
       r2_storage_service.save_audio svc self stream name st
       = (Raised e', after_uuid st)
       /\ (forall m, e = ClientError m ->
                     e' = Exception ("Failed to save audio to R2: " ++ m))
       /\ ((forall m, e <> ClientError m) -> e' = e)).
Proof.
  intros svc self stream name st e. split.
  - intros Hput.
    destruct (save_pdf_outcome svc self stream name st)
      as [(e0 & Hput0 & Hrun) | (Hput0 & _)]; [|congruence].
    rewrite Hput in Hput0. injection Hput0 as <-.
    eexists. split; [exact Hrun|]. split.
    + intros m ->. reflexivity.
    + intros Hne. destruct e; try reflexivity. now destruct (Hne message).
  - intros Hput.
    destruct (save_audio_outcome svc self stream name st)
      as [(e0 & Hput0 & Hrun) | (Hput0 & _)];
      rewrite Hput in Hput0; [|discriminate].
    injection Hput0 as <-.
    eexists. split; [exact Hrun|]. split.
    + intros m ->. reflexivity.
    + intros Hne. destruct e; try reflexivity. now destruct (Hne message).
Qed.

Lemma refused_put_is_wrapped_or_passed_on_witness :
  (exists e',
     r2_storage_service.save_pdf Scenario2.services_store_denied
       (storage_service Scenario.settings0) (rewound Scenario.jd_pdf) "jd.pdf"
       (fresh_state Scenario.world0)
     = (Raised e', after_uuid (fresh_state Scenario.world0))
     /\ e' = Exception "Failed to save PDF to R2: AccessDenied")
  /\
  (exists e',
     r2_storage_service.save_audio Scenario.services_store_down
       (storage_service Scenario.settings0) (rewound Scenario.answer_webm)
       "answer.webm" (fresh_state Scenario.world0)
     = (Raised e', after_uuid (fresh_state Scenario.world0))
     /\ e' = Exception "Connection refused").
Proof.
  split.
  - destruct (proj1 (refused_put_is_wrapped_or_passed_on
                       Scenario2.services_store_denied
                       (storage_service Scenario.settings0)
                       (rewound Scenario.jd_pdf) "jd.pdf"
                       (fresh_state Scenario.world0) (ClientError "AccessDenied"))
                    eq_refl)
      as (e' & Hrun & Hwrap & _).
    exists e'. split; [exact Hrun|]. now apply Hwrap.
  - destruct (proj2 (refused_put_is_wrapped_or_passed_on
                       Scenario.services_store_down
                       (storage_service Scenario.settings0)
                       (rewound Scenario.answer_webm) "answer.webm"
                       (fresh_state Scenario.world0)
                       (Exception "Connection refused"))
                    eq_refl)
      as (e' & Hrun & _ & Hpass).
    exists e'. split; [exact Hrun|]. apply Hpass. discriminate.
Defined.

(** X4.  When the object store has taken the PDF and text extraction then
    fails, the upload is answered 500 and no row is created, but the object
    stays in the bucket under its key: nothing removes it. *)
Theorem failed_extraction_leaves_the_pdf_behind :
  forall svc settings upload company title user w e,
    pdf_name (filename upload) = true ->
    (size_of (payload upload) <= 10 * MiB)%Z ->
    put_object_raises svc (r2_bucket_name settings)
      (pdf_key (fresh_state w) (filename upload)) (data (file upload))
      "application/pdf" = None ->
    raises (r2_storage_service.extract_pdf_text svc (data (file upload))) e ->
    exists w',
      request (job_descriptions.upload_job_description
                 svc settings upload company title user) w
      = (Raised (HTTPException HTTP_500_INTERNAL_SERVER_ERROR
                               "Failed to process job description"), w')
      /\ db w' = db w
      /\ bucket w'
         = (pdf_key (fresh_state w) (filename upload),
            {| Body := data (file upload); ContentType := "application/pdf" |})
           :: bucket w.
Proof.
  intros svc settings upload company title user w e Hname Hsize Hput He.
  destruct (save_pdf_outcome svc (storage_service settings) (rewound upload)
              (filename upload) (fresh_state w))
    as [(e0 & Hput0 & _) | (_ & [(text & Ht & _) | (_ & Hrun)])].
  - assert (H : Some e0 = None) by (rewrite <- Hput0; exact Hput).
    discriminate.
  - destruct (returns_not_raises _ _ _ _ Ht He).
  - eexists. split.
    + eapply upload_raise_is_500; [exact Hname | exact Hsize |].
      unfold job_descriptions.upload_try.
      erewrite bind_raised by exact Hrun. reflexivity.
    + split; reflexivity.
Qed.

Lemma failed_extraction_leaves_the_pdf_behind_witness :
  exists w',
    request (job_descriptions.upload_job_description
               Scenario.services_bad_pdf Scenario.settings0 Scenario.jd_pdf
               "Acme" "Engineer" Scenario.alice) Scenario.world0
    = (Raised (HTTPException HTTP_500_INTERNAL_SERVER_ERROR
                             "Failed to process job description"), w')
    /\ db w' = db Scenario.world0
    /\ bucket w'
       = [("pdfs/1.pdf",
           {| Body := data (file Scenario.jd_pdf);
              ContentType := "application/pdf" |})].
Proof.
  apply (failed_extraction_leaves_the_pdf_behind
           Scenario.services_bad_pdf Scenario.settings0 Scenario.jd_pdf
           "Acme" "Engineer" Scenario.alice Scenario.world0
           (Exception "Failed to extract text from PDF")).
  - reflexivity.
  - vm_compute. discriminate.
  - reflexivity.
  - intros st. reflexivity.
Defined.

(** X5.  Whenever [upload_job_description] returns a JobDescription, the
    bucket has gained exactly one object: under the key the row records as
    [file_path], which is "pdfs/", a fresh UUID and the extension of the
    uploaded name, it holds the whole uploaded file (the stream was rewound
    after the size check) with Content-Type application/pdf.  The row
    carries the caller, the company, the title and the text extracted from
    that file. *)
Theorem returned_job_description_points_at_the_upload :
  forall svc settings upload company title user w j w',
    world_ok w ->
    request (job_descriptions.upload_job_description
               svc settings upload company title user) w
    = (Returned j, w') ->
    file_path j = pdf_key (fresh_state w) (filename upload)
    /\ bucket w'
       = (file_path j,
          {| Body := data (file upload); ContentType := "application/pdf" |})
         :: bucket w
    /\ returns (r2_storage_service.extract_pdf_text svc (data (file upload)))
               (extracted_text j)
    /\ jd_user_id j = id user
    /\ company_name j = company
    /\ job_title j = title
    /\ In j (job_descriptions (db w')).
Proof.
  intros svc settings upload company title user w j w' Hok Hrun.
  destruct (pdf_name (filename upload)) eqn:Hname.
  2: { unfold request in Hrun. rewrite upload_rejected_name in Hrun by exact Hname.
       discriminate. }
  destruct (Z_le_gt_dec (size_of (payload upload)) (10 * MiB)) as [Hsize|Hsize].
  2: { unfold request in Hrun.
       rewrite upload_rejected_size in Hrun; [discriminate|exact Hname|lia]. }
  destruct (save_pdf_outcome svc (storage_service settings) (rewound upload)
              (filename upload) (fresh_state w))
    as [(e0 & _ & Hsave) | (_ & [(text & Ht & Hsave) | (_ & Hsave)])].
  - erewrite upload_raise_is_500 in Hrun;
      [discriminate | exact Hname | exact Hsize |].
    unfold job_descriptions.upload_try.
    erewrite bind_raised by exact Hsave. reflexivity.
  - unfold request in Hrun.
    rewrite (upload_accepted _ _ _ _ _ _ Hname Hsize) in Hrun.
    destruct (generate_questions_cases svc text company title)
      as [(qs & Hgen & _)|(e & Hgen)].
    + erewrite try_returned in Hrun
        by (eapply upload_try_generated; eassumption).
      injection Hrun as <- <-. cbn.
      repeat split; try exact Ht.
      apply in_or_app. right. now left.
    + erewrite try_returned in Hrun
        by (eapply upload_try_failed; eassumption).
      injection Hrun as <- <-. cbn.
      repeat split; try exact Ht.
      apply in_or_app. right. now left.
  - erewrite upload_raise_is_500 in Hrun;
      [discriminate | exact Hname | exact Hsize |].
    unfold job_descriptions.upload_try.
    erewrite bind_raised by exact Hsave. reflexivity.
Qed.

Lemma returned_job_description_points_at_the_upload_witness :
  exists j w',
    request (job_descriptions.upload_job_description
               Scenario.services_up Scenario.settings0 Scenario.jd_pdf
               "Acme" "Engineer" Scenario.alice) Scenario.world0
    = (Returned j, w')
    /\ file_path j = "pdfs/1.pdf"
    /\ bucket w'
       = [(file_path j,
           {| Body := data (file Scenario.jd_pdf);
              ContentType := "application/pdf" |})].
Proof.
  do 2 eexists. split; [vm_compute; reflexivity|].
  edestruct (returned_job_description_points_at_the_upload
               Scenario.services_up Scenario.settings0 Scenario.jd_pdf
               "Acme" "Engineer" Scenario.alice Scenario.world0)
    as (H1 & H2 & _).
  - reflexivity.
  - vm_compute. reflexivity.
  - split; [exact H1 | exact H2].
Defined.

(** X6.  When [save_audio] returns, the key it returns is "audio/", a fresh
    UUID and the extension of the file name, or ".webm" when the name has
    none; the bucket holds the content of the stream under that key; and
    the Content-Type is audio/ogg for ".ogg", audio/wav for ".wav" and
    audio/webm for every other extension (the comparison is exact: ".OGG"
    or ".mp3" are stored as audio/webm). *)
Theorem save_audio_key_and_content_type :
  forall svc self stream name st path st',
    r2_storage_service.save_audio svc self stream name st = (Returned path, st') ->
    path = "audio/" ++ PyStr.of_N (uuid_counter (world st)) ++ audio_ext name
    /\ (pathlib.suffix name = "" -> audio_ext name = ".webm")
    /\ (pathlib.suffix name <> "" -> audio_ext name = pathlib.suffix name)
    /\ exists content_type,
         st' = after_put st path
                 {| Body := fst (BinaryIO_read stream);
                    ContentType := content_type |}
         /\ (pathlib.suffix name = ".ogg" -> content_type = "audio/ogg")
         /\ (pathlib.suffix name = ".wav" -> content_type = "audio/wav")
         /\ (pathlib.suffix name <> ".ogg" -> pathlib.suffix name <> ".wav" ->
             content_type = "audio/webm").
Proof.
  intros svc self stream name st path st' Hrun.
  destruct (save_audio_outcome svc self stream name st)
    as [(e0 & _ & Hsave) | (_ & Hsave)];
    rewrite Hsave in Hrun; [discriminate|].
  injection Hrun as <- <-.
  split; [reflexivity|].
  assert (Hempty : pathlib.suffix name = "" -> audio_ext name = ".webm").
  { intros E. unfold audio_ext. now rewrite E. }
  assert (Hsome : pathlib.suffix name <> "" -> audio_ext name = pathlib.suffix name).
  { intros E. unfold audio_ext, PyStr.truthy.
    destruct (String.eqb_spec (pathlib.suffix name) ""); [contradiction|reflexivity]. }
  split; [exact Hempty|]. split; [exact Hsome|].
  eexists. split; [reflexivity|]. unfold audio_content_type. split; [|split].
  - intros E. rewrite Hsome by (rewrite E; discriminate). now rewrite E.
  - intros E. rewrite Hsome by (rewrite E; discriminate). now rewrite E.
  - intros Hogg Hwav.
    destruct (String.eqb_spec (pathlib.suffix name) "") as [E|E].
    + rewrite (Hempty E). reflexivity.
    + rewrite (Hsome E).
      destruct (String.eqb_spec (pathlib.suffix name) ".ogg"); [contradiction|].
      destruct (String.eqb_spec (pathlib.suffix name) ".wav"); [contradiction|].
      reflexivity.
Qed.

Lemma save_audio_key_and_content_type_witness :
  (exists path st',
     r2_storage_service.save_audio Scenario.services_up
       (storage_service Scenario.settings0) (rewound Scenario.answer_webm)
       "recording" (fresh_state Scenario.world0)
     = (Returned path, st')
     /\ path = "audio/1.webm")
  /\
  (exists path st',
     r2_storage_service.save_audio Scenario.services_up
       (storage_service Scenario.settings0) (rewound Scenario.answer_webm)
       "takes/rec.ogg/." (fresh_state Scenario.world0)
     = (Returned path, st')
     /\ path = "audio/1.ogg"
     /\ map (fun kv => ContentType (snd kv)) (bucket (world st')) = ["audio/ogg"]).
Proof.
  split.
  - do 2 eexists. split; [reflexivity|].
    exact (proj1 (save_audio_key_and_content_type Scenario.services_up
                    (storage_service Scenario.settings0)
                    (rewound Scenario.answer_webm) "recording"
                    (fresh_state Scenario.world0) _ _ eq_refl)).
  - do 2 eexists. split; [reflexivity|].
    destruct (save_audio_key_and_content_type Scenario.services_up
                (storage_service Scenario.settings0)
                (rewound Scenario.answer_webm) "takes/rec.ogg/."
                (fresh_state Scenario.world0) _ _ eq_refl)
      as (Hpath & _ & _ & ct & _ & Hogg & _).
    split; [exact Hpath|].
    cbn. rewrite <- (Hogg eq_refl). reflexivity.
Defined.

Lemma collect_raises_inv pages : forall acc e,
  r2_storage_service.collect_text_parts pages acc = Raised e ->
  exists page, In page pages /\ extract_text page = Raised e.
Proof.
  induction pages as [|page pages IH]; intros acc e H; cbn in H; [discriminate|].
  destruct (extract_text page) as [text|e'] eqn:Hp.
  - destruct (PyStr.truthy text).
    + destruct (IH _ _ H) as (p & Hin & Hr). exists p. split; [now right|exact Hr].
    + destruct (IH _ _ H) as (p & Hin & Hr). exists p. split; [now right|exact Hr].
  - injection H as <-. exists page. split; [now left|exact Hp].
Qed.

Lemma collect_raises_intro pages : forall acc page e,
  In page pages -> extract_text page = Raised e ->
  exists e', r2_storage_service.collect_text_parts pages acc = Raised e'.
Proof.
  induction pages as [|p pages IH]; intros acc page e Hin Hr; [destruct Hin|].
  cbn. destruct (extract_text p) as [text|e'] eqn:Hp.
  - destruct Hin as [->|Hin]; [congruence|].
    destruct (PyStr.truthy text); eapply IH; eassumption.
  - eexists. reflexivity.
Qed.

Lemma extract_returns_inv svc content text :
  returns (r2_storage_service.extract_pdf_text svc content) text ->
  exists pages parts,
    PdfReader svc content = Returned pages
    /\ r2_storage_service.collect_text_parts pages [] = Returned parts
    /\ text = PyStr.strip (PyStr.join PyStr.newline parts).
Proof.
  intros H. specialize (H (fresh_state Scenario.world0)).
  unfold r2_storage_service.extract_pdf_text, try_except in H.
  destruct (PdfReader svc content) as [pages|e] eqn:Hr; [|discriminate].
  destruct (r2_storage_service.collect_text_parts pages []) as [parts|e] eqn:Hc;
    [|discriminate].
  injection H as <-. now exists pages, parts.
Qed.

(** X7.  [extract_pdf_text] raises exactly when the PDF reader raises or
    some page raises on [extract_text], and what it raises is always the
    same exception "Failed to extract text from PDF": the cause is logged
    and never passed on. *)
Theorem extraction_failure_is_opaque :
  forall svc content,
    (((exists e, PdfReader svc content = Raised e)
      \/ (exists pages page e,
            PdfReader svc content = Returned pages
            /\ In page pages /\ extract_text page = Raised e))
     <-> raises (r2_storage_service.extract_pdf_text svc content)
                (Exception "Failed to extract text from PDF"))
    /\ (forall e, raises (r2_storage_service.extract_pdf_text svc content) e ->
                  e = Exception "Failed to extract text from PDF").
Proof.
  intros svc content. split; [split|].
  - intros [(e & Hr) | (pages & page & e & Hr & Hin & Hp)] st;
      unfold r2_storage_service.extract_pdf_text, try_except; rewrite Hr.
    + reflexivity.
    + destruct (collect_raises_intro pages [] page e Hin Hp) as (e' & ->).
      reflexivity.
  - intros H. specialize (H (fresh_state Scenario.world0)).
    unfold r2_storage_service.extract_pdf_text, try_except in H.
    destruct (PdfReader svc content) as [pages|e] eqn:Hr.
    + destruct (r2_storage_service.collect_text_parts pages []) as [parts|e] eqn:Hc;
        [discriminate|].
      destruct (collect_raises_inv _ _ _ Hc) as (page & Hin & Hp).
      right. now exists pages, page, e.
    + left. now exists e.
  - intros e H.
    destruct (extract_pdf_text_cases svc content) as [(text & Ht)|Hf].
    + destruct (returns_not_raises _ _ _ _ Ht H).
    + specialize (H (fresh_state Scenario.world0)).
      specialize (Hf (fresh_state Scenario.world0)). congruence.
Qed.

Lemma extraction_failure_is_opaque_witness :
  r2_storage_service.extract_pdf_text Scenario.services_bad_pdf []
    (fresh_state Scenario.world0)
  = (Raised (Exception "Failed to extract text from PDF"),
     fresh_state Scenario.world0).
Proof.
  apply (proj1 (proj1 (extraction_failure_is_opaque Scenario.services_bad_pdf []))).
  left. eexists. reflexivity.
Defined.

Lemma lstrip_first s c :
  first_char (PyStr.lstrip s) = Some c -> PyStr.isspace c = false.
Proof.
  induction s as [|a s IH]; cbn; [discriminate|].
  destruct (PyStr.isspace a) eqn:Ha; [exact IH|].
  cbn. intros [= <-]. exact Ha.
Qed.

Lemma rstrip_first s c :
  first_char (PyStr.rstrip s) = Some c -> first_char s = Some c.
Proof.
  destruct s as [|a s]; cbn; [discriminate|].
  destruct (PyStr.rstrip s); [destruct (PyStr.isspace a); [discriminate|]|];
    cbn; congruence.
Qed.

Lemma rstrip_last s c :
  last_char (PyStr.rstrip s) = Some c -> PyStr.isspace c = false.
Proof.
  induction s as [|a s IH]; cbn; [discriminate|].
  destruct (PyStr.rstrip s) as [|b r] eqn:E.
  - destruct (PyStr.isspace a) eqn:Ha; cbn; [discriminate|].
    intros [= <-]. exact Ha.
  - cbn. exact IH.
Qed.

Lemma strip_trimmed s : trimmed (PyStr.strip s).
Proof.
  unfold trimmed, PyStr.strip. split.
  - intros c H. apply rstrip_first in H. now apply lstrip_first in H.
  - intros c H. now apply rstrip_last in H.
Qed.

(** X8.  The text [extract_pdf_text] returns never starts or ends with a
    character that [str.isspace] holds of (ASCII white space, the next-line
    character U+0085 or the no-break space U+00A0), and it is the empty
    string when no page has any text: a PDF without extractable text is not
    an error. *)
Theorem extracted_text_is_trimmed :
  forall svc content text,
    returns (r2_storage_service.extract_pdf_text svc content) text ->
    trimmed text
    /\ (forall pages,
          PdfReader svc content = Returned pages ->
          Forall (fun page => extract_text page = Returned "") pages ->
          text = "").
Proof.
  intros svc content text H.
  destruct (extract_returns_inv _ _ _ H) as (pages & parts & Hr & Hc & ->).
  split; [apply strip_trimmed|].
  intros pages' Hr' Hempty. rewrite Hr in Hr'. injection Hr' as <-.
  assert (Hmap : map extract_text pages
                 = map Returned (map (fun _ => "") pages)).
  { clear Hc Hr. induction Hempty as [|page pages Hp _ IH]; cbn; [reflexivity|].
    now rewrite Hp, IH. }
  rewrite (collect_text_parts_spec _ _ [] Hmap) in Hc. injection Hc as <-.
  assert (Hnone : filter PyStr.truthy (map (fun _ : Page => "") pages) = []).
  { clear. induction pages; cbn; auto. }
  rewrite Hnone. reflexivity.
Qed.

Lemma extracted_text_is_trimmed_witness :
  trimmed ""
  /\ trimmed ("Build things." ++ PyStr.newline ++ "Ship them.")
  /\ trimmed ("Engineer" ++ Scenario2.no_break_space ++ PyStr.newline ++ "Acme").
Proof.
  split; [|split].
  - apply (extracted_text_is_trimmed Scenario2.services_scan []).
    intros st. reflexivity.
  - apply (extracted_text_is_trimmed Scenario.services_up []).
    intros st. reflexivity.
  - apply (extracted_text_is_trimmed Scenario2.services_padded []).
    intros st. reflexivity.
Defined.

(* ===================================================================== *)
(** * Further properties: fetching and deleting *)
(* ===================================================================== *)

Lemma find_key_after_delete (key key' : string) (l : list (string * Blob)) :
  key' <> key ->
  find (fun kv => String.eqb (fst kv) key')
       (filter (fun kv => negb (String.eqb (fst kv) key)) l)
  = find (fun kv => String.eqb (fst kv) key') l.
Proof.
  intros Hne. induction l as [|[k b] l IH]; cbn; [reflexivity|].
  destruct (String.eqb_spec k key) as [->|Hk]; cbn.
  - destruct (String.eqb_spec key key'); [congruence|]. exact IH.
  - destruct (String.eqb_spec k key'); [reflexivity|exact IH].
Qed.

Lemma find_key_deleted (key : string) (l : list (string * Blob)) :
  find (fun kv => String.eqb (fst kv) key)
       (filter (fun kv => negb (String.eqb (fst kv) key)) l)
  = None.
Proof.
  induction l as [|[k b] l IH]; cbn; [reflexivity|].
  destruct (String.eqb_spec k key) as [->|Hk]; cbn; [exact IH|].
  destruct (String.eqb_spec k key); [contradiction|exact IH].
Qed.

(** X9.  What [save_pdf] and [save_audio] have stored is what
    [download_file] gives back for the key they returned, byte for byte,
    as long as the object store answers the fetch. *)
Theorem download_returns_what_was_saved :
  forall svc store self stream name st st',
    (forall path,
       r2_storage_service.save_audio svc self stream name st = (Returned path, st') ->
       get_object_raises store (r2_storage_service.bucket_name self) path = None ->
       R2StorageService.download_file store self path st'
       = (Returned (fst (BinaryIO_read stream)), st'))
    /\
    (forall path text,
       r2_storage_service.save_pdf svc self stream name st
       = (Returned (path, text), st') ->
       get_object_raises store (r2_storage_service.bucket_name self) path = None ->
       R2StorageService.download_file store self path st'
       = (Returned (fst (BinaryIO_read stream)), st')).
Proof.
  intros svc store self stream name st st'. split.
  - intros path Hsave Hget.
    destruct (save_audio_outcome svc self stream name st)
      as [(e0 & _ & Hrun) | (_ & Hrun)];
      rewrite Hrun in Hsave; [discriminate|].
    injection Hsave as <- <-.
    unfold R2StorageService.download_file, R2StorageService.s3_get_object,
      try_except, bind, get_world, ret.
    rewrite Hget. cbn. now rewrite String.eqb_refl.
  - intros path text Hsave Hget.
    destruct (save_pdf_outcome svc self stream name st)
      as [(e0 & _ & Hrun) | (_ & [(text' & _ & Hrun) | (_ & Hrun)])];
      rewrite Hrun in Hsave; try discriminate.
    injection Hsave as <- _ <-.
    unfold R2StorageService.download_file, R2StorageService.s3_get_object,
      try_except, bind, get_world, ret.
    rewrite Hget. cbn. now rewrite String.eqb_refl.
Qed.

Lemma download_returns_what_was_saved_witness :
  exists path st',
    r2_storage_service.save_audio Scenario.services_up
      (storage_service Scenario.settings0) (rewound Scenario.answer_webm)
      "answer.webm" (fresh_state Scenario.world0)
    = (Returned path, st')
    /\ R2StorageService.download_file Scenario2.store_up
         (storage_service Scenario.settings0) path st'
       = (Returned (data (file Scenario.answer_webm)), st').
Proof.
  do 2 eexists. split; [reflexivity|].
  apply (proj1 (download_returns_what_was_saved Scenario.services_up
                  Scenario2.store_up (storage_service Scenario.settings0)
                  (rewound Scenario.answer_webm) "answer.webm"
                  (fresh_state Scenario.world0) _)).
  - reflexivity.
  - reflexivity.
Defined.

(** X10.  [download_file] never returns anything for a key the bucket does
    not hold: it raises "Failed to download file from R2: " followed by the
    error of the store.  Every [ClientError] of the store is wrapped that
    way; any other exception is passed on as it is; in no case is the state
    changed. *)
Theorem download_failure_is_wrapped_or_passed_on :
  forall store self r2_key st,
    (get_object_raises store (r2_storage_service.bucket_name self) r2_key = None ->
     (forall blob, ~ In (r2_key, blob) (bucket (world st))) ->
     R2StorageService.download_file store self r2_key st
     = (Raised (Exception ("Failed to download file from R2: "
                           ++ str R2StorageService.NoSuchKey)), st))
    /\
    (forall m,
       get_object_raises store (r2_storage_service.bucket_name self) r2_key
       = Some (ClientError m) ->
       R2StorageService.download_file store self r2_key st
       = (Raised (Exception ("Failed to download file from R2: " ++ m)), st))
    /\
    (forall e,
       get_object_raises store (r2_storage_service.bucket_name self) r2_key = Some e ->
       (forall m, e <> ClientError m) ->
       R2StorageService.download_file store self r2_key st = (Raised e, st)).
Proof.
  intros store self r2_key st. split; [|split].
  - intros Hget Habsent.
    unfold R2StorageService.download_file, R2StorageService.s3_get_object,
      try_except, bind, get_world, ret.
    rewrite Hget. cbn.
    destruct (find _ (bucket (world st))) as [[k b]|] eqn:Hfind; [|reflexivity].
    apply find_some in Hfind. destruct Hfind as [Hin Hk]. cbn in Hk.
    apply String.eqb_eq in Hk. subst k. destruct (Habsent b Hin).
  - intros m Hget.
    unfold R2StorageService.download_file, R2StorageService.s3_get_object,
      try_except, bind.
    rewrite Hget. reflexivity.
  - intros e Hget Hne.
    unfold R2StorageService.download_file, R2StorageService.s3_get_object,
      try_except, bind.
    rewrite Hget. destruct e; try reflexivity. now destruct (Hne message).
Qed.

Lemma download_failure_is_wrapped_or_passed_on_witness :
  R2StorageService.download_file Scenario2.store_up
    (storage_service Scenario.settings0) "audio/0.webm"
    (fresh_state Scenario.world1)
  = (Raised (Exception ("Failed to download file from R2: "
                        ++ str R2StorageService.NoSuchKey)),
     fresh_state Scenario.world1)
  /\
  R2StorageService.download_file Scenario2.store_denied
    (storage_service Scenario.settings0) "pdfs/1.pdf"
    (fresh_state Scenario.world1)
  = (Raised (Exception "Failed to download file from R2: AccessDenied"),
     fresh_state Scenario.world1).
Proof.
  split.
  - apply (proj1 (download_failure_is_wrapped_or_passed_on Scenario2.store_up
                    (storage_service Scenario.settings0) "audio/0.webm"
                    (fresh_state Scenario.world1))).
    + reflexivity.
    + intros blob [H|[]]. discriminate.
  - apply (proj1 (proj2 (download_failure_is_wrapped_or_passed_on
                           Scenario2.store_denied
                           (storage_service Scenario.settings0) "pdfs/1.pdf"
                           (fresh_state Scenario.world1)))).
    reflexivity.
Defined.

(** X11.  [delete_file] hides a [ClientError] of the store from its
    caller: it returns as if the deletion had happened, and the object is
    still there.  Only exceptions of another class reach the caller. *)
Theorem delete_file_drops_client_errors :
  forall store self r2_key st,
    (forall m,
       delete_object_raises store (r2_storage_service.bucket_name self) r2_key
       = Some (ClientError m) ->
       R2StorageService.delete_file store self r2_key st = (Returned tt, st))
    /\
    (forall e,
       delete_object_raises store (r2_storage_service.bucket_name self) r2_key
       = Some e ->
       (forall m, e <> ClientError m) ->
       R2StorageService.delete_file store self r2_key st = (Raised e, st)).
Proof.
  intros store self r2_key st. split.
  - intros m Hdel.
    unfold R2StorageService.delete_file, R2StorageService.s3_delete_object,
      try_except.
    rewrite Hdel. reflexivity.
  - intros e Hdel Hne.
    unfold R2StorageService.delete_file, R2StorageService.s3_delete_object,
      try_except.
    rewrite Hdel. destruct e; try reflexivity. now destruct (Hne message).
Qed.

Lemma delete_file_drops_client_errors_witness :
  R2StorageService.delete_file Scenario2.store_denied
    (storage_service Scenario.settings0) "pdfs/1.pdf"
    (fresh_state Scenario.world1)
  = (Returned tt, fresh_state Scenario.world1)
  /\ bucket Scenario.world1 <> [].
Proof.
  split; [|discriminate].
  apply (proj1 (delete_file_drops_client_errors Scenario2.store_denied
                  (storage_service Scenario.settings0) "pdfs/1.pdf"
                  (fresh_state Scenario.world1)) "AccessDenied").
  reflexivity.
Defined.

(** X12.  Once [delete_file] has gone through, [download_file] of the same
    key raises the error of a missing key, every other key downloads as
    before, and the tables are untouched. *)
Theorem deleted_file_is_gone_and_others_stay :
  forall store self r2_key st,
    delete_object_raises store (r2_storage_service.bucket_name self) r2_key = None ->
    exists st',
      R2StorageService.delete_file store self r2_key st = (Returned tt, st')
      /\ db (world st') = db (world st)
      /\ (get_object_raises store (r2_storage_service.bucket_name self) r2_key
          = None ->
          R2StorageService.download_file store self r2_key st'
          = (Raised (Exception ("Failed to download file from R2: "
                                ++ str R2StorageService.NoSuchKey)), st'))
      /\ (forall other,
            other <> r2_key ->
            fst (R2StorageService.download_file store self other st')
            = fst (R2StorageService.download_file store self other st)).
Proof.
  intros store self r2_key st Hdel.
  eexists. split; [|split; [|split]].
  - unfold R2StorageService.delete_file, R2StorageService.s3_delete_object,
      try_except, bind, get_world, put_world.
    rewrite Hdel. reflexivity.
  - reflexivity.
  - intros Hget.
    unfold R2StorageService.download_file, R2StorageService.s3_get_object,
      try_except, bind, get_world, ret.
    rewrite Hget. cbn. rewrite find_key_deleted. reflexivity.
  - intros other Hne.
    unfold R2StorageService.download_file, R2StorageService.s3_get_object,
      try_except, bind, get_world, ret.
    destruct (get_object_raises store _ other) as [e|]; [destruct e; reflexivity|].
    cbn. rewrite find_key_after_delete by exact Hne.
    destruct (find _ (bucket (world st))); reflexivity.
Qed.

Lemma deleted_file_is_gone_and_others_stay_witness :
  exists st',
    R2StorageService.delete_file Scenario2.store_up
      (storage_service Scenario.settings0) "audio/8.webm"
      (fresh_state Scenario.world2)
    = (Returned tt, st')
    /\ fst (R2StorageService.download_file Scenario2.store_up
              (storage_service Scenario.settings0) "pdfs/1.pdf" st')
       = Returned (data (file Scenario.jd_pdf)).
Proof.
  destruct (deleted_file_is_gone_and_others_stay Scenario2.store_up
              (storage_service Scenario.settings0) "audio/8.webm"
              (fresh_state Scenario.world2) eq_refl)
    as (st' & Hdel & _ & _ & Hother).
  exists st'. split; [exact Hdel|].
  rewrite Hother by discriminate. reflexivity.
Defined.

(* ===================================================================== *)
(** * Further properties: the language-model adapter *)
(* ===================================================================== *)

(** X13.  [generate_questions] returns a list exactly when the model's
    parsed output is that list and it has five items; four or six items
    never come back.  An absent parsed output raises "Failed to parse
    questions from Claude response", and an exception of the call is passed
    on as it is. *)
Theorem generate_questions_returns_exactly_five :
  forall svc text company title,
    (forall qs,
       returns (claude_service.generate_questions svc text company title) qs
       <-> model_questions svc (QuestionsPrompt company title text)
           = Returned (Some qs)
           /\ length qs = 5)
    /\
    (model_questions svc (QuestionsPrompt company title text) = Returned None ->
     raises (claude_service.generate_questions svc text company title)
            (Exception "Failed to parse questions from Claude response"))
    /\
    (forall e,
       model_questions svc (QuestionsPrompt company title text) = Raised e ->
       raises (claude_service.generate_questions svc text company title) e).
Proof.
  intros svc text company title. split; [|split].
  - intros qs. split.
    + intros H. specialize (H (fresh_state Scenario.world0)).
      unfold claude_service.generate_questions,
        claude_service.parse_QuestionsList, bind in H.
      destruct (model_questions svc _) as [[qs'|]|e]; try discriminate.
      destruct (claude_service.QuestionsList_valid qs') eqn:Hv; [|discriminate].
      injection H as <-. split; [reflexivity|].
      unfold claude_service.QuestionsList_valid in Hv.
      apply andb_prop in Hv. destruct Hv as [H1 H2].
      apply Nat.leb_le in H1, H2. lia.
    + intros [Hm Hlen] st.
      unfold claude_service.generate_questions,
        claude_service.parse_QuestionsList, bind.
      rewrite Hm. unfold claude_service.QuestionsList_valid. rewrite Hlen.
      reflexivity.
  - intros Hm st.
    unfold claude_service.generate_questions,
      claude_service.parse_QuestionsList, bind.
    rewrite Hm. reflexivity.
  - intros e Hm st.
    unfold claude_service.generate_questions,
      claude_service.parse_QuestionsList, bind.
    rewrite Hm. reflexivity.
Qed.

Lemma generate_questions_returns_exactly_five_witness :
  returns (claude_service.generate_questions Scenario.services_up
             "Build things." "Acme" "Engineer")
          Scenario.five_questions
  /\ raises (claude_service.generate_questions Scenario.services_model_down
               "Build things." "Acme" "Engineer")
            (Exception "Overloaded").
Proof.
  split.
  - apply (proj1 (generate_questions_returns_exactly_five Scenario.services_up
                    "Build things." "Acme" "Engineer")).
    split; reflexivity.
  - apply (proj2 (proj2 (generate_questions_returns_exactly_five
                           Scenario.services_model_down
                           "Build things." "Acme" "Engineer"))).
    reflexivity.
Defined.

Lemma Scores_valid_spec s :
  claude_service.Scores_valid s = true <->
  Forall (fun x => (1 <= x <= 10)%Z) (sub_scores s).
Proof.
  unfold claude_service.Scores_valid, claude_service.score_valid, sub_scores.
  rewrite !andb_true_iff, !Z.leb_le. split.
  - intros ((((H1 & H2) & H3) & H4) & H5). repeat constructor; tauto.
  - intros H.
    repeat (apply Forall_cons_iff in H; destruct H as [? H]). tauto.
Qed.

Lemma evaluate_response_inv svc text question transcript ev :
  returns (claude_service.evaluate_response svc text question transcript) ev ->
  model_evaluation svc (EvaluationPrompt text question transcript)
  = Returned (Some ev)
  /\ Forall (fun x => (1 <= x <= 10)%Z) (sub_scores (scores ev)).
Proof.
  intros H. specialize (H (fresh_state Scenario.world0)).
  unfold claude_service.evaluate_response,
    claude_service.parse_EvaluationResult, bind in H.
  destruct (model_evaluation svc _) as [[r|]|e]; try discriminate.
  destruct (claude_service.EvaluationResult_valid r) eqn:Hv; [|discriminate].
  injection H as <-. destruct r as [sc fb oc]. cbn.
  split; [reflexivity|]. now apply Scores_valid_spec.
Qed.

(** X14.  [evaluate_response] returns an evaluation exactly when the model's
    parsed output is that evaluation and each of its five sub-scores lies
    between 1 and 10: a score of 0 or 11 never comes back.  An absent parsed
    output raises "Failed to parse evaluation from Claude response". *)
Theorem evaluate_response_returns_scores_in_range :
  forall svc text question transcript,
    (forall ev,
       returns (claude_service.evaluate_response svc text question transcript) ev
       <-> model_evaluation svc (EvaluationPrompt text question transcript)
           = Returned (Some ev)
           /\ Forall (fun x => (1 <= x <= 10)%Z) (sub_scores (scores ev)))
    /\
    (model_evaluation svc (EvaluationPrompt text question transcript)
     = Returned None ->
     raises (claude_service.evaluate_response svc text question transcript)
            (Exception "Failed to parse evaluation from Claude response")).
Proof.
  intros svc text question transcript. split.
  - intros ev. split.
    + apply evaluate_response_inv.
    + intros [Hm Hrange] st.
      unfold claude_service.evaluate_response,
        claude_service.parse_EvaluationResult, bind.
      rewrite Hm. unfold claude_service.EvaluationResult_valid.
      apply Scores_valid_spec in Hrange. rewrite Hrange.
      destruct ev. reflexivity.
  - intros Hm st.
    unfold claude_service.evaluate_response,
      claude_service.parse_EvaluationResult, bind.
    rewrite Hm. reflexivity.
Qed.

Lemma evaluate_response_returns_scores_in_range_witness :
  claude_service.evaluate_response Scenario.services_up
    "Build things." "Tell me about a deadline." "I led a team of four."
    (fresh_state Scenario.world0)
  = (Returned Scenario.evaluation7, fresh_state Scenario.world0).
Proof.
  apply (proj2 (proj1 (evaluate_response_returns_scores_in_range
                         Scenario.services_up "Build things."
                         "Tell me about a deadline." "I led a team of four.")
                      Scenario.evaluation7)).
  split; [reflexivity|].
  repeat constructor; cbn; lia.
Defined.

(* ===================================================================== *)
(** * Further properties: sorting and joining *)
(* ===================================================================== *)

Section Sorting.

Variable A : Type.
Variable key : A -> Z.

Lemma insert_desc_perm (x : A) (l : list A) :
  Permutation (insert_desc key x l) (x :: l).
Proof.
  induction l as [|y l IH]; cbn; [reflexivity|].
  destruct (key y <=? key x)%Z; [reflexivity|].
  rewrite IH. apply perm_swap.
Qed.

Lemma order_by_desc_perm (l : list A) : Permutation (order_by_desc key l) l.
Proof.
  induction l as [|x l IH]; cbn; [reflexivity|].
  rewrite insert_desc_perm. now constructor.
Qed.

Lemma insert_desc_sorted (x : A) (l : list A) :
  newest_first key l -> newest_first key (insert_desc key x l).
Proof.
  unfold newest_first.
  induction 1 as [|y l Hl IH Hy]; cbn.
  - repeat constructor.
  - destruct (key y <=? key x)%Z eqn:E.
    + apply Z.leb_le in E. constructor; [now constructor|].
      constructor; [exact E|].
      revert Hy. apply Forall_impl. intros; lia.
    + apply Z.leb_gt in E. constructor; [exact IH|].
      apply Forall_forall. intros z Hz.
      apply insert_desc_In in Hz. destruct Hz as [->|Hz]; [lia|].
      rewrite Forall_forall in Hy. now apply Hy.
Qed.

Lemma order_by_desc_sorted (l : list A) : newest_first key (order_by_desc key l).
Proof.
  induction l as [|x l IH]; cbn; [constructor|].
  now apply insert_desc_sorted.
Qed.

End Sorting.

Lemma newest_first_map A B (f : A -> B) (kb : B -> Z) (l : list A) :
  newest_first (fun a => kb (f a)) l -> newest_first kb (map f l).
Proof.
  unfold newest_first. induction 1 as [|x l Hl IH Hx]; cbn; constructor.
  - exact IH.
  - apply Forall_forall. intros b Hb. apply in_map_iff in Hb.
    destruct Hb as (a & <- & Ha). rewrite Forall_forall in Hx. now apply Hx.
Qed.

Section Joining.

Variables A B : Type.
Variable on : A -> B -> bool.

Lemma join_app_left (l1 l1' : list A) (l2 : list B) :
  join on (l1 ++ l1') l2 = (join on l1 l2 ++ join on l1' l2)%list.
Proof. unfold join. apply flat_map_app. Qed.

Lemma join_unmatched_right (l1 : list A) (l2 : list B) (b : B) :
  Forall (fun a => on a b = false) l1 ->
  join on l1 (l2 ++ [b]) = join on l1 l2.
Proof.
  unfold join. induction 1 as [|a l1 Ha _ IH]; cbn; [reflexivity|].
  rewrite IH, filter_app. cbn. rewrite Ha, app_nil_r. reflexivity.
Qed.

End Joining.

(* ===================================================================== *)
(** * Further properties: submitting and listing responses *)
(* ===================================================================== *)

Lemma evaluate_call_inv svc jd q t ev :
  returns (responses.evaluate_call svc jd q t) ev ->
  Forall (fun x => (1 <= x <= 10)%Z) (sub_scores (scores ev)).
Proof.
  intros H. destruct jd as [j|].
  - apply (evaluate_response_inv svc (extracted_text j) (question_text q) t).
    intros st. specialize (H st).
    unfold responses.evaluate_call, responses.getattr_extracted_text, bind, ret in H.
    exact H.
  - specialize (H (fresh_state Scenario.world0)). discriminate.
Qed.

(** X15.  When transcription and evaluation both return, [submit_response]
    returns the transcript and the scores of the evaluation, and has added
    one Response row and exactly one ResponseScore row for it, whose five
    score columns are the five sub-scores of the evaluation, each between 1
    and 10, and whose JSON column is the evaluation itself. *)
Theorem scored_response_is_stored :
  forall svc settings question_id audio user w q path st1 t ev,
    world_ok w ->
    responses.find_question question_id user (db w) = Some q ->
    (size_of (payload audio) <= 50 * MiB)%Z ->
    r2_storage_service.save_audio svc (storage_service settings)
      (rewound audio) (filename audio) (fresh_state w)
    = (Returned path, st1) ->
    returns (whisper_service.transcribe svc path) t ->
    returns (responses.evaluate_call svc
               (responses.find_job_description q (db w)) q t) ev ->
    exists body w' r s,
      request (responses.submit_response svc settings question_id audio user) w
      = (Returned body, w')
      /\ responses (db w') = (responses (db w) ++ [r])%list
      /\ response_scores (db w') = (response_scores (db w) ++ [s])%list
      /\ scores_of r (db w') = [s]
      /\ score_columns s = sub_scores (scores ev)
      /\ Forall (fun x => (1 <= x <= 10)%Z) (score_columns s)
      /\ scores_json s = ev
      /\ transcript r = t
      /\ r_user_id r = id user
      /\ responses.rr_response_id body = r_id r
      /\ responses.rr_transcript body = t
      /\ responses.rr_scores body = scores ev
      /\ responses.rr_feedback body = feedback ev
      /\ responses.rr_overall_comment body = overall_comment ev.
Proof.
  intros svc settings question_id audio user w q path st1 t ev
         Hok Hq Hsize Hsave Ht He.
  do 4 eexists. split.
  - unfold request.
    erewrite submit_accepted by eassumption.
    erewrite try_returned by (eapply submit_try_scored; eassumption).
    reflexivity.
  - cbn. repeat split.
    + unfold scores_of. cbn. rewrite filter_app. cbn. rewrite N.eqb_refl.
      rewrite filter_nothing; [reflexivity|].
      destruct (ids_below_spec _ _ Hok) as (_ & _ & _ & Hs).
      revert Hs. apply Forall_impl. intros s [_ Hs].
      apply N.eqb_neq. lia.
    + eapply evaluate_call_inv. exact He.
Qed.

Lemma scored_response_is_stored_witness :
  exists body w' r s,
    request (responses.submit_response Scenario.services_up Scenario.settings0 3
               Scenario.answer_webm Scenario.alice) Scenario.world1
    = (Returned body, w')
    /\ scores_of r (db w') = [s]
    /\ score_columns s = [7; 6; 5; 8; 7]%Z.
Proof.
  edestruct (scored_response_is_stored
               Scenario.services_up Scenario.settings0 3%N Scenario.answer_webm
               Scenario.alice Scenario.world1)
    as (body & w' & r & s & Hrun & _ & _ & Hs & Hcols & _).
  - reflexivity.
  - reflexivity.
  - vm_compute. discriminate.
  - reflexivity.
  - intros st. reflexivity.
  - intros st. reflexivity.
  - exists body, w', r, s. split; [exact Hrun|]. split; [exact Hs|exact Hcols].
Defined.

(** X16.  After such a submission the listing of the question, asked for by
    the same user, holds what it held before and one item more: the new
    response with the scores of its evaluation. *)
Theorem scored_response_is_listed :
  forall svc settings question_id audio user w q path st1 t ev o w',
    world_ok w ->
    responses.find_question question_id user (db w) = Some q ->
    (size_of (payload audio) <= 50 * MiB)%Z ->
    r2_storage_service.save_audio svc (storage_service settings)
      (rewound audio) (filename audio) (fresh_state w)
    = (Returned path, st1) ->
    returns (whisper_service.transcribe svc path) t ->
    returns (responses.evaluate_call svc
               (responses.find_job_description q (db w)) q t) ev ->
    request (responses.submit_response svc settings question_id audio user) w
    = (o, w') ->
    exists before after,
      request (responses.list_responses question_id user) w = (Returned before, w)
      /\ request (responses.list_responses question_id user) w'
         = (Returned after, w')
      /\ Permutation after
           ({| responses.li_response_id := N.succ (uuid_counter w);
               responses.li_created_at := clock w;
               responses.li_scores := scores ev |} :: before).
Proof.
  intros svc settings question_id audio user w q path st1 t ev o w'
         Hok Hq Hsize Hsave Ht He Hrun.
  unfold request in Hrun.
  erewrite submit_accepted in Hrun by eassumption.
  erewrite try_returned in Hrun by (eapply submit_try_scored; eassumption).
  injection Hrun as _ <-.
  destruct (find_question_spec _ _ _ _ Hq) as (_ & Hid & _).
  do 2 eexists. split; [|split].
  - apply list_responses_run with (q := q). exact Hq.
  - apply list_responses_run with (q := q). exact Hq.
  - cbn [db world].
    unfold responses.responses_with_scores.
    cbn [responses response_scores].
    destruct (ids_below_spec _ _ Hok) as (_ & _ & Hr & Hs).
    rewrite join_app_left.
    rewrite join_unmatched_right.
    2: { revert Hr. apply Forall_impl. intros r [Hr _]. cbn.
         apply N.eqb_neq. lia. }
    unfold join at 2. cbn [flat_map].
    assert (Hinner :
      filter (fun s => N.eqb (N.succ (uuid_counter w)) (rs_response_id s))
             (response_scores (db w)
              ++ [score_row (N.succ (N.succ (uuid_counter w)))
                            (N.succ (uuid_counter w)) ev])
      = [score_row (N.succ (N.succ (uuid_counter w))) (N.succ (uuid_counter w)) ev]).
    { rewrite filter_app. cbn. rewrite N.eqb_refl.
      rewrite filter_nothing; [reflexivity|].
      revert Hs. apply Forall_impl. intros s [_ Hs].
      apply N.eqb_neq. lia. }
    cbn [r_id response_row]. rewrite Hinner. cbn [map app].
    rewrite filter_app. cbn [filter fst r_question_id response_row].
    rewrite Hid, N.eqb_refl.
    rewrite !order_by_desc_perm, map_app. cbn [map].
    rewrite <- Permutation_cons_append.
    apply perm_skip. reflexivity.
Qed.

Lemma scored_response_is_listed_witness :
  exists before after,
    request (responses.list_responses 3 Scenario.alice) Scenario.world1
    = (Returned before, Scenario.world1)
    /\ request (responses.list_responses 3 Scenario.alice) Scenario2.world3
       = (Returned after, Scenario2.world3)
    /\ Permutation after
         ({| responses.li_response_id := N.succ (uuid_counter Scenario.world1);
             responses.li_created_at := clock Scenario.world1;
             responses.li_scores := scores Scenario.evaluation7 |} :: before).
Proof.
  eapply (scored_response_is_listed
            Scenario.services_up Scenario.settings0 3%N Scenario.answer_webm
            Scenario.alice Scenario.world1).
  - reflexivity.
  - reflexivity.
  - vm_compute. discriminate.
  - reflexivity.
  - intros st. reflexivity.
  - intros st. reflexivity.
  - vm_compute. reflexivity.
Defined.

(** X17.  When the object store has taken the audio that [save_audio]
    sends (under its key, with its Content-Type) and transcription then
    fails, the submission is answered 500 with the text of the failure and
    no row is created, but the audio stays in the bucket under its key:
    nothing removes it. *)
Theorem failed_transcription_leaves_the_audio_behind :
  forall svc settings question_id audio user w q e,
    responses.find_question question_id user (db w) = Some q ->
    (size_of (payload audio) <= 50 * MiB)%Z ->
    put_object_raises svc (r2_bucket_name settings)
      (audio_key (fresh_state w) (filename audio)) (data (file audio))
      (audio_content_type (filename audio)) = None ->
    raises (whisper_service.transcribe svc
              (audio_key (fresh_state w) (filename audio))) e ->
    exists w',
      request (responses.submit_response svc settings question_id audio user) w
      = (Raised (HTTPException HTTP_500_INTERNAL_SERVER_ERROR
                               ("Failed to process response: " ++ str e)), w')
      /\ db w' = db w
      /\ bucket w'
         = (audio_key (fresh_state w) (filename audio),
            {| Body := data (file audio);
               ContentType := audio_content_type (filename audio) |})
           :: bucket w.
Proof.
  intros svc settings question_id audio user w q e Hq Hsize Hput He.
  destruct (save_audio_outcome svc (storage_service settings) (rewound audio)
              (filename audio) (fresh_state w))
    as [(e0 & Hput0 & _) | (_ & Hsave)].
  - exfalso.
    assert (H : Some e0 = None) by (rewrite <- Hput0; exact Hput).
    discriminate.
  - eexists. split.
    + eapply submit_raise_is_500; [exact Hq | exact Hsize |].
      eapply submit_try_transcription_failed; [exact Hsave | exact He].
    + split; reflexivity.
Qed.

Lemma failed_transcription_leaves_the_audio_behind_witness :
  exists w',
    request (responses.submit_response Scenario.services_deaf Scenario.settings0
               3 Scenario.answer_webm Scenario.alice) Scenario.world1
    = (Raised (HTTPException HTTP_500_INTERNAL_SERVER_ERROR
                 ("Failed to process response: "
                  ++ str (Exception "Unsupported audio format"))), w')
    /\ db w' = db Scenario.world1
    /\ bucket w'
       = ("audio/8.webm",
          {| Body := data (file Scenario.answer_webm);
             ContentType := "audio/webm" |})
         :: bucket Scenario.world1.
Proof.
  apply (failed_transcription_leaves_the_audio_behind
           Scenario.services_deaf Scenario.settings0 3%N Scenario.answer_webm
           Scenario.alice Scenario.world1
           {| q_id := 3; q_job_description_id := 2; q_user_id := 100;
              question_text := "Tell me about a deadline." |}
           (Exception "Unsupported audio format")).
  - reflexivity.
  - vm_compute. discriminate.
  - reflexivity.
  - intros st. reflexivity.
Defined.

(* ===================================================================== *)
(** * Further properties: the listings *)
(* ===================================================================== *)

(** X18.  [list_job_descriptions] returns every job description of the
    requesting user, each once and no other row, ordered newest first, and
    does not change the world. *)
Theorem job_descriptions_are_listed_newest_first :
  forall user w,
  exists rows,
    request (job_descriptions.list_job_descriptions user) w = (Returned rows, w)
    /\ Permutation rows
         (filter (fun j => N.eqb (jd_user_id j) (id user))
                 (job_descriptions (db w)))
    /\ newest_first jd_created_at rows.
Proof.
  intros user w. eexists. split; [reflexivity|]. split.
  - apply order_by_desc_perm.
  - apply order_by_desc_sorted.
Qed.

(** X19.  [list_responses], asked by the owner of the question, returns one
    item for every pair of a response of that question and a score that
    points at it, ordered newest first by the time of the response; asked
    for a question the caller does not own (or that does not exist), it
    answers 404 "Question not found".  The world is not changed. *)
Theorem responses_are_listed_newest_first :
  forall question_id user w,
    (forall q,
       responses.find_question question_id user (db w) = Some q ->
       exists items,
         request (responses.list_responses question_id user) w
         = (Returned items, w)
         /\ newest_first responses.li_created_at items
         /\ (forall r s,
               In r (responses (db w)) -> In s (response_scores (db w)) ->
               rs_response_id s = r_id r -> r_question_id r = question_id ->
               In (list_item (r, s)) items)
         /\ length items
            = length (filter (fun p => N.eqb (r_question_id (fst p)) question_id)
                        (join (fun r s => N.eqb (r_id r) (rs_response_id s))
                              (responses (db w)) (response_scores (db w)))))
    /\
    ((forall q, In q (questions (db w)) -> q_id q = question_id ->
                q_user_id q <> id user) ->
     request (responses.list_responses question_id user) w
     = (Raised (HTTPException HTTP_404_NOT_FOUND "Question not found"), w)).
Proof.
  intros question_id user w. split.
  - intros q Hq. eexists. split; [|split; [|split]].
    + apply list_responses_run with (q := q). exact Hq.
    + apply newest_first_map. cbn.
      apply (order_by_desc_sorted _ (fun p => r_created_at (fst p))).
    + intros r s Hr Hs Hrs Hrq. apply in_map.
      apply responses_with_scores_In. auto.
    + rewrite length_map. unfold responses.responses_with_scores.
      apply Permutation_length. apply order_by_desc_perm.
  - intros Hnone.
    unfold request, responses.list_responses, bind, get_world.
    cbn. rewrite find_question_none by exact Hnone. reflexivity.
Qed.

Lemma responses_are_listed_newest_first_witness :
  (exists items,
     request (responses.list_responses 3 Scenario.alice) Scenario2.world3
     = (Returned items, Scenario2.world3)
     /\ newest_first responses.li_created_at items
     /\ length items = 1)
  /\ request (responses.list_responses 3 Scenario.bob) Scenario2.world3
     = (Raised (HTTPException HTTP_404_NOT_FOUND "Question not found"),
        Scenario2.world3).
Proof.
  destruct (responses_are_listed_newest_first 3%N Scenario.alice Scenario2.world3)
    as [Hown _].
  destruct (responses_are_listed_newest_first 3%N Scenario.bob Scenario2.world3)
    as [_ Hforeign].
  split.
  - destruct (Hown _ eq_refl) as (items & Hrun & Hsorted & _ & Hlen).
    exists items. split; [exact Hrun|]. split; [exact Hsorted|].
    rewrite Hlen. reflexivity.
  - apply Hforeign. intros q Hq _. cbn in Hq.
    repeat (destruct Hq as [<-|Hq]; [discriminate|]). destruct Hq.
Defined.

Lemma new_questions_texts jid uid texts : forall m,
  map question_text (new_questions jid uid m texts) = texts.
Proof.
  induction texts as [|t texts IH]; intros m; cbn; [reflexivity|].
  now rewrite IH.
Qed.

Lemma get_questions_run order jid user w j :
  In j (job_descriptions (db w)) -> jd_id j = jid -> jd_user_id j = id user ->
  request (job_descriptions.get_questions order jid user) w
  = (Returned (all order
                 (filter (fun q => N.eqb (q_job_description_id q) jid)
                         (questions (db w)))), w).
Proof.
  intros Hin Hid Hown.
  unfold request, job_descriptions.get_questions, bind, db_query, get_world, ret.
  cbn.
  destruct (first_filter_some _
              (fun j => N.eqb (jd_id j) jid && N.eqb (jd_user_id j) (id user))
              (job_descriptions (db w)) j Hin) as (j' & ->).
  - rewrite Hid, Hown, !N.eqb_refl. reflexivity.
  - reflexivity.
Qed.

Lemma all_perm A (order : RowOrder A) (rows : list A) :
  Permutation (all order rows) rows.
Proof. apply arrange_perm. Qed.

(** X20.  What a successful upload has generated is what [get_questions]
    then reads back for the returned job description: the five question
    texts the model gave, each once, in the order the database returns the
    rows, each row recorded for the uploader and for that job description;
    the job description carries no error message. *)
Theorem uploaded_questions_are_read_back :
  forall svc settings upload company title user w path text st1 qs o w' order,
    world_ok w ->
    pdf_name (filename upload) = true ->
    (size_of (payload upload) <= 10 * MiB)%Z ->
    r2_storage_service.save_pdf svc (storage_service settings)
      (rewound upload) (filename upload) (fresh_state w)
    = (Returned (path, text), st1) ->
    returns (claude_service.generate_questions svc text company title) qs ->
    request (job_descriptions.upload_job_description
               svc settings upload company title user) w
    = (o, w') ->
    exists j rows,
      o = Returned j
      /\ error_message j = None
      /\ request (job_descriptions.get_questions order (jd_id j) user) w'
         = (Returned rows, w')
      /\ Permutation (map question_text rows) qs
      /\ length rows = 5%nat
      /\ Forall (fun q => q_user_id q = id user
                          /\ q_job_description_id q = jd_id j) rows.
Proof.
  intros svc settings upload company title user w path text st1 qs o w' order
         Hok Hname Hsize Hsave Hgen Hrun.
  unfold request in Hrun.
  rewrite (upload_accepted _ _ _ _ _ _ Hname Hsize) in Hrun.
  erewrite try_returned in Hrun by (eapply upload_try_generated; eassumption).
  injection Hrun as <- <-.
  do 2 eexists. split; [reflexivity|]. split; [reflexivity|]. split.
  - apply get_questions_run with
      (j := job_row user company title path text (N.succ (uuid_counter w))
                    (clock w) QUESTIONS_GENERATED None).
    + cbn. apply in_or_app. right. now left.
    + reflexivity.
    + reflexivity.
  - cbn. rewrite filter_app, (no_question_under_fresh_id _ _ Hok) by lia.
    rewrite filter_everything by apply new_questions_attached.
    cbn [app]. split; [|split].
    + eapply Permutation_trans; [apply Permutation_map, all_perm|].
      rewrite new_questions_texts. reflexivity.
    + rewrite (Permutation_length (all_perm _ _ _)), new_questions_length.
      exact (generate_questions_five _ _ _ _ _ Hgen).
    + apply (Permutation_Forall (Permutation_sym (all_perm _ _ _))).
      apply new_questions_owner.
Qed.

Lemma uploaded_questions_are_read_back_witness :
  exists j rows,
    request (job_descriptions.get_questions Scenario.reverse_order (jd_id j)
               Scenario.alice) Scenario.world1
    = (Returned rows, Scenario.world1)
    /\ Permutation (map question_text rows) Scenario.five_questions
    /\ length rows = 5%nat.
Proof.
  edestruct (uploaded_questions_are_read_back
               Scenario.services_up Scenario.settings0 Scenario.jd_pdf
               "Acme" "Engineer" Scenario.alice Scenario.world0)
    as (j & rows & _ & _ & Hread & Htexts & Hlen & _).
  - reflexivity.
  - reflexivity.
  - vm_compute. discriminate.
  - reflexivity.
  - intros st. reflexivity.
  - vm_compute. reflexivity.
  - exists j, rows. split; [exact Hread |]. split; [exact Htexts | exact Hlen].
Defined.

(** X21.  [get_questions] answers 404 "Job description not found" for an id
    under which the caller owns no job description, whether none exists or
    it is someone else's: the two cases cannot be told apart.  For a job
    description of the caller it returns the questions recorded under that
    id, each once and no other row, in the order the database returns them,
    whatever the status of the job description (an empty list when
    generation failed).  The world is not changed. *)
Theorem get_questions_needs_the_owner :
  forall order job_description_id user w,
    ((forall j, In j (job_descriptions (db w)) ->
                jd_id j = job_description_id -> jd_user_id j <> id user) ->
     request (job_descriptions.get_questions order job_description_id user) w
     = (Raised (HTTPException HTTP_404_NOT_FOUND "Job description not found"), w))
    /\
    (forall j,
       In j (job_descriptions (db w)) ->
       jd_id j = job_description_id -> jd_user_id j = id user ->
       exists rows,
         request (job_descriptions.get_questions order job_description_id user) w
         = (Returned rows, w)
         /\ Permutation rows
              (filter (fun q => N.eqb (q_job_description_id q) job_description_id)
                      (questions (db w)))).
Proof.
  intros order jid user w. split.
  - intros Hnone.
    unfold request, job_descriptions.get_questions, bind, db_query, get_world, ret.
    cbn. rewrite first_filter_none; [reflexivity|].
    intros j Hj. apply andb_false_iff.
    destruct (N.eqb_spec (jd_id j) jid) as [E|E]; [right|now left].
    apply N.eqb_neq. now apply Hnone.
  - intros j Hin Hid Hown. eexists. split.
    + apply get_questions_run with (j := j); assumption.
    + apply all_perm.
Qed.

Lemma get_questions_needs_the_owner_witness :
  request (job_descriptions.get_questions Scenario.insertion_order 2
             Scenario.bob) Scenario.world1
  = (Raised (HTTPException HTTP_404_NOT_FOUND "Job description not found"),
     Scenario.world1)
  /\ request (job_descriptions.get_questions Scenario.insertion_order 5
                Scenario.alice) Scenario.world1
     = (Raised (HTTPException HTTP_404_NOT_FOUND "Job description not found"),
        Scenario.world1)
  /\ exists rows,
       request (job_descriptions.get_questions Scenario.reverse_order 2
                  Scenario.alice) Scenario.world1
       = (Returned rows, Scenario.world1)
       /\ Permutation rows (questions (db Scenario.world1))
       /\ map q_id rows = [7; 6; 5; 4; 3]%N.
Proof.
  split; [|split].
  - apply (proj1 (get_questions_needs_the_owner Scenario.insertion_order 2%N
                    Scenario.bob Scenario.world1)).
    intros j [<-|[]] _. discriminate.
  - apply (proj1 (get_questions_needs_the_owner Scenario.insertion_order 5%N
                    Scenario.alice Scenario.world1)).
    intros j [<-|[]]. discriminate.
  - edestruct (proj2 (get_questions_needs_the_owner Scenario.reverse_order 2%N
                        Scenario.alice Scenario.world1))
      as (rows & Hrun & Hperm).
    + left. reflexivity.
    + reflexivity.
    + reflexivity.
    + exists rows. split; [exact Hrun|]. split; [exact Hperm|].
      injection Hrun as <-. reflexivity.
Defined.

(** X22.  An upload never leaves a job description in PENDING.  Whatever
    the services answer, the request adds at most one row to the table: it
    adds one exactly when it returns, that row is the one it returns, and
    its status is QUESTIONS_GENERATED, or ERROR with an error message; when
    the request is answered with an error, the table is as it was. *)
Theorem upload_leaves_no_pending_row :
  forall svc settings upload company title user w o w',
    world_ok w ->
    request (job_descriptions.upload_job_description
               svc settings upload company title user) w
    = (o, w') ->
    (exists j,
       o = Returned j
       /\ job_descriptions (db w') = (job_descriptions (db w) ++ [j])%list
       /\ (status j = QUESTIONS_GENERATED
           \/ (status j = ERROR /\ exists m, error_message j = Some m)))
    \/ (exists e,
          o = Raised e
          /\ job_descriptions (db w') = job_descriptions (db w)).
Proof.
  intros svc settings upload company title user w o w' Hok Hrun.
  destruct (pdf_name (filename upload)) eqn:Hname.
  2: { unfold request in Hrun. rewrite upload_rejected_name in Hrun by exact Hname.
       injection Hrun as <- <-. right. eexists. split; reflexivity. }
  destruct (Z_le_gt_dec (size_of (payload upload)) (10 * MiB)) as [Hsize|Hsize].
  2: { unfold request in Hrun.
       rewrite upload_rejected_size in Hrun; [|exact Hname|lia].
       injection Hrun as <- <-. right. eexists. split; reflexivity. }
  destruct (r2_storage_service.save_pdf svc (storage_service settings)
              (rewound upload) (filename upload) (fresh_state w))
    as [[[path text]|e] st1] eqn:Hsave.
  - unfold request in Hrun.
    rewrite (upload_accepted _ _ _ _ _ _ Hname Hsize) in Hrun.
    destruct (generate_questions_cases svc text company title)
      as [(qs & Hgen & _)|(e & Hgen)].
    + erewrite try_returned in Hrun
        by (eapply upload_try_generated; eassumption).
      injection Hrun as <- <-. left. eexists.
      split; [reflexivity|]. split; [reflexivity|]. now left.
    + erewrite try_returned in Hrun
        by (eapply upload_try_failed; eassumption).
      injection Hrun as <- <-. left. eexists.
      split; [reflexivity|]. split; [reflexivity|].
      right. split; [reflexivity|]. eexists. reflexivity.
  - erewrite upload_raise_is_500 in Hrun;
      [| exact Hname | exact Hsize
       | unfold job_descriptions.upload_try; erewrite bind_raised by exact Hsave;
         reflexivity].
    injection Hrun as <- <-. right. eexists. split; [reflexivity|].
    destruct (save_pdf_frame _ _ _ _ _ _ _ Hsave) as (_ & Hd & _).
    now rewrite Hd.
Qed.

Lemma upload_leaves_no_pending_row_witness :
  exists j w',
    request (job_descriptions.upload_job_description
               Scenario.services_model_down Scenario.settings0 Scenario.jd_pdf
               "Acme" "Engineer" Scenario.alice) Scenario.world0
    = (Returned j, w')
    /\ status j <> PENDING.
Proof.
  destruct (upload_leaves_no_pending_row
              Scenario.services_model_down Scenario.settings0 Scenario.jd_pdf
              "Acme" "Engineer" Scenario.alice Scenario.world0 _ _
              eq_refl eq_refl)
    as [(j & Ho & _ & Hstatus) | (e & Ho & _)]; [|discriminate].
  do 2 eexists. split; [reflexivity|].
  injection Ho as <-. cbn. discriminate.
Defined.

(* ===================================================================== *)
(** * Further properties: the invariant and the orphan, at work *)
(* ===================================================================== *)

Lemma invariant_world1 : invariant Scenario.world1.
Proof.
  unfold invariant, world_ok. split; [reflexivity|]. split.
  - repeat constructor; cbn; intuition discriminate.
  - apply owner_consistentb_sound. reflexivity.
Qed.

Lemma upload_keeps_invariant_witness :
  invariant
    (snd (request (job_descriptions.upload_job_description
                     Scenario.services_up Scenario.settings0 Scenario.jd_pdf
                     "Acme" "Engineer" Scenario.alice) Scenario.world0)).
Proof.
  apply upload_keeps_invariant.
  unfold invariant, world_ok. split; [reflexivity|]. split; [constructor|].
  apply owner_consistentb_sound. reflexivity.
Defined.

Lemma submit_keeps_invariant_witness :
  invariant
    (snd (request (responses.submit_response
                     Scenario.services_model_down Scenario.settings0 3
                     Scenario.answer_webm Scenario.alice) Scenario.world1)).
Proof.
  apply submit_keeps_invariant. exact invariant_world1.
Defined.

Lemma orphaned_response_is_never_listed_witness :
  exists r items,
    In r (responses (db Scenario.world2))
    /\ r_question_id r = 3%N
    /\ request (responses.list_responses 3 Scenario.alice) Scenario.world2
       = (Returned items, Scenario.world2)
    /\ ~ In (r_id r) (map responses.li_response_id items).
Proof.
  eapply (orphaned_response_is_never_listed
            Scenario.services_model_down Scenario.settings0 3%N
            Scenario.answer_webm Scenario.alice Scenario.world1).
  - reflexivity.
  - reflexivity.
  - vm_compute. discriminate.
  - reflexivity.
  - intros st. reflexivity.
  - intros st. reflexivity.
  - vm_compute. reflexivity.
Defined.
